(** * rustc-perf compile-section analysis: [analysis/analyse.py]

    A shallow embedding of the plotting script and the properties of its
    normalisation, row selection, aggregation and nested stacked-bar layout.

    Numbers.  Python floats and the float64 columns of a pandas frame are IEEE
    binary64 values; they are embedded as [spec_float] with the operations of
    [SpecFloat] at precision 53 (module [F64]).  The layout is also run over
    exact rationals (instance [Q_number]), for the bounds that hold of the
    exact sums and not of the rounded ones.

    Library code.  pandas ([DataFrame] indexing, [melt], [mean]), matplotlib
    ([pyplot]) and seaborn ([FacetGrid]) are not part of the repository; they
    are embedded from their documented behaviour, as far as the script uses
    them. *)

From Stdlib Require Import ZArith QArith Qabs Qpower Qfield Lqa List String.
From Stdlib Require Import Floats.SpecFloat.
From stdpp Require Import gmap strings list.

Local Open Scope Z_scope.

(** ** IEEE binary64 arithmetic *)

Module F64.

Definition prec : Z := 53.
Definition emax : Z := 1024.

Definition of_Z (z : Z) : spec_float := binary_normalize prec emax z 0 false.
Definition add : spec_float -> spec_float -> spec_float := SFadd prec emax.
Definition sub : spec_float -> spec_float -> spec_float := SFsub prec emax.
Definition mul : spec_float -> spec_float -> spec_float := SFmul prec emax.
Definition div : spec_float -> spec_float -> spec_float := SFdiv prec emax.
Definition eqb : spec_float -> spec_float -> bool := SFeqb.
Definition leb : spec_float -> spec_float -> bool := SFleb.
Definition abs : spec_float -> spec_float := SFabs.

Definition nan : spec_float := S754_nan.

Definition is_nan (x : spec_float) : bool :=
  match x with S754_nan => true | _ => false end.

Definition is_zero (x : spec_float) : bool :=
  match x with S754_zero _ => true | _ => false end.

Definition is_finite (x : spec_float) : bool :=
  match x with S754_zero _ | S754_finite _ _ _ => true | _ => false end.

(** The value [m * 2^e], rounded to binary64 (exact when [m] has at most 53
    bits). *)
Definition of_scaled (m e : Z) : spec_float := binary_normalize prec emax m e false.

(** The rational value of a finite number. *)
Definition to_Q (x : spec_float) : Q :=
  match x with
  | S754_finite s m e =>
      ((if s then Z.neg m else Z.pos m) # 1) * Qpower 2 e
  | _ => 0
  end.

(** [Series.astype(np.float32)]: round to nearest-even binary32 (precision
    24, infinities at exponent 128).  The binary32 value is then used in
    binary64 arithmetic, where it is exactly representable: it is brought
    back to the canonical binary64 mantissa. *)
Definition to_f32 (x : spec_float) : spec_float :=
  match x with
  | S754_finite s m e =>
      match binary_round 24 128 s m e with
      | S754_finite s' m' e' => binary_round prec emax s' m' e'
      | y => y
      end
  | _ => x
  end.

End F64.

Abbreviation float := spec_float.

(** ** The scalars of the layout computation

    [plot_bar] only adds its inputs and uses the literals 0, 1, 2 and 100.
    The class lets the same code run on binary64 (the program) and on exact
    rationals. *)

Class Number (A : Type) := {
  nadd : A -> A -> A;
  nsub : A -> A -> A;
  ndiv : A -> A -> A;
  nlit : Z -> A;
  neqb : A -> A -> bool
}.

#[export] Instance float_number : Number spec_float := {|
  nadd := F64.add; nsub := F64.sub; ndiv := F64.div;
  nlit := F64.of_Z; neqb := F64.eqb
|}.

#[export] Instance Q_number : Number Q := {|
  nadd := Qplus; nsub := Qminus; ndiv := Qdiv;
  nlit := inject_Z; neqb := Qeq_bool
|}.

(** ** Rectangles drawn by [plt.bar]

    [plt.bar(y=.., x=[..], width=[..], color=PALETTE[c], height=.., align="edge")]
    adds one rectangle with left edge [x] (edge alignment), the given [width]
    and [height]; [y] is not a parameter of [bar] and reaches the rectangle as
    a patch property, which sets its lower edge.  The colour is kept as its
    index in [PALETTE]. *)

Record Bar (A : Type) := mkBar {
  bar_x : A;
  bar_y : A;
  bar_width : A;
  bar_height : A;
  bar_color : nat
}.
Arguments mkBar {A} _ _ _ _ _.
Arguments bar_x {A} _.
Arguments bar_y {A} _.
Arguments bar_width {A} _.
Arguments bar_height {A} _.
Arguments bar_color {A} _.

(** Palette indices ([create_bars], lines 70-79). *)
Definition c_frontend : nat := 0.
Definition c_backend : nat := 1.
Definition c_linker : nat := 2.
Definition c_borrowck : nat := 3.
Definition c_typeck : nat := 4.
Definition c_metadata : nat := 5.

Section Layout.
Context {A : Type} `{Number A}.

(** [plot_bar], lines 46-64: the six [plt.bar] calls in drawing order, with
    the running cursor [fe_base]. *)
Definition plot_bar_bars
    (avg_backend avg_linker avg_borrowck avg_typeck avg_metadata : A)
    : list (Bar A) :=
  let fe_base := nadd avg_backend avg_linker in
  let height := nlit 1 in
  let y_offset := ndiv height (nlit 2) in
  let inner_height := nsub height y_offset in
  let b_frontend := mkBar (nlit 0) (nlit 0) (nlit 100) height c_frontend in
  let b_borrowck := mkBar fe_base y_offset avg_borrowck inner_height c_borrowck in
  let fe_base := nadd fe_base avg_borrowck in
  let b_typeck := mkBar fe_base y_offset avg_typeck inner_height c_typeck in
  let fe_base := nadd fe_base avg_typeck in
  let b_metadata := mkBar fe_base y_offset avg_metadata inner_height c_metadata in
  let b_backend := mkBar avg_linker (nlit 0) avg_backend height c_backend in
  let b_linker := mkBar (nlit 0) (nlit 0) avg_linker height c_linker in
  [b_frontend; b_borrowck; b_typeck; b_metadata; b_backend; b_linker].

(** The values [fe_base] holds, in order: after line 46, after line 57 and
    after line 60. *)
Definition fe_base_values
    (avg_backend avg_linker avg_borrowck avg_typeck : A) : list A :=
  let fe_base0 := nadd avg_backend avg_linker in
  let fe_base1 := nadd fe_base0 avg_borrowck in
  let fe_base2 := nadd fe_base1 avg_typeck in
  [fe_base0; fe_base1; fe_base2].

(** Layers: the outer bars are drawn at full height ([height = 1]), the
    inner ones at [inner_height]. *)
Definition is_outer (b : Bar A) : bool := neqb (bar_height b) (nlit 1).

Definition outer_bars (bs : list (Bar A)) : list (Bar A) :=
  List.filter is_outer bs.

Definition inner_bars (bs : list (Bar A)) : list (Bar A) :=
  List.filter (fun b => negb (is_outer b)) bs.

(** A segment as the specification names it: offset, width and colour. *)
Definition segment (b : Bar A) : A * A * nat :=
  (bar_x b, bar_width b, bar_color b).

(** Right edge of a rectangle. *)
Definition bar_right (b : Bar A) : A := nadd (bar_x b) (bar_width b).

(** Sum of the widths, left to right in drawing order. *)
Definition sum_widths (bs : list (Bar A)) : A :=
  match bs with
  | [] => nlit 0
  | b :: bs' => fold_left nadd (List.map bar_width bs') (bar_width b)
  end.

End Layout.

(** ** The data frame

    One row of [results-full.csv]: four categorical columns, six duration
    columns, and whatever further float columns the frame carries ([extra],
    keyed by column name; the script adds and drops the column "total"). *)

Inductive Phase := Frontend | Backend | Linker | Borrowck | Typeck | Metadata.

#[export] Instance Phase_eq_dec : EqDecision Phase.
Proof. solve_decision. Defined.

Definition phase_name (p : Phase) : string :=
  match p with
  | Frontend => "frontend" | Backend => "backend" | Linker => "linker"
  | Borrowck => "borrowck" | Typeck => "typeck" | Metadata => "metadata"
  end.

Record Row := mkRow {
  col_benchmark : string;
  col_profile : string;
  col_scenario : string;
  col_kind : string;
  col_frontend : float;
  col_backend : float;
  col_linker : float;
  col_borrowck : float;
  col_typeck : float;
  col_metadata : float;
  extra : gmap string float
}.

Abbreviation DataFrame := (list Row).

(** [df[key]] for one of the six duration columns, row by row. *)
Definition get_col (key : Phase) (r : Row) : float :=
  match key with
  | Frontend => col_frontend r | Backend => col_backend r
  | Linker => col_linker r | Borrowck => col_borrowck r
  | Typeck => col_typeck r | Metadata => col_metadata r
  end.

(** [df[key] = v], row by row. *)
Definition set_col (key : Phase) (v : float) (r : Row) : Row :=
  let '(mkRow b p s k fe be li bo ty me ex) := r in
  match key with
  | Frontend => mkRow b p s k v be li bo ty me ex
  | Backend => mkRow b p s k fe v li bo ty me ex
  | Linker => mkRow b p s k fe be v bo ty me ex
  | Borrowck => mkRow b p s k fe be li v ty me ex
  | Typeck => mkRow b p s k fe be li bo v me ex
  | Metadata => mkRow b p s k fe be li bo ty v ex
  end.

Definition set_extra (name : string) (v : float) (r : Row) : Row :=
  let '(mkRow b p s k fe be li bo ty me ex) := r in
  mkRow b p s k fe be li bo ty me (<[name := v]> ex).

Definition drop_extra (name : string) (r : Row) : Row :=
  let '(mkRow b p s k fe be li bo ty me ex) := r in
  mkRow b p s k fe be li bo ty me (delete name ex).

(** The invariant of a record in the data model: six non-negative durations
    (valid binary64 values), the three sub-phases together within the
    frontend. *)
Definition duration_ok (x : float) : bool :=
  valid_binary F64.prec F64.emax x && F64.leb (F64.of_Z 0) x.

(** What [duration_ok] lets through: a zero, a positive number whose exponent
    is in range, or the positive infinity. *)
Definition nonneg_in_range (x : float) : Prop :=
  match x with
  | S754_zero _ => True
  | S754_infinity s => s = false
  | S754_nan => False
  | S754_finite s _ e => s = false /\ emin F64.prec F64.emax <= e
  end.

Definition record_invariant (r : Row) : bool :=
  forallb (fun key => duration_ok (get_col key r))
          [Frontend; Backend; Linker; Borrowck; Typeck; Metadata]
  && F64.leb (F64.add (F64.add (col_borrowck r) (col_typeck r)) (col_metadata r))
             (col_frontend r).

(** ** Normalisation (module top level, lines 134-137)

    A column that is read but absent raises [KeyError]: [None]. *)

(** [df["frontend"] + df["backend"] + df["linker"]] for float64 columns
    (for columns that [read_csv] typed int64 see [typed_total]). *)
Definition row_total (r : Row) : float :=
  F64.add (F64.add (col_frontend r) (col_backend r)) (col_linker r).

(** Line 134: [df["total"] = ...] *)
Definition assign_total (df : DataFrame) : DataFrame :=
  List.map (fun r => set_extra "total" (row_total r) r) df.

(** Line 136: [df[key] = (df[key].astype(np.float32) / df["total"]) * 100],
    on one row and on the frame. *)
Definition normalize_cell (key : Phase) (r : Row) : option Row :=
  total ← extra r !! "total";
  Some (set_col key
          (F64.mul (F64.div (F64.to_f32 (get_col key r)) total) (F64.of_Z 100)) r).

Definition normalize_column (key : Phase) (df : DataFrame) : option DataFrame :=
  mapM (normalize_cell key) df.

(** Line 135: the keys of the [for] loop, in order. *)
Definition normalized_keys : list Phase :=
  [Frontend; Backend; Linker; Borrowck; Typeck; Metadata].

(** Line 137: [df.drop(columns=["total"])], on one row and on the frame. *)
Definition drop_cell (r : Row) : option Row :=
  _ ← extra r !! "total"; Some (drop_extra "total" r).

Definition drop_total (df : DataFrame) : option DataFrame :=
  mapM drop_cell df.

Definition normalize (df : DataFrame) : option DataFrame :=
  let df := assign_total df in
  df ← fold_left (fun acc key => df ← acc; normalize_column key df)
         normalized_keys (Some df);
  drop_total df.

(** The normalisation of one record in the specification's words
    ([field / total * 100], in binary64). *)
Definition spec_normalize_field (key : Phase) (r : Row) : float :=
  F64.mul (F64.div (get_col key r) (row_total r)) (F64.of_Z 100).

(** What the loop computes for one field: the numerator is narrowed to
    binary32 first. *)
Definition normalize_field (key : Phase) (r : Row) : float :=
  F64.mul (F64.div (F64.to_f32 (get_col key r)) (row_total r)) (F64.of_Z 100).

(** The normalised record: every duration replaced by [normalize_field], the
    helper column gone, everything else as it was. *)
Definition normalized_row (r : Row) : Row :=
  mkRow (col_benchmark r) (col_profile r) (col_scenario r) (col_kind r)
        (normalize_field Frontend r) (normalize_field Backend r)
        (normalize_field Linker r) (normalize_field Borrowck r)
        (normalize_field Typeck r) (normalize_field Metadata r)
        (delete "total" (extra r)).

(** The same with the specification's formula. *)
Definition spec_normalized_row (r : Row) : Row :=
  mkRow (col_benchmark r) (col_profile r) (col_scenario r) (col_kind r)
        (spec_normalize_field Frontend r) (spec_normalize_field Backend r)
        (spec_normalize_field Linker r) (spec_normalize_field Borrowck r)
        (spec_normalize_field Typeck r) (spec_normalize_field Metadata r)
        (delete "total" (extra r)).

(** ** Row selection *)

(** [filter_data], lines 12-20 *)
Definition filter_data (data : DataFrame)
    (profile scenario kind : option string) : DataFrame :=
  let data :=
    match profile with
    | Some p => filter (fun r => col_profile r = p) data
    | None => data
    end in
  let data :=
    match scenario with
    | Some s => filter (fun r => col_scenario r = s) data
    | None => data
    end in
  let data :=
    match kind with
    | Some k => filter (fun r => col_kind r = k) data
    | None => data
    end in
  data.

(** [data[data["benchmark"] == benchmark]] when a benchmark is given
    ([single_bench] line 86, [grid] lines 103-104). *)
Definition filter_benchmark (data : DataFrame) (benchmark : option string)
    : DataFrame :=
  match benchmark with
  | Some b => filter (fun r => col_benchmark r = b) data
  | None => data
  end.

(** The rows a render call aggregates: the caller's benchmark restriction
    followed by [filter_data] as [plot_bar] (line 35) applies it. *)
Definition select_rows (data : DataFrame)
    (benchmark profile scenario kind : option string) : DataFrame :=
  filter_data (filter_benchmark data benchmark) profile scenario kind.

(** An omitted predicate holds of every value. *)
Definition matches (o : option string) (v : string) : Prop :=
  match o with Some x => v = x | None => True end.

#[export] Instance matches_dec o v : Decision (matches o v).
Proof. destruct o; simpl; apply _. Defined.

(** ** Aggregation *)

(** [pd.melt(data, id_vars=["profile","scenario","kind"], value_vars=...,
    var_name="section", value_name="Percent")]: one block per value column,
    each block in row order. *)
Record MeltRow := mkMelt {
  m_profile : string;
  m_scenario : string;
  m_kind : string;
  section : string;
  Percent : float
}.

Definition melt (data : DataFrame) (value_vars : list Phase) : list MeltRow :=
  flat_map (fun key =>
              List.map (fun r => mkMelt (col_profile r) (col_scenario r)
                                        (col_kind r) (phase_name key)
                                        (get_col key r)) data)
           value_vars.

(** [data[data["section"] == name]["Percent"]] *)
Definition section_percent (data : list MeltRow) (name : string) : list float :=
  List.map Percent (filter (fun m => section m = name) data).

(** [Series.mean()] is pandas' [nanmean] ([skipna=True]; the optional
    accelerator bottleneck is not used): the NaN entries are replaced by 0, the
    array is summed with [ndarray.sum()], and the sum is divided by the number
    of entries that are not NaN; with no such entry the mean is NaN.

    [ndarray.sum()] of a contiguous float64 array starts from the identity 0
    and adds numpy's pairwise sum of the array.  The pairwise sum of fewer
    than 8 values adds them left to right, starting from -0.0; for 8 to 128
    values it keeps 8 accumulators, the [j]-th holding the values at the
    positions [j], [j + 8], [j + 16], ... of the full blocks of 8, adds the
    accumulators pairwise and then the remaining values one by one; a longer
    array is split in two halves (the first a multiple of 8 long) that are
    summed in the same way. *)
Fixpoint unrolled_loop (blocks : nat) (r a : list float) : list float * list float :=
  match blocks with
  | O => (r, a)
  | S k => unrolled_loop k (zip_with F64.add r (firstn 8 a)) (skipn 8 a)
  end.

Definition sum_lanes (r : list float) : float :=
  match r with
  | [r0; r1; r2; r3; r4; r5; r6; r7] =>
      F64.add (F64.add (F64.add r0 r1) (F64.add r2 r3))
              (F64.add (F64.add r4 r5) (F64.add r6 r7))
  | _ => F64.nan
  end.

Definition sum_block (a : list float) : float :=
  let '(r, rest) := unrolled_loop (length a / 8 - 1) (firstn 8 a) (skipn 8 a) in
  fold_left F64.add rest (sum_lanes r).

(** The recursion halves the array; [fuel] bounds its depth, and the length
    of the array is always enough (lemma [pairwise_sum_fuel]). *)
Fixpoint pairwise_sum (fuel : nat) (a : list float) : float :=
  let n := length a in
  if (n <? 8)%nat then fold_left F64.add a (S754_zero true)
  else if (n <=? 128)%nat then sum_block a
  else match fuel with
       | O => F64.nan
       | S fuel =>
           let n2 := (n / 2)%nat in
           let n2 := (n2 - n2 mod 8)%nat in
           F64.add (pairwise_sum fuel (firstn n2 a)) (pairwise_sum fuel (skipn n2 a))
       end.

Definition np_sum (a : list float) : float :=
  F64.add (F64.of_Z 0) (pairwise_sum (length a) a).

Definition mean (xs : list float) : float :=
  let filled := List.map (fun x => if F64.is_nan x then F64.of_Z 0 else x) xs in
  let count := length (List.filter (fun x => negb (F64.is_nan x)) xs) in
  match count with
  | O => F64.nan
  | _ => F64.div (np_sum filled) (F64.of_Z (Z.of_nat count))
  end.

(** ** The pyplot state

    [pyplot] keeps a current figure with a current axes; every [plt.*] call of
    the script acts on them, and nothing in the script closes or clears a
    figure. *)

Record Patch := mkPatch { patch_color : nat; patch_label : string }.

Record Legend := mkLegend {
  handles : list Patch;
  loc : string;
  bbox_to_anchor : Q * Q
}.

Record Axes := mkAxes {
  ax_bars : list (Bar float);
  ax_legend : option Legend;
  ax_xlabel : option string;
  ax_yticks : bool;
  ax_hidden_spines : gset string
}.

Record Figure := mkFigure {
  fig_axes : list Axes;
  fig_current : nat;
  fig_size_inches : option (Z * Z);
  fig_dpi : option Z
}.

Record Plt := mkPlt {
  plt_figure : option Figure;
  plt_saved : list (string * Figure)
}.

Definition new_axes : Axes := mkAxes [] None None true ∅.
Definition new_figure : Figure := mkFigure [] 0%nat None None.

(** [plt.gcf()]: the current figure, created when there is none. *)
Definition gcf (st : Plt) : Figure := default new_figure (plt_figure st).

(** [plt.gca()] on a figure: an axes is added when the figure has none. *)
Definition with_gca (f : Figure) : Figure :=
  match fig_axes f with
  | [] => mkFigure [new_axes] 0%nat (fig_size_inches f) (fig_dpi f)
  | _ => f
  end.

Definition update_gcf (g : Figure -> Figure) (st : Plt) : Plt :=
  mkPlt (Some (g (gcf st))) (plt_saved st).

Definition update_axes (g : Axes -> Axes) (i : nat) (f : Figure) : Figure :=
  mkFigure (alter g i (fig_axes f)) (fig_current f)
           (fig_size_inches f) (fig_dpi f).

Definition update_gca_fig (g : Axes -> Axes) (f : Figure) : Figure :=
  let f := with_gca f in update_axes g (fig_current f) f.

Definition update_gca (g : Axes -> Axes) (st : Plt) : Plt :=
  update_gcf (update_gca_fig g) st.

(** [ax_bars] records the rectangles as they are passed to [plt.bar]
    (offset, lower edge, width, height, colour), call by call.  (The patch
    matplotlib makes of a call has the width [(x + width) - x], which can
    differ from [width] in the last bit.) *)
Definition add_bar (b : Bar float) (ax : Axes) : Axes :=
  mkAxes (ax_bars ax ++ [b]) (ax_legend ax) (ax_xlabel ax) (ax_yticks ax)
         (ax_hidden_spines ax).

Definition set_legend (l : option Legend) (ax : Axes) : Axes :=
  mkAxes (ax_bars ax) l (ax_xlabel ax) (ax_yticks ax) (ax_hidden_spines ax).

Definition set_xlabel (s : string) (ax : Axes) : Axes :=
  mkAxes (ax_bars ax) (ax_legend ax) (Some s) (ax_yticks ax)
         (ax_hidden_spines ax).

Definition set_null_locator (ax : Axes) : Axes :=
  mkAxes (ax_bars ax) (ax_legend ax) (ax_xlabel ax) false
         (ax_hidden_spines ax).

Definition hide_spine (s : string) (ax : Axes) : Axes :=
  mkAxes (ax_bars ax) (ax_legend ax) (ax_xlabel ax) (ax_yticks ax)
         ({[s]} ∪ ax_hidden_spines ax).

(** [for ax in fig.axes: ax.spines[...].set_visible(False)], lines 91-95 *)
Definition hide_all_spines (ax : Axes) : Axes :=
  hide_spine "left" (hide_spine "bottom" (hide_spine "right"
    (hide_spine "top" ax))).

Definition map_axes (g : Axes -> Axes) (f : Figure) : Figure :=
  mkFigure (List.map g (fig_axes f)) (fig_current f)
           (fig_size_inches f) (fig_dpi f).

Definition plt_bar (b : Bar float) : Plt -> Plt := update_gca (add_bar b).

Definition plt_legend (hs : list Patch) (l : string) (anchor : Q * Q)
    : Plt -> Plt :=
  update_gca (set_legend (Some (mkLegend hs l anchor))).

Definition set_size_inches (w h : Z) (f : Figure) : Figure :=
  mkFigure (fig_axes f) (fig_current f) (Some (w, h)) (fig_dpi f).

Definition set_dpi (d : Z) (f : Figure) : Figure :=
  mkFigure (fig_axes f) (fig_current f) (fig_size_inches f) (Some d).

(** [plt.savefig(name)]: the file records the figure as it is now.
    [plt_saved] keeps the calls in the order they are made; the files they
    leave on disk, where a later call replaces the file of an earlier call
    with the same name, are [files]. *)
Definition savefig (name : string) (st : Plt) : Plt :=
  mkPlt (Some (gcf st)) (plt_saved st ++ [(name, gcf st)]).

(** ** The plotting functions *)

(** [plot_bar], lines 33-66.  The keyword arguments seaborn adds ([color],
    [label]) are taken by [**kwargs] and not used. *)
Definition plot_bar (data : DataFrame) (profile scenario kind : option string)
    (st : Plt) : Plt :=
  let data := filter_data data profile scenario kind in
  let data := melt data [Frontend; Backend; Linker; Borrowck; Typeck; Metadata] in
  let avg_backend := mean (section_percent data "backend") in
  let avg_linker := mean (section_percent data "linker") in
  let avg_borrowck := mean (section_percent data "borrowck") in
  let avg_typeck := mean (section_percent data "typeck") in
  let avg_metadata := mean (section_percent data "metadata") in
  let st := fold_left (fun st b => plt_bar b st)
              (plot_bar_bars avg_backend avg_linker avg_borrowck avg_typeck
                             avg_metadata) st in
  let st := update_gca set_null_locator st in
  update_gca (set_xlabel "Percent out of whole compilation") st.

(** [create_bars], lines 69-81 *)
Definition create_bars (with_metadata : bool) : list Patch :=
  let bars :=
    [ mkPatch c_frontend "Frontend";
      mkPatch c_backend "Backend";
      mkPatch c_linker "Linker";
      mkPatch c_borrowck "borrowck";
      mkPatch c_typeck "typeck" ] in
  if with_metadata then bars ++ [mkPatch c_metadata "metadata"] else bars.

(** [single_bench], lines 84-98.  [bbox_inches="tight"] only crops the saved
    image. *)
Definition single_bench (data : DataFrame) (name benchmark profile scenario : string)
    (metadata : bool) (st : Plt) : Plt :=
  let ripgrep := filter (fun r => col_benchmark r = benchmark) data in
  let st := plot_bar ripgrep (Some profile) (Some scenario) None st in
  let st := plt_legend (create_bars metadata) "lower left" (1, 1 # 10)%Q st in
  let st := update_gcf (map_axes hide_all_spines) st in
  let st := update_gcf (set_size_inches 5 2) st in
  let st := update_gcf (set_dpi 300) st in
  savefig (name ++ ".png") st.

(** [sns.FacetGrid(data, row="profile", row_order=..., col="scenario",
    col_order=..., sharey=False)] opens a new current figure with one axes per
    (row, column) pair in row-major order, of 3x3 inches each and with the top
    and right spines removed; the last axes created is current.
    [g.map_dataframe(plot_bar)] visits the cells in the same order, skips a
    cell whose subset of the data is empty, and otherwise makes the cell's axes
    current and calls [plot_bar(data=subset)].  Facet titles are not modelled. *)
Definition row_order : list string := ["Check"; "Debug"; "Opt"].
Definition col_order : list string :=
  ["Full"; "IncrFull"; "IncrPatched0"; "IncrUnchanged"].

Definition facet_cells : list (string * string) :=
  flat_map (fun p => List.map (fun s => (p, s)) col_order) row_order.

Definition facet_axes : Axes :=
  hide_spine "right" (hide_spine "top" new_axes).

Definition FacetGrid (st : Plt) : Plt :=
  mkPlt (Some (mkFigure (replicate (length facet_cells) facet_axes)
                        (length facet_cells - 1)%nat
                        (Some (12, 9)) None))
        (plt_saved st).

Definition sca (i : nat) (f : Figure) : Figure :=
  mkFigure (fig_axes f) i (fig_size_inches f) (fig_dpi f).

Definition facet_data (data : DataFrame) (cell : string * string) : DataFrame :=
  filter (fun r => col_profile r = cell.1 /\ col_scenario r = cell.2) data.

Definition map_dataframe (data : DataFrame) (st : Plt) : Plt :=
  fold_left (fun st ic =>
               let '(i, cell) := ic in
               match facet_data data cell with
               | [] => st
               | subset => plot_bar subset None None None (update_gcf (sca i) st)
               end)
            (imap (fun i cell => (i, cell)) facet_cells) st.

(** [grid], lines 101-117.  [plt.tight_layout()] only moves the axes on the
    canvas. *)
Definition grid (data : DataFrame) (name : string)
    (benchmark kind : option string) (metadata : bool) (st : Plt) : Plt :=
  let data :=
    match benchmark with
    | Some b => filter (fun r => col_benchmark r = b) data
    | None => data
    end in
  let data :=
    match kind with
    | Some k => filter (fun r => col_kind r = k) data
    | None => data
    end in
  let st := FacetGrid st in
  let st := map_dataframe data st in
  let st := plt_legend (create_bars metadata) "lower left" (1, 4 # 10)%Q st in
  let st := update_gcf (set_size_inches 14 6) st in
  let st := update_gcf (set_dpi 300) st in
  savefig (name ++ ".png") st.

(** [single_benchmark], lines 120-128 *)
Definition single_benchmark (df : DataFrame) (benchmark : string)
    (metadata : bool) (st : Plt) : Plt :=
  let st := single_bench df (benchmark ++ "-debug-full") benchmark
              "Debug" "Full" true st in
  let st := single_bench df (benchmark ++ "-debug-incr-patched") benchmark
              "Debug" "IncrPatched0" true st in
  let st := single_bench df (benchmark ++ "-opt-incr-patched") benchmark
              "Opt" "IncrPatched0" true st in
  single_bench df (benchmark ++ "-check-incr-patched") benchmark
    "Check" "IncrPatched0" true st.

(** ** Observations on the pyplot state *)

(** The axes [plt.gca()] returns for a figure, and for the current figure. *)
Definition figure_axes (f : Figure) : Axes :=
  let f := with_gca f in
  default new_axes (fig_axes f !! fig_current f).

Definition current_axes (st : Plt) : Axes := figure_axes (gcf st).

(** The current axes of a figure is one of its axes. *)
Definition wf_figure (f : Figure) : bool :=
  match fig_axes f with
  | [] => true
  | axes => bool_decide (fig_current f < length axes)%nat
  end.

Definition wf_plt (st : Plt) : Prop := wf_figure (gcf st) = true.

(** The current figure has [n] axes, one of them current. *)
Definition ready (n : nat) (st : Plt) : Prop :=
  length (fig_axes (gcf st)) = n /\
  (fig_current (gcf st) < length (fig_axes (gcf st)))%nat.

(** The rectangles on the [j]-th axes of the current figure. *)
Definition bars_at (st : Plt) (j : nat) : option (list (Bar float)) :=
  ax_bars <$> fig_axes (gcf st) !! j.

(** A state with every legend taken off, in the current figure and in the
    saved files. *)
Definition erase_legend_fig (f : Figure) : Figure :=
  map_axes (set_legend None) f.

Definition erase_legends (st : Plt) : Plt :=
  mkPlt (erase_legend_fig <$> plt_figure st)
        (List.map (fun nf => (nf.1, erase_legend_fig nf.2)) (plt_saved st)).

(** The six rectangles [plot_bar] draws for a group of rows (lines 36-64). *)
Definition group_bars (rows : DataFrame) : list (Bar float) :=
  let data := melt rows [Frontend; Backend; Linker; Borrowck; Typeck; Metadata] in
  plot_bar_bars (mean (section_percent data "backend"))
                (mean (section_percent data "linker"))
                (mean (section_percent data "borrowck"))
                (mean (section_percent data "typeck"))
                (mean (section_percent data "metadata")).

(** What [map_dataframe] draws in a facet: nothing when the facet has no
    rows. *)
Definition cell_bars (data : DataFrame) (cell : string * string)
    : list (Bar float) :=
  match facet_data data cell with
  | [] => []
  | subset => group_bars subset
  end.

(** The legend entry of the metadata phase. *)
Definition metadata_patch : Patch := mkPatch c_metadata "metadata".

(** ** Sample records *)

(** The binary64 literal [0.1]. *)
Definition tenth : float := F64.div (F64.of_Z 1) (F64.of_Z 10).

Definition row_of (benchmark profile scenario kind : string)
    (frontend backend linker borrowck typeck metadata : float) : Row :=
  mkRow benchmark profile scenario kind
        frontend backend linker borrowck typeck metadata ∅.

(** A run whose only time is 0.1 in the frontend. *)
Definition row_tenth : Row :=
  row_of "ripgrep-14.1.0" "Debug" "Full" "bin"
         tenth (F64.of_Z 0) (F64.of_Z 0) (F64.of_Z 0) (F64.of_Z 0) (F64.of_Z 0).

(** A run with no time in any phase. *)
Definition row_zero : Row :=
  row_of "ripgrep-14.1.0" "Debug" "Full" "bin"
         (F64.of_Z 0) (F64.of_Z 0) (F64.of_Z 0)
         (F64.of_Z 0) (F64.of_Z 0) (F64.of_Z 0).

(** The record of the specification's concrete scenario. *)
Definition row_scenario : Row :=
  row_of "ripgrep-14.1.0" "Debug" "Full" "bin"
         (F64.of_Z 60) (F64.of_Z 30) (F64.of_Z 10)
         (F64.of_Z 20) (F64.of_Z 25) (F64.of_Z 5).

Definition row_other : Row :=
  row_of "diesel-1.4.8" "Opt" "IncrPatched0" "lib"
         (F64.of_Z 50) (F64.of_Z 40) (F64.of_Z 10)
         (F64.of_Z 10) (F64.of_Z 30) (F64.of_Z 2).

(** Five means whose exact sum is 100, none of them a whole number:
    39.00000000000001, 1.0000000000000036, 30.000000000000007,
    29.999999999999982 and 0. *)
Definition edge_backend : float := F64.of_scaled (39 * 2 ^ 47 + 1) (-47).
Definition edge_linker : float := F64.of_scaled (2 ^ 48 + 1) (-48).
Definition edge_borrowck : float := F64.of_scaled (30 * 2 ^ 47 + 1) (-47).
Definition edge_typeck : float := F64.of_scaled (30 * 2 ^ 48 - 5) (-48).
Definition edge_metadata : float := F64.of_Z 0.

(** The state of [pyplot] before the first call. *)
Definition plt_initial : Plt := mkPlt None [].

(** ** The rest of the script *)

(** [plot_violin], lines 25-29: the long frame handed to [sns.violinplot]. *)
Definition plot_violin_data (data : DataFrame)
    (profile scenario kind : option string) : list MeltRow :=
  let data := filter_data data profile scenario kind in
  melt data [Frontend; Backend; Linker].

(** [Series.unique()]: the distinct values in order of first appearance. *)
Fixpoint unique (l : list string) : list string :=
  match l with
  | [] => []
  | x :: l => x :: filter (fun y => y <> x) (unique l)
  end.

(** [sns.violinplot(data=data, x="section", y="Percent")], line 30: one violin
    per value of the column "section", in order of first appearance, drawn
    from the "Percent" values of its rows. *)
Definition violins (data : list MeltRow) : list (string * list float) :=
  (fun name => (name, section_percent data name)) <$> unique (section <$> data).

(** [plot_violin], lines 23-30, as the violins it draws. *)
Definition plot_violin (data : DataFrame)
    (profile scenario kind : option string) : list (string * list float) :=
  violins (plot_violin_data data profile scenario kind).

(** Line 132, [df.groupby(["benchmark", "kind"]).size().reset_index()["kind"]
    .value_counts()]: the groups are the distinct (benchmark, kind) pairs; the
    column "kind" of the reset frame has one entry per group; [value_counts]
    maps every value that occurs to its number of occurrences.  The order in
    which the counts are printed is not modelled. *)
Definition group_keys (df : DataFrame) : list (string * string) :=
  remove_dups ((fun r => (col_benchmark r, col_kind r)) <$> df).

Definition value_counts (l : list string) : gmap string nat :=
  foldr (fun k m => <[k := S (default 0%nat (m !! k))]> m) ∅ l.

Definition benchmarks_per_kind (df : DataFrame) : gmap string nat :=
  value_counts (snd <$> group_keys df).

(** Module top level, lines 134-145, on the frame read in line 131. *)
Definition main (df : DataFrame) (st : Plt) : option Plt :=
  df ← normalize df;
  let st := single_benchmark df "ripgrep-14.1.0" false st in
  let st := single_benchmark df "regex-automata-0.4.6" true st in
  let st := single_benchmark df "diesel-1.4.8" true st in
  let st := grid df "ripgrep" (Some "ripgrep-14.1.0") None false st in
  let st := grid df "binaries" None (Some "bin") false st in
  Some (grid df "libraries" None (Some "lib") false st).

(** The legend on the [j]-th axes of the current figure. *)
Definition legend_at (st : Plt) (j : nat) : option (option Legend) :=
  ax_legend <$> fig_axes (gcf st) !! j.

(** A state with further files saved before its own. *)
Definition with_saved (saved : list (string * Figure)) (st : Plt) : Plt :=
  mkPlt (plt_figure st) (saved ++ plt_saved st).

(** The profile and the scenario of a row are among those of the grid. *)
Definition in_grid (r : Row) : Prop :=
  col_profile r ∈ row_order /\ col_scenario r ∈ col_order.

#[export] Instance in_grid_dec r : Decision (in_grid r).
Proof. unfold in_grid. apply _. Defined.

(** A number that is not below zero: a zero of either sign, a positive
    finite number or the positive infinity. *)
Definition non_negative (x : float) : Prop :=
  match x with
  | S754_zero _ => True
  | S754_infinity s | S754_finite s _ _ => s = false
  | S754_nan => False
  end.


(** The cells of the grid that have rows, by index, and the cell whose axes
    is current when [map_dataframe] returns: the last cell that was drawn, or
    the last axes created when no cell was. *)
Definition drawn_cells (data : DataFrame) : list nat :=
  (filter (fun ic => (0 < length (facet_data data ic.2))%nat)
          (imap (fun i cell => (i, cell)) facet_cells)).*1.

Definition legend_cell (data : DataFrame) : nat :=
  default (length facet_cells - 1)%nat (last (drawn_cells data)).

(** The files of a state: their names, and for each the number of rectangles
    on the current axes of the figure it holds. *)
Definition saved_names (st : Plt) : list string := (plt_saved st).*1.

Definition saved_rectangles (st : Plt) : list nat :=
  (fun nf => length (ax_bars (figure_axes nf.2))) <$> plt_saved st.

(** The files the script writes, in order: four per [single_benchmark] call
    (lines 139-141), one per [grid] call (lines 143-145). *)
Definition output_files : list string :=
  [ "ripgrep-14.1.0-debug-full.png"; "ripgrep-14.1.0-debug-incr-patched.png";
    "ripgrep-14.1.0-opt-incr-patched.png"; "ripgrep-14.1.0-check-incr-patched.png";
    "regex-automata-0.4.6-debug-full.png";
    "regex-automata-0.4.6-debug-incr-patched.png";
    "regex-automata-0.4.6-opt-incr-patched.png";
    "regex-automata-0.4.6-check-incr-patched.png";
    "diesel-1.4.8-debug-full.png"; "diesel-1.4.8-debug-incr-patched.png";
    "diesel-1.4.8-opt-incr-patched.png"; "diesel-1.4.8-check-incr-patched.png";
    "ripgrep.png"; "binaries.png"; "libraries.png" ].

(** The [j]-th axes of the current figure. *)
Definition axes_at (st : Plt) (j : nat) : option Axes := fig_axes (gcf st) !! j.

(** An axes after [plot_bar] has drawn the rectangles [bs] on it: the
    rectangles are added, the label is set and the y ticks are gone. *)
Definition drawn (bs : list (Bar float)) (ax : Axes) : Axes :=
  mkAxes (ax_bars ax ++ bs) (ax_legend ax)
         (Some "Percent out of whole compilation") false (ax_hidden_spines ax).

(** Eight runs whose backend percentages are 3.5, 9.3, 3.0, 7.6, 1.4, 4.1,
    0.4 and 0.3, and a run whose percentages are all missing. *)
Definition row_backend (k : Z) : Row :=
  row_of "ripgrep-14.1.0" "Debug" "Full" "bin"
         (F64.of_Z 0) (F64.div (F64.of_Z k) (F64.of_Z 10)) (F64.of_Z 0)
         (F64.of_Z 0) (F64.of_Z 0) (F64.of_Z 0).

Definition eight_rows : DataFrame :=
  List.map row_backend [35; 93; 30; 76; 14; 41; 4; 3].

Definition row_missing : Row :=
  row_of "ripgrep-14.1.0" "Debug" "Full" "bin"
         F64.nan F64.nan F64.nan F64.nan F64.nan F64.nan.

(** The image files on disk after the [plt.savefig] calls of a state: each
    call writes its file, replacing the file an earlier call wrote under the
    same name. *)
Definition files (st : Plt) : gmap string Figure :=
  fold_left (fun m (nf : string * Figure) => <[nf.1 := nf.2]> m) (plt_saved st) ∅.

(** ** Column dtypes

    [pd.read_csv] (line 131) gives a numeric column the dtype [int64] when
    every cell of it is an integer literal and [float64] otherwise.  The frame
    [DataFrame] above is the frame after line 136, and the frame read when
    the six duration columns are float64.  [TypedRow] is a row of the frame
    as read, whatever the dtypes are: a cell of an [int64] column is an
    integer of the 64-bit range, a cell of a [float64] column a binary64
    value. *)
Inductive Num := Int64 (z : Z) | Float64 (x : float).

(** Two's complement wrap-around of int64 arithmetic. *)
Definition wrap64 (z : Z) : Z := (z + 2 ^ 63) mod 2 ^ 64 - 2 ^ 63.

(** [astype(np.float64)], as numpy applies it to an integer operand that
    meets a float one: round to nearest even. *)
Definition to_float64 (a : Num) : float :=
  match a with
  | Int64 z => F64.of_Z z
  | Float64 x => x
  end.

(** [Series + Series]: int64 addition wraps; if one operand is float64 the
    other is converted and the sum is the binary64 sum. *)
Definition num_add (a b : Num) : Num :=
  match a, b with
  | Int64 x, Int64 y => Int64 (wrap64 (x + y))
  | _, _ => Float64 (F64.add (to_float64 a) (to_float64 b))
  end.

(** [astype(np.float32)]: round to nearest even binary32; the result is held
    as the binary64 value it is equal to. *)
Definition astype_float32 (a : Num) : float :=
  match a with
  | Int64 z =>
      match binary_normalize 24 128 z 0 false with
      | S754_finite s m e => binary_round F64.prec F64.emax s m e
      | y => y
      end
  | Float64 x => F64.to_f32 x
  end.

Record TypedRow := mkTyped {
  t_benchmark : string;
  t_profile : string;
  t_scenario : string;
  t_kind : string;
  t_frontend : Num;
  t_backend : Num;
  t_linker : Num;
  t_borrowck : Num;
  t_typeck : Num;
  t_metadata : Num;
  t_extra : gmap string Num
}.

Definition tget (key : Phase) (r : TypedRow) : Num :=
  match key with
  | Frontend => t_frontend r | Backend => t_backend r
  | Linker => t_linker r | Borrowck => t_borrowck r
  | Typeck => t_typeck r | Metadata => t_metadata r
  end.

Definition tset (key : Phase) (v : Num) (r : TypedRow) : TypedRow :=
  let '(mkTyped b p s k fe be li bo ty me ex) := r in
  match key with
  | Frontend => mkTyped b p s k v be li bo ty me ex
  | Backend => mkTyped b p s k fe v li bo ty me ex
  | Linker => mkTyped b p s k fe be v bo ty me ex
  | Borrowck => mkTyped b p s k fe be li v ty me ex
  | Typeck => mkTyped b p s k fe be li bo v me ex
  | Metadata => mkTyped b p s k fe be li bo ty v ex
  end.

Definition tset_extra (name : string) (v : Num) (r : TypedRow) : TypedRow :=
  let '(mkTyped b p s k fe be li bo ty me ex) := r in
  mkTyped b p s k fe be li bo ty me (<[name := v]> ex).

Definition tdrop_extra (name : string) (r : TypedRow) : TypedRow :=
  let '(mkTyped b p s k fe be li bo ty me ex) := r in
  mkTyped b p s k fe be li bo ty me (delete name ex).

(** Line 134, [df["frontend"] + df["backend"] + df["linker"]], in the dtypes
    of the three columns. *)
Definition typed_total (r : TypedRow) : Num :=
  num_add (num_add (t_frontend r) (t_backend r)) (t_linker r).

Definition typed_assign_total (df : list TypedRow) : list TypedRow :=
  List.map (fun r => tset_extra "total" (typed_total r) r) df.

(** Line 136: the float32 column divided by the column "total" is a float64
    column (numpy converts both operands to float64), and so is its product
    with 100. *)
Definition typed_normalize_cell (key : Phase) (r : TypedRow) : option TypedRow :=
  total ← t_extra r !! "total";
  Some (tset key
          (Float64 (F64.mul (F64.div (astype_float32 (tget key r)) (to_float64 total))
                            (F64.of_Z 100))) r).

Definition typed_normalize_column (key : Phase) (df : list TypedRow)
    : option (list TypedRow) :=
  mapM (typed_normalize_cell key) df.

Definition typed_drop_cell (r : TypedRow) : option TypedRow :=
  _ ← t_extra r !! "total"; Some (tdrop_extra "total" r).

(** Lines 134-137 on the frame as read. *)
Definition normalize_typed (df : list TypedRow) : option (list TypedRow) :=
  let df := typed_assign_total df in
  df ← fold_left (fun acc key => df ← acc; typed_normalize_column key df)
         normalized_keys (Some df);
  mapM typed_drop_cell df.

(** What the loop computes for one field of a typed record. *)
Definition typed_normalize_field (key : Phase) (r : TypedRow) : Num :=
  Float64 (F64.mul (F64.div (astype_float32 (tget key r)) (to_float64 (typed_total r)))
                   (F64.of_Z 100)).

Definition typed_normalized_row (r : TypedRow) : TypedRow :=
  mkTyped (t_benchmark r) (t_profile r) (t_scenario r) (t_kind r)
          (typed_normalize_field Frontend r) (typed_normalize_field Backend r)
          (typed_normalize_field Linker r) (typed_normalize_field Borrowck r)
          (typed_normalize_field Typeck r) (typed_normalize_field Metadata r)
          (delete "total" (t_extra r)).

(** A row of a frame whose numeric columns are all float64. *)
Definition typed_of_row (r : Row) : TypedRow :=
  mkTyped (col_benchmark r) (col_profile r) (col_scenario r) (col_kind r)
          (Float64 (col_frontend r)) (Float64 (col_backend r))
          (Float64 (col_linker r)) (Float64 (col_borrowck r))
          (Float64 (col_typeck r)) (Float64 (col_metadata r))
          (Float64 <$> extra r).

(** A run with integer cells: frontend and backend 2^62, every other
    duration 0. *)
Definition row_int_wrap : TypedRow :=
  mkTyped "ripgrep-14.1.0" "Debug" "Full" "bin"
          (Int64 (2 ^ 62)) (Int64 (2 ^ 62)) (Int64 0)
          (Int64 0) (Int64 0) (Int64 0) ∅.

(** The value of a non-negative finite binary64 number in units of
    [2^-1074], the smallest positive binary64 number: an integer. *)
Definition units (x : float) : Z :=
  match x with
  | S754_finite false m e => Zpos m * 2 ^ (e + 1074)
  | _ => 0
  end.

(** One part in [2^52], the bound on the relative error of a rounded sum. *)
Definition one_plus_eps : Q := 4503599627370497 # 4503599627370496.
(** ** Binary64 addition of non-negative values *)

Section Rounding.
Variables prec emax : Z.
Hypothesis prec_pos : 0 < prec.

Lemma shr_1_pos (m : positive) (r s : bool) :
  (1 < digits2_pos m)%positive ->
  exists m' r' s',
    shr_1 (Build_shr_record (Zpos m) r s) = Build_shr_record (Zpos m') r' s' /\
    Pos.succ (digits2_pos m') = digits2_pos m.
Proof.
  destruct m as [p|p|]; cbn; intros Hd.
  - by exists p, true, (r || s).
  - by exists p, false, (r || s).
  - lia.
Qed.

Lemma iter_shr_1_pos (p m : positive) (r s : bool) :
  (p < digits2_pos m)%positive ->
  exists m' r' s',
    SpecFloat.iter_pos shr_1 p (Build_shr_record (Zpos m) r s)
      = Build_shr_record (Zpos m') r' s' /\
    (digits2_pos m' + p = digits2_pos m)%positive.
Proof.
  revert m r s. induction p as [p IH|p IH|]; intros m r s Hd; cbn [SpecFloat.iter_pos].
  - destruct (shr_1_pos m r s) as (m0 & r0 & s0 & -> & Hd0); [lia|].
    destruct (IH m0 r0 s0) as (m1 & r1 & s1 & -> & Hd1); [lia|].
    destruct (IH m1 r1 s1) as (m2 & r2 & s2 & -> & Hd2); [lia|].
    exists m2, r2, s2. split; [done|lia].
  - destruct (IH m r s) as (m1 & r1 & s1 & -> & Hd1); [lia|].
    destruct (IH m1 r1 s1) as (m2 & r2 & s2 & -> & Hd2); [lia|].
    exists m2, r2, s2. split; [done|lia].
  - destruct (shr_1_pos m r s) as (m0 & r0 & s0 & -> & Hd0); [lia|].
    exists m0, r0, s0. split; [done|lia].
Qed.

Lemma shr_fexp_pos (m : positive) (e : Z) (l : location) :
  emin prec emax <= e ->
  exists m' r' s' e',
    shr_fexp prec emax (Zpos m) e l = (Build_shr_record (Zpos m') r' s', e') /\
    emin prec emax <= e'.
Proof.
  intros He. unfold shr_fexp, shr.
  assert (Hrec : exists r s, shr_record_of_loc (Zpos m) l
                             = Build_shr_record (Zpos m) r s).
  { destruct l as [|[]]; cbn; eauto. }
  destruct Hrec as (r & s & ->).
  destruct (fexp prec emax (Zdigits2 (Zpos m) + e) - e) as [|p|p] eqn:En;
    try (exists m, r, s, e; done).
  assert (Hp : (p < digits2_pos m)%positive).
  { unfold fexp in En. cbn [Zdigits2] in En. lia. }
  destruct (iter_shr_1_pos p m r s Hp) as (m' & r' & s' & -> & _).
  exists m', r', s', (e + Zpos p). split; [done|lia].
Qed.

Lemma round_nearest_even_pos (m : positive) (l : location) :
  exists m', round_nearest_even (Zpos m) l = Zpos m'.
Proof.
  destruct l as [|[]]; cbn; eauto.
  destruct m; cbn; eauto.
Qed.

(** Rounding a positive mantissa whose exponent is not below [emin] gives a
    positive finite number or the infinity: it neither underflows to zero
    nor changes sign. *)
Lemma binary_round_aux_pos (sx : bool) (m : positive) (e : Z) (l : location) :
  emin prec emax <= e ->
  (exists m' e', binary_round_aux prec emax sx (Zpos m) e l = S754_finite sx m' e'
                 /\ emin prec emax <= e')
  \/ binary_round_aux prec emax sx (Zpos m) e l = S754_infinity sx.
Proof.
  intros He. unfold binary_round_aux.
  destruct (shr_fexp_pos m e l He) as (m1 & r1 & s1 & e1 & -> & He1).
  cbn [shr_m].
  destruct (round_nearest_even_pos m1
              (loc_of_shr_record (Build_shr_record (Zpos m1) r1 s1)))
    as (m2 & ->).
  destruct (shr_fexp_pos m2 e1 loc_Exact He1) as (m3 & r3 & s3 & e3 & -> & He3).
  cbn [shr_m]. destruct (e3 <=? emax - prec); eauto.
Qed.

Lemma binary_round_pos (sx : bool) (m : positive) (e : Z) :
  emin prec emax <= e ->
  (exists m' e', binary_round prec emax sx m e = S754_finite sx m' e'
                 /\ emin prec emax <= e')
  \/ binary_round prec emax sx m e = S754_infinity sx.
Proof.
  intros He. unfold binary_round, shl_align.
  destruct (fexp prec emax (Zpos (digits2_pos m) + e) - e) eqn:En;
    apply binary_round_aux_pos; try done.
  unfold fexp. lia.
Qed.

Lemma valid_binary_emin (s : bool) (m : positive) (e : Z) :
  valid_binary prec emax (S754_finite s m e) = true -> emin prec emax <= e.
Proof.
  cbn. unfold bounded, canonical_mantissa, fexp.
  intros [H%Z.eqb_eq _]%andb_prop. lia.
Qed.

Lemma SFadd_pos_pos (mx my : positive) (ex ey : Z) :
  emin prec emax <= ex -> emin prec emax <= ey ->
  (exists m' e', SFadd prec emax (S754_finite false mx ex) (S754_finite false my ey)
                 = S754_finite false m' e' /\ emin prec emax <= e')
  \/ SFadd prec emax (S754_finite false mx ex) (S754_finite false my ey)
     = S754_infinity false.
Proof.
  intros Hx Hy. unfold SFadd, binary_normalize. cbn [cond_Zopp].
  change (Zpos ?a + Zpos ?b) with (Zpos (a + b)).
  apply binary_round_pos. lia.
Qed.

End Rounding.

Lemma duration_ok_nonneg (x : float) : duration_ok x = true -> nonneg_in_range x.
Proof.
  unfold duration_ok. intros [Hv Hn]%andb_prop.
  destruct x as [s|s| |s m e]; try done.
  - by destruct s.
  - split; [by destruct s|]. by apply valid_binary_emin in Hv.
Qed.

(** The sum of two such values is again one, and it is zero only when both
    summands are zero. *)
Lemma add_nonneg_in_range (x y : float) :
  nonneg_in_range x -> nonneg_in_range y ->
  nonneg_in_range (F64.add x y) /\
  (F64.is_zero (F64.add x y) = true ->
   F64.is_zero x = true /\ F64.is_zero y = true).
Proof.
  destruct x as [sx|sx| |sx mx ex], y as [sy|sy| |sy my ey]; try done;
    intros Hx Hy; cbn in Hx, Hy.
  all: try (destruct sx, sy; cbn; done).
  all: try (destruct Hx as [-> Hx]); try (destruct Hy as [-> Hy]).
  all: try (destruct sx; cbn; done); try (destruct sy; cbn; done).
  destruct (SFadd_pos_pos F64.prec F64.emax eq_refl mx my ex ey Hx Hy)
    as [(m' & e' & Heq & He')|Heq]; unfold F64.add; rewrite Heq; done.
Qed.

Lemma leb_zero_nonneg (x z : float) :
  nonneg_in_range x ->
  F64.is_zero z = true -> F64.leb x z = true -> F64.is_zero x = true.
Proof.
  destruct z as [sz| | |]; try done.
  destruct x as [sx|sx| |sx mx ex]; try done.
  - by intros ->.
  - by intros [-> _].
Qed.

(** In a record that meets the invariant of the data model, a zero total
    means that every duration is zero. *)
Lemma zero_total_all_zero (r : Row) :
  record_invariant r = true ->
  F64.is_zero (row_total r) = true ->
  forall key, F64.is_zero (get_col key r) = true.
Proof.
  unfold record_invariant. cbn [forallb get_col].
  rewrite !andb_true_r.
  intros [Hd Hsub]%andb_prop.
  repeat (apply andb_prop in Hd as [?%duration_ok_nonneg Hd]).
  apply duration_ok_nonneg in Hd.
  unfold row_total. intros Hz.
  destruct (add_nonneg_in_range (col_frontend r) (col_backend r))
    as [Hfb Hfbz]; [done..|].
  destruct (add_nonneg_in_range _ (col_linker r) Hfb) as [_ Htz]; [done|].
  destruct (Htz Hz) as [Hfb0 Hl]. destruct (Hfbz Hfb0) as [Hf Hb].
  destruct (add_nonneg_in_range (col_borrowck r) (col_typeck r))
    as [Hbt Hbtz]; [done..|].
  destruct (add_nonneg_in_range _ (col_metadata r) Hbt) as [Hsum Hsz]; [done|].
  pose proof (leb_zero_nonneg _ _ Hsum Hf Hsub) as Hs0.
  destruct (Hsz Hs0) as [Hbt0 Hm]. destruct (Hbtz Hbt0) as [Hbo Hty].
  intros key. by destruct key.
Qed.

(** ** Signs under rounding *)

Section Signs.
Variables prec emax : Z.

Lemma shr_1_nonneg (mrs : shr_record) : 0 <= shr_m mrs -> 0 <= shr_m (shr_1 mrs).
Proof.
  destruct mrs as [m r s]. cbn [shr_m].
  destruct m as [|[p|p|]|p]; cbn; lia.
Qed.

Lemma iter_shr_1_nonneg (p : positive) (mrs : shr_record) :
  0 <= shr_m mrs -> 0 <= shr_m (SpecFloat.iter_pos shr_1 p mrs).
Proof.
  revert mrs. induction p as [p IH|p IH|]; intros mrs Hm; cbn [SpecFloat.iter_pos].
  - apply IH, IH. by apply shr_1_nonneg.
  - by apply IH, IH.
  - by apply shr_1_nonneg.
Qed.

Lemma shr_fexp_nonneg (m e : Z) (l : location) :
  0 <= m -> 0 <= shr_m (fst (shr_fexp prec emax m e l)).
Proof.
  intros Hm. unfold shr_fexp, shr.
  assert (Hrec : 0 <= shr_m (shr_record_of_loc m l)).
  { destruct l as [|[]]; exact Hm. }
  destruct (fexp prec emax (Zdigits2 m + e) - e); cbn [fst]; try exact Hrec.
  by apply iter_shr_1_nonneg.
Qed.

Lemma round_nearest_even_nonneg (m : Z) (l : location) :
  0 <= m -> 0 <= round_nearest_even m l.
Proof.
  intros Hm. destruct l as [|[]]; cbn; try lia.
  destruct (Z.even m); lia.
Qed.

(** Rounding a natural mantissa keeps the sign it is given and gives no
    NaN. *)
Lemma binary_round_aux_sign (sx : bool) (m e : Z) (l : location) :
  0 <= m ->
  match binary_round_aux prec emax sx m e l with
  | S754_zero s | S754_infinity s | S754_finite s _ _ => s = sx
  | S754_nan => False
  end.
Proof.
  intros Hm. unfold binary_round_aux.
  pose proof (shr_fexp_nonneg m e l Hm) as H1.
  destruct (shr_fexp prec emax m e l) as [mrs1 e1]. cbn [fst] in H1.
  pose proof (shr_fexp_nonneg _ e1 loc_Exact
                (round_nearest_even_nonneg _ (loc_of_shr_record mrs1) H1)) as H2.
  destruct (shr_fexp prec emax _ e1 loc_Exact) as [mrs2 e2]. cbn [fst] in H2.
  destruct (shr_m mrs2) as [|p|p]; [reflexivity| |lia].
  by destruct (e2 <=? emax - prec).
Qed.

Lemma binary_round_sign (sx : bool) (m : positive) (e : Z) :
  match binary_round prec emax sx m e with
  | S754_zero s | S754_infinity s | S754_finite s _ _ => s = sx
  | S754_nan => False
  end.
Proof.
  unfold binary_round.
  destruct (shl_align m e _) as [mz ez].
  by apply binary_round_aux_sign.
Qed.

End Signs.

(** ** Rounding error of a binary64 sum

    The value of a non-negative finite number is counted in units of
    [2^-1074], the smallest positive binary64 number, so that it is an
    integer. *)

Lemma digits2_pos_bounds (m : positive) :
  2 ^ (Zpos (digits2_pos m) - 1) <= Zpos m < 2 ^ Zpos (digits2_pos m).
Proof.
  induction m as [m IH|m IH|]; cbn [digits2_pos].
  - rewrite Pos2Z.inj_succ.
    replace (Z.succ (Zpos (digits2_pos m)) - 1) with (Z.succ (Zpos (digits2_pos m) - 1))
      by lia.
    rewrite !Z.pow_succ_r by lia. lia.
  - rewrite Pos2Z.inj_succ.
    replace (Z.succ (Zpos (digits2_pos m)) - 1) with (Z.succ (Zpos (digits2_pos m) - 1))
      by lia.
    rewrite !Z.pow_succ_r by lia. lia.
  - cbn. lia.
Qed.

Lemma shr_1_value (mrs : shr_record) :
  0 <= shr_m mrs -> shr_m (shr_1 mrs) = shr_m mrs / 2.
Proof.
  destruct mrs as [m r s]. cbn [shr_m]. intros Hm.
  destruct m as [|[p|p|]|p]; cbn [shr_1 shr_m]; try lia; try reflexivity.
  - apply (Z.div_unique (Zpos p~1) 2 (Zpos p) 1); lia.
  - apply (Z.div_unique (Zpos p~0) 2 (Zpos p) 0); lia.
Qed.

Lemma iter_shr_1_value (p : positive) (mrs : shr_record) :
  0 <= shr_m mrs ->
  shr_m (SpecFloat.iter_pos shr_1 p mrs) = shr_m mrs / 2 ^ Zpos p.
Proof.
  revert mrs. induction p as [p IH|p IH|]; intros mrs Hm; cbn [SpecFloat.iter_pos].
  - rewrite IH by (apply iter_shr_1_nonneg; by apply shr_1_nonneg).
    rewrite IH by (by apply shr_1_nonneg). rewrite shr_1_value by done.
    assert (Hp : 0 < 2 ^ Zpos p) by (apply Z.pow_pos_nonneg; lia).
    rewrite !Z.div_div by lia. f_equal.
    replace (Zpos p~1) with (1 + (Zpos p + Zpos p)) by lia.
    rewrite !Z.pow_add_r by lia. reflexivity.
  - rewrite IH by (by apply iter_shr_1_nonneg). rewrite IH by done.
    assert (Hp : 0 < 2 ^ Zpos p) by (apply Z.pow_pos_nonneg; lia).
    rewrite !Z.div_div by lia. f_equal.
    replace (Zpos p~0) with (Zpos p + Zpos p) by lia.
    rewrite Z.pow_add_r by lia. reflexivity.
  - rewrite shr_1_value by done. reflexivity.
Qed.

Lemma round_nearest_even_bounds (m : Z) (l : location) :
  m <= round_nearest_even m l <= m + 1.
Proof.
  destruct l as [|[]]; cbn; try lia. destruct (Z.even m); lia.
Qed.

(** One shift to the right by [fexp]: the mantissa is divided, the exponent
    grows by the same amount; a shift takes place only when the mantissa has
    more than 53 bits, and leaves 53. *)
Lemma shr_fexp_value (m : positive) (e : Z) (l : location) :
  -1074 <= e ->
  exists m1 e1,
    shr_m (fst (shr_fexp F64.prec F64.emax (Zpos m) e l)) = m1 /\
    snd (shr_fexp F64.prec F64.emax (Zpos m) e l) = e1 /\
    e <= e1 /\ 0 < m1 /\
    m1 * 2 ^ (e1 - e) <= Zpos m /\
    (e1 = e /\ m1 = Zpos m /\
     loc_of_shr_record (fst (shr_fexp F64.prec F64.emax (Zpos m) e l)) = l \/
     e < e1 /\ 2 ^ 52 <= m1 /\ 2 ^ 52 * 2 ^ (e1 - e) <= Zpos m).
Proof.
  intros He. unfold shr_fexp, shr. cbn [Zdigits2].
  assert (Hrec : shr_m (shr_record_of_loc (Zpos m) l) = Zpos m)
    by (destruct l as [|[]]; reflexivity).
  assert (Hloc : loc_of_shr_record (shr_record_of_loc (Zpos m) l) = l)
    by (destruct l as [|[]]; reflexivity).
  pose proof (digits2_pos_bounds m) as [Hlo Hhi].
  destruct (fexp F64.prec F64.emax (Zpos (digits2_pos m) + e) - e) as [|p|p] eqn:En;
    cbn [fst snd].
  - exists (Zpos m), e. rewrite Hrec, Z.sub_diag. cbn. repeat split; try lia; try (left; repeat split; done).
  - unfold fexp, emin, F64.prec, F64.emax in En.
    assert (Hd : Zpos (digits2_pos m) = Zpos p + 53) by lia.
    rewrite Hd in Hlo. replace (Zpos p + 53 - 1) with (52 + Zpos p) in Hlo by lia.
    rewrite Z.pow_add_r in Hlo by lia.
    rewrite iter_shr_1_value by (rewrite Hrec; lia). rewrite Hrec.
    exists (Zpos m / 2 ^ Zpos p), (e + Zpos p).
    replace (e + Zpos p - e) with (Zpos p) by lia.
    assert (Hp : 0 < 2 ^ Zpos p) by (apply Z.pow_pos_nonneg; lia).
    pose proof (Z.mul_div_le (Zpos m) (2 ^ Zpos p) Hp) as Hfl.
    assert (Hge : 2 ^ 52 <= Zpos m / 2 ^ Zpos p).
    { apply Z.div_le_lower_bound; lia. }
    repeat split; try lia; try (right; repeat split; lia).
  - exists (Zpos m), e. rewrite Hrec, Z.sub_diag. cbn. repeat split; try lia; try (left; repeat split; done).
Qed.

(** Rounding a positive mantissa: the result is the finite number [m3 * 2^e3]
    when [e3] is in range and the infinity otherwise, and in both cases
    [m3 * 2^e3] exceeds the exact value by at most one part in [2^52]. *)
Lemma round_aux_upper (m : positive) (e : Z) :
  -1074 <= e ->
  exists m3 e3,
    binary_round_aux F64.prec F64.emax false (Zpos m) e loc_Exact
    = (if e3 <=? F64.emax - F64.prec then S754_finite false m3 e3
       else S754_infinity false) /\
    -1074 <= e3 /\
    2 ^ 52 * (Zpos m3 * 2 ^ (e3 + 1074)) <= (2 ^ 52 + 1) * (Zpos m * 2 ^ (e + 1074)).
Proof.
  intros He. unfold binary_round_aux.
  destruct (shr_fexp_value m e loc_Exact He)
    as (m1 & e1 & Hm1 & He1 & Hee1 & Hpos1 & Hfl1 & Hcase1).
  destruct (shr_fexp F64.prec F64.emax (Zpos m) e loc_Exact) as [mrs1 e1'].
  cbn [fst snd] in Hm1, He1. subst e1'. rewrite Hm1.
  pose proof (round_nearest_even_bounds m1 (loc_of_shr_record mrs1)) as [Hr1 Hr2].
  destruct (round_nearest_even m1 (loc_of_shr_record mrs1)) as [|q|q] eqn:Eq; try lia.
  destruct (shr_fexp_value q e1 loc_Exact ltac:(lia))
    as (m3 & e3 & Hm3 & He3 & Hee3 & Hpos3 & Hfl3 & _).
  destruct (shr_fexp F64.prec F64.emax (Zpos q) e1 loc_Exact) as [mrs3 e3'].
  cbn [fst snd] in Hm3, He3. subst e3'. rewrite Hm3.
  destruct m3 as [|m3|m3]; try lia.
  exists m3, e3. split; [reflexivity|]. split; [lia|].
  (* value *)
  assert (HE : 0 < 2 ^ (e + 1074)) by (apply Z.pow_pos_nonneg; lia).
  assert (HP1 : 0 < 2 ^ (e1 - e)) by (apply Z.pow_pos_nonneg; lia).
  assert (HP3 : 0 < 2 ^ (e3 - e1)) by (apply Z.pow_pos_nonneg; lia).
  replace (e3 + 1074) with ((e3 - e1) + ((e1 - e) + (e + 1074))) by lia.
  rewrite !Z.pow_add_r by lia.
  set (E := 2 ^ (e + 1074)) in *. set (P1 := 2 ^ (e1 - e)) in *.
  set (P3 := 2 ^ (e3 - e1)) in *.
  assert (H1 : 2 ^ 52 * (Zpos q * P1) <= (2 ^ 52 + 1) * Zpos m).
  { destruct Hcase1 as [[Hsame Hm]|(Hlt & Hbig & Hbig')].
    - destruct Hm as [Hm Hloc]. subst e1. subst m1.
      assert (P1 = 1) as -> by (subst P1; rewrite Z.sub_diag; reflexivity).
      cbn [fst] in Hloc. rewrite Hloc in Eq. cbn in Eq. lia.
    - nia. }
  assert (H3 : Zpos m3 * P3 * P1 <= Zpos q * P1) by nia.
  nia.
Qed.

Lemma shl_align_value (m : positive) (e e' : Z) :
  exists m' e'',
    shl_align m e e' = (m', e'') /\
    e'' = Z.min e e' /\
    Zpos m' = Zpos m * 2 ^ (e - e'').
Proof.
  unfold shl_align. destruct (e' - e) as [|d|d] eqn:Ed.
  - exists m, e. rewrite Z.sub_diag. repeat split; lia.
  - exists m, e. rewrite Z.sub_diag. repeat split; lia.
  - exists (Pos.iter xO m d), e'. split; [reflexivity|]. split; [lia|].
    change (Pos.iter xO m d) with (shift_pos d m).
    rewrite shift_pos_correct. replace (e - e') with (Zpos d) by lia.
    change (Z.pow_pos 2 d) with (2 ^ Zpos d). lia.
Qed.

(** The sum of two positive binary64 numbers is at most one part in [2^52]
    above the exact sum. *)
Lemma add_finite_upper (mx my : positive) (ex ey : Z) :
  -1074 <= ex -> -1074 <= ey ->
  exists m3 e3,
    F64.add (S754_finite false mx ex) (S754_finite false my ey)
    = (if e3 <=? F64.emax - F64.prec then S754_finite false m3 e3
       else S754_infinity false) /\
    -1074 <= e3 /\
    2 ^ 52 * (Zpos m3 * 2 ^ (e3 + 1074))
    <= (2 ^ 52 + 1) * (Zpos mx * 2 ^ (ex + 1074) + Zpos my * 2 ^ (ey + 1074)).
Proof.
  intros Hx Hy. unfold F64.add, SFadd. cbn [cond_Zopp].
  set (ez := Z.min ex ey).
  destruct (shl_align_value mx ex ez) as (mx' & ex' & -> & Hex' & Hmx).
  destruct (shl_align_value my ey ez) as (my' & ey' & -> & Hey' & Hmy).
  cbn [fst].
  assert (ex' = ez) as -> by lia. assert (ey' = ez) as -> by lia.
  assert (Hmx2 : Zpos mx' * 2 ^ (ez + 1074) = Zpos mx * 2 ^ (ex + 1074)).
  { rewrite Hmx, <- Z.mul_assoc, <- Z.pow_add_r by lia. do 2 f_equal. lia. }
  assert (Hmy2 : Zpos my' * 2 ^ (ez + 1074) = Zpos my * 2 ^ (ey + 1074)).
  { rewrite Hmy, <- Z.mul_assoc, <- Z.pow_add_r by lia. do 2 f_equal. lia. }
  change (Zpos mx' + Zpos my') with (Zpos (mx' + my')).
  cbn [binary_normalize]. unfold binary_round.
  destruct (shl_align_value (mx' + my') ez
              (fexp F64.prec F64.emax (Zpos (digits2_pos (mx' + my')) + ez)))
    as (mz & ez' & -> & Hez' & Hmz).
  assert (Hez : -1074 <= ez' <= ez)
    by (unfold fexp, emin, F64.prec, F64.emax in Hez'; lia).
  destruct (round_aux_upper mz ez' (proj1 Hez)) as (m3 & e3 & -> & He3 & Hval).
  exists m3, e3. split; [reflexivity|]. split; [exact He3|].
  assert (Hz : Zpos mz * 2 ^ (ez' + 1074)
               = Zpos mx * 2 ^ (ex + 1074) + Zpos my * 2 ^ (ey + 1074)).
  { rewrite Hmz, <- Z.mul_assoc, <- Z.pow_add_r by lia.
    replace (ez - ez' + (ez' + 1074)) with (ez + 1074) by lia.
    rewrite <- Hmx2, <- Hmy2. lia. }
  by rewrite <- Hz.
Qed.

Lemma units_nonneg (x : float) : 0 <= units x.
Proof.
  destruct x as [| | |[] m e]; cbn [units]; try lia.
  all: try (apply Z.mul_nonneg_nonneg; [lia|apply Z.pow_nonneg; lia]).
Qed.

(** The same for non-negative finite numbers, zeros included; a sum below
    128 does not overflow. *)
Lemma add_units_upper (x y : float) :
  nonneg_in_range x -> nonneg_in_range y ->
  F64.is_finite x = true -> F64.is_finite y = true ->
  units x + units y <= 128 * 2 ^ 1074 ->
  nonneg_in_range (F64.add x y) /\
  F64.is_finite (F64.add x y) = true /\
  2 ^ 52 * units (F64.add x y) <= (2 ^ 52 + 1) * (units x + units y).
Proof.
  intros Hx Hy Hfx Hfy Hsum.
  pose proof (units_nonneg x) as Hux. pose proof (units_nonneg y) as Huy.
  destruct x as [sx| | |sx mx ex]; try discriminate;
    destruct y as [sy| | |sy my ey]; try discriminate.
  - assert (Hz : exists s, F64.add (S754_zero sx) (S754_zero sy) = S754_zero s)
      by (destruct sx, sy; eexists; reflexivity).
    destruct Hz as [s ->]. cbn. repeat split; lia.
  - change (F64.add (S754_zero sx) (S754_finite sy my ey)) with (S754_finite sy my ey).
    split; [exact Hy|]. split; [reflexivity|].
    change (units (S754_zero sx)) with 0. lia.
  - change (F64.add (S754_finite sx mx ex) (S754_zero sy)) with (S754_finite sx mx ex).
    split; [exact Hx|]. split; [reflexivity|].
    change (units (S754_zero sy)) with 0. lia.
  - destruct Hx as [-> Hex], Hy as [-> Hey].
    change (emin F64.prec F64.emax) with (-1074) in Hex, Hey.
    destruct (add_finite_upper mx my ex ey Hex Hey) as (m3 & e3 & -> & He3 & Hval).
    cbn [units] in *.
    change (F64.emax - F64.prec) with 971.
    destruct (e3 <=? 971) eqn:E.
    + cbn [units nonneg_in_range F64.is_finite].
      change (emin F64.prec F64.emax) with (-1074). repeat split; try done; lia.
    + exfalso. apply Z.leb_gt in E.
      assert (Hp : 2 ^ 9 * 2 ^ 1074 <= 2 ^ (e3 + 1074)).
      { rewrite <- Z.pow_add_r by lia. apply Z.pow_le_mono_r; lia. }
      assert (HT : 0 < 2 ^ 1074) by (apply Z.pow_pos_nonneg; lia).
      set (T := 2 ^ 1074) in *. set (E3 := 2 ^ (e3 + 1074)) in *.
      assert (Zpos m3 * E3 >= E3) by nia.
      change (2 ^ 9) with 512 in Hp. lia.
Qed.

Lemma to_Q_units (x : float) :
  nonneg_in_range x -> F64.is_finite x = true ->
  (F64.to_Q x == inject_Z (units x) / inject_Z (2 ^ 1074))%Q.
Proof.
  intros Hx Hf.
  assert (HT : ~ (inject_Z (2 ^ 1074) == 0)%Q).
  { rewrite Zpower_Qpower by lia. apply Qpower_not_0. discriminate. }
  destruct x as [s| | |s m e]; try discriminate.
  - cbn [F64.to_Q units]. unfold Qdiv. by rewrite Qmult_0_l.
  - destruct Hx as [-> He]. change (emin F64.prec F64.emax) with (-1074) in He.
    cbn [F64.to_Q units].
    rewrite inject_Z_mult, (Zpower_Qpower 2 (e + 1074)) by lia.
    rewrite (Zpower_Qpower 2 1074) in * by lia.
    rewrite Qpower_plus by discriminate.
    change (inject_Z (Zpos m)) with (Zpos m # 1)%Q.
    rewrite Qmult_assoc. symmetry. apply Qdiv_mult_l.
    by rewrite <- Zpower_Qpower by lia.
Qed.

(** The bound in rational terms. *)
Lemma add_upper_Q (x y : float) :
  nonneg_in_range x -> nonneg_in_range y ->
  F64.is_finite x = true -> F64.is_finite y = true ->
  (F64.to_Q x + F64.to_Q y <= 128)%Q ->
  nonneg_in_range (F64.add x y) /\
  F64.is_finite (F64.add x y) = true /\
  (0 <= F64.to_Q (F64.add x y))%Q /\
  (F64.to_Q (F64.add x y) <= one_plus_eps * (F64.to_Q x + F64.to_Q y))%Q.
Proof.
  intros Hx Hy Hfx Hfy Hsum.
  assert (HT : (0 < inject_Z (2 ^ 1074))%Q).
  { rewrite <- (Zlt_Qlt 0). apply Z.pow_pos_nonneg; lia. }
  rewrite (to_Q_units x Hx Hfx), (to_Q_units y Hy Hfy) in Hsum |- *.
  assert (HsumZ : units x + units y <= 128 * 2 ^ 1074).
  { rewrite Zle_Qle, inject_Z_mult, inject_Z_plus.
    apply (Qmult_le_r _ _ (/ inject_Z (2 ^ 1074))); [by apply Qinv_lt_0_compat|].
    rewrite <- Qmult_assoc, Qmult_inv_r by (intros H; rewrite H in HT; by apply Qlt_irrefl in HT).
    rewrite Qmult_1_r, Qmult_plus_distr_l. exact Hsum. }
  destruct (add_units_upper x y Hx Hy Hfx Hfy HsumZ) as (Hr & Hfr & Hval).
  split; [exact Hr|]. split; [exact Hfr|].
  rewrite (to_Q_units _ Hr Hfr).
  pose proof (units_nonneg (F64.add x y)) as Hu.
  split.
  - apply Qle_shift_div_l; [exact HT|]. rewrite Qmult_0_l.
    rewrite <- (Zle_Qle 0). exact Hu.
  - apply Qle_shift_div_r; [exact HT|].
    rewrite Zle_Qle in Hval.
    rewrite !inject_Z_mult, !inject_Z_plus in Hval.
    unfold one_plus_eps.
    assert (Heq : (((4503599627370497 # 4503599627370496)
                   * (inject_Z (units x) / inject_Z (2 ^ 1074)
                      + inject_Z (units y) / inject_Z (2 ^ 1074)))
                  * inject_Z (2 ^ 1074)
                  == (4503599627370497 # 4503599627370496)
                     * (inject_Z (units x) + inject_Z (units y)))%Q).
    { field. intros H; rewrite H in HT; by apply Qlt_irrefl in HT. }
    rewrite Heq.
    change (inject_Z (2 ^ 52)) with (4503599627370496 # 1)%Q in Hval.
    change (inject_Z 1) with 1%Q in Hval.
    clear -Hval. lra.
Qed.

(** ** The pairwise sum *)

(** The recursion of the pairwise sum never runs out of fuel when it is
    given the length of the array. *)
Lemma pairwise_sum_fuel (fuel1 fuel2 : nat) (a : list float) :
  (length a <= fuel1)%nat -> (length a <= fuel2)%nat ->
  pairwise_sum fuel1 a = pairwise_sum fuel2 a.
Proof.
  revert fuel2 a. induction fuel1 as [|fuel1 IH]; intros fuel2 a H1 H2.
  - destruct a; [|cbn in H1; lia]. by destruct fuel2.
  - destruct fuel2 as [|fuel2].
    + destruct a; [reflexivity|cbn in H2; lia].
    + cbn [pairwise_sum].
      destruct (length a <? 8)%nat eqn:E8; [reflexivity|].
      destruct (length a <=? 128)%nat eqn:E128; [reflexivity|].
      apply Nat.leb_gt in E128.
      assert (Hn2 : (0 < length a / 2 - (length a / 2) mod 8 < length a)%nat).
      { pose proof (Nat.mod_upper_bound (length a / 2) 8 ltac:(lia)).
        pose proof (Nat.div_mod (length a) 2 ltac:(lia)).
        pose proof (Nat.mod_upper_bound (length a) 2 ltac:(lia)). lia. }
      f_equal; apply IH; rewrite ?length_take, ?length_skipn; lia.
Qed.

(** * Properties *)

(** ** Normalisation *)

Lemma mapM_total {A B} (f : A -> B) (l : list A) :
  mapM (fun x => Some (f x)) l = Some (List.map f l).
Proof.
  induction l as [|x l IH]; [done|].
  cbn. rewrite IH. done.
Qed.

Lemma mapM_bind_fuse {A B C} (f : A -> option B) (g : B -> option C) (l : list A) :
  mapM f l ≫= mapM g = mapM (fun x => f x ≫= g) l.
Proof.
  induction l as [|x l IH]; [done|].
  cbn. destruct (f x) as [y|]; cbn; [|done].
  rewrite <- IH. destruct (mapM f l) as [k|]; cbn; [done|].
  by destruct (g y).
Qed.

Lemma fold_columns_fuse (keys : list Phase) (h : Row -> option Row) (df : DataFrame) :
  fold_left (fun acc key => df ← acc; normalize_column key df) keys (mapM h df)
  = mapM (fun r => fold_left (fun acc key => r ← acc; normalize_cell key r)
                     keys (h r)) df.
Proof.
  revert h. induction keys as [|key keys IH]; intros h; [done|].
  cbn [fold_left]. rewrite <- (IH (fun r => h r ≫= normalize_cell key)).
  f_equal. apply (mapM_bind_fuse h (normalize_cell key)).
Qed.

Lemma normalize_row_steps (r : Row) :
  fold_left (fun acc key => r ← acc; normalize_cell key r) normalized_keys
    (Some (set_extra "total" (row_total r) r)) ≫= drop_cell
  = Some (normalized_row r).
Proof.
  destruct r as [b p s k fe be li bo ty me ex].
  unfold normalized_keys, normalize_cell, drop_cell.
  cbn [fold_left set_extra extra mbind option_bind].
  repeat (rewrite lookup_insert_eq; cbn [mbind option_bind set_col get_col extra]).
  cbn [drop_extra]. rewrite delete_insert_eq. reflexivity.
Qed.

Lemma normalize_rows (df : DataFrame) :
  normalize df = Some (List.map normalized_row df).
Proof.
  unfold normalize, assign_total. cbv zeta.
  rewrite <- (mapM_total (fun r => set_extra "total" (row_total r) r) df).
  rewrite fold_columns_fuse.
  rewrite <- (mapM_total normalized_row df).
  etransitivity; [apply (mapM_bind_fuse _ drop_cell)|].
  apply mapM_ext. intros r. apply normalize_row_steps.
Qed.

Lemma typed_fold_columns_fuse (keys : list Phase) (h : TypedRow -> option TypedRow)
    (df : list TypedRow) :
  fold_left (fun acc key => df ← acc; typed_normalize_column key df) keys (mapM h df)
  = mapM (fun r => fold_left (fun acc key => r ← acc; typed_normalize_cell key r)
                     keys (h r)) df.
Proof.
  revert h. induction keys as [|key keys IH]; intros h; [done|].
  cbn [fold_left]. rewrite <- (IH (fun r => h r ≫= typed_normalize_cell key)).
  f_equal. apply (mapM_bind_fuse h (typed_normalize_cell key)).
Qed.

Lemma typed_normalize_row_steps (r : TypedRow) :
  fold_left (fun acc key => r ← acc; typed_normalize_cell key r) normalized_keys
    (Some (tset_extra "total" (typed_total r) r)) ≫= typed_drop_cell
  = Some (typed_normalized_row r).
Proof.
  destruct r as [b p s k fe be li bo ty me ex].
  unfold normalized_keys, typed_normalize_cell, typed_drop_cell.
  cbn [fold_left tset_extra t_extra mbind option_bind].
  repeat (rewrite lookup_insert_eq; cbn [mbind option_bind tset tget t_extra]).
  cbn [tdrop_extra]. rewrite delete_insert_eq. reflexivity.
Qed.

Lemma normalize_typed_rows (df : list TypedRow) :
  normalize_typed df = Some (List.map typed_normalized_row df).
Proof.
  unfold normalize_typed, typed_assign_total. cbv zeta.
  rewrite <- (mapM_total (fun r => tset_extra "total" (typed_total r) r) df).
  rewrite typed_fold_columns_fuse.
  rewrite <- (mapM_total typed_normalized_row df).
  etransitivity; [apply (mapM_bind_fuse _ typed_drop_cell)|].
  apply mapM_ext. intros r. apply typed_normalize_row_steps.
Qed.

Lemma typed_normalized_of_row (r : Row) :
  typed_normalized_row (typed_of_row r) = typed_of_row (normalized_row r).
Proof.
  destruct r as [b p s k fe be li bo ty me ex].
  unfold typed_normalized_row, typed_of_row, normalized_row. cbn. f_equal.
  by rewrite fmap_delete.
Qed.

(** C2 (as amended).  Normalisation never fails and works record by record,
    whatever dtypes [read_csv] gave the duration columns.  Every duration is
    replaced by [float32(field) / total * 100], where the total
    [frontend + backend + linker] is taken from the original durations in the
    dtype of the columns: the binary64 sum for float64 columns, the int64 sum
    with wrap-around for integer columns (an integer that meets a float64
    column is converted first); the total is converted to binary64, and the
    quotient and the product are computed in binary64.  The result has no
    column "total".  For a frame of float64 columns this is the
    normalisation [normalize] that the rest of the script is run on.  With the
    integer cells 2^62, 2^62 and 0 the total wraps to -2^63 and the frontend
    percentage is -50. *)
Theorem normalize_narrowed_percentages (tdf : list TypedRow) (df : DataFrame) :
  normalize_typed tdf = Some (List.map typed_normalized_row tdf) /\
  (forall r key,
     tget key (typed_normalized_row r) =
     Float64
       (F64.mul
          (F64.div (astype_float32 (tget key r))
             (to_float64 (num_add (num_add (t_frontend r) (t_backend r)) (t_linker r))))
          (F64.of_Z 100))) /\
  (forall x y z,
     num_add (num_add (Int64 x) (Int64 y)) (Int64 z)
     = Int64 (wrap64 (wrap64 (x + y) + z))) /\
  (forall x y z,
     num_add (num_add (Float64 x) (Float64 y)) (Float64 z)
     = Float64 (F64.add (F64.add x y) z)) /\
  (forall x y z,
     num_add (num_add (Int64 x) (Int64 y)) (Float64 z)
     = Float64 (F64.add (F64.of_Z (wrap64 (x + y))) z)) /\
  (forall r, t_extra (typed_normalized_row r) !! "total" = None) /\
  (forall r, t_benchmark (typed_normalized_row r) = t_benchmark r /\
             t_profile (typed_normalized_row r) = t_profile r /\
             t_scenario (typed_normalized_row r) = t_scenario r /\
             t_kind (typed_normalized_row r) = t_kind r) /\
  normalize_typed (typed_of_row <$> df)
    = Some (typed_of_row <$> List.map normalized_row df) /\
  normalize df = Some (List.map normalized_row df) /\
  (forall r key,
     get_col key (normalized_row r) =
     F64.mul
       (F64.div (F64.to_f32 (get_col key r))
          (F64.add (F64.add (col_frontend r) (col_backend r)) (col_linker r)))
       (F64.of_Z 100)) /\
  (forall r, extra (normalized_row r) !! "total" = None) /\
  (forall r, col_benchmark (normalized_row r) = col_benchmark r /\
             col_profile (normalized_row r) = col_profile r /\
             col_scenario (normalized_row r) = col_scenario r /\
             col_kind (normalized_row r) = col_kind r) /\
  typed_total row_int_wrap = Int64 (- 2 ^ 63) /\
  (tget Frontend <$> (normalize_typed [row_int_wrap] ≫= head))
    = Some (Float64 (F64.of_Z (-50))).
Proof.
  split; [apply normalize_typed_rows|].
  split; [intros r key; destruct key; reflexivity|].
  split; [reflexivity|]. split; [reflexivity|]. split; [reflexivity|].
  split; [intros r; apply lookup_delete_eq|].
  split; [intros r; repeat split|].
  split.
  { rewrite normalize_typed_rows. f_equal.
    change (List.map typed_normalized_row (typed_of_row <$> df))
      with (typed_normalized_row <$> (typed_of_row <$> df)).
    change (List.map normalized_row df) with (normalized_row <$> df).
    rewrite <- !list_fmap_compose. apply list_fmap_ext.
    intros i r _. apply typed_normalized_of_row. }
  split; [apply normalize_rows|].
  split; [intros r key; destruct key; reflexivity|].
  split; [intros r; apply lookup_delete_eq|].
  split; [intros r; repeat split|].
  split; [vm_compute; reflexivity|].
  rewrite normalize_typed_rows. vm_compute. reflexivity.
Qed.

(** C2, the claim as stated fails: for the run [row_tenth] the script stores
    100.00000149011612 as the frontend percentage, where
    [field / total * 100] is 100. *)
Lemma normalize_not_field_over_total :
  (List.map (get_col Frontend) <$> normalize [row_tenth]) =
    Some [S754_finite false 7036874522624000 (-46)] /\
  spec_normalize_field Frontend row_tenth = F64.of_Z 100 /\
  F64.of_Z 100 = S754_finite false 7036874417766400 (-46) /\
  normalize [row_tenth] <> Some [spec_normalized_row row_tenth].
Proof.
  rewrite normalize_rows.
  split; [vm_compute; reflexivity|].
  split; [vm_compute; reflexivity|].
  split; [vm_compute; reflexivity|].
  intros Heq.
  apply (f_equal (fun o => List.map (get_col Frontend) <$> o)) in Heq.
  vm_compute in Heq. discriminate Heq.
Qed.

(** Division by a zero total gives NaN or an infinity, and so does the
    product with 100. *)
Lemma div_zero_not_finite (x t : float) :
  F64.is_zero t = true ->
  F64.is_finite (F64.mul (F64.div x t) (F64.of_Z 100)) = false.
Proof.
  destruct t as [st| | |]; try discriminate. intros _.
  destruct x as [sx|sx| |sx mx ex]; reflexivity.
Qed.

Lemma div_zero_nan (x t : float) :
  F64.is_zero t = true ->
  F64.is_zero x = true \/ F64.is_nan x = true ->
  F64.is_nan (F64.mul (F64.div x t) (F64.of_Z 100)) = true.
Proof.
  destruct t as [st| | |]; try discriminate. intros _.
  destruct x as [sx|sx| |sx mx ex]; cbn; intros [?|?]; try discriminate; reflexivity.
Qed.

Lemma to_f32_nan (x : float) : F64.is_nan x = true -> F64.is_nan (F64.to_f32 x) = true.
Proof. destruct x; try discriminate; reflexivity. Qed.

(** The melted frame holds, for each duration column, the column itself. *)
Lemma filter_section_block (data : DataFrame) (key : Phase) (name : string) :
  filter (fun m => section m = name)
    (List.map (fun r => mkMelt (col_profile r) (col_scenario r) (col_kind r)
                               (phase_name key) (get_col key r)) data)
  = if decide (phase_name key = name)
    then List.map (fun r => mkMelt (col_profile r) (col_scenario r) (col_kind r)
                                   (phase_name key) (get_col key r)) data
    else [].
Proof.
  induction data as [|r data IH]; [by destruct (decide _)|].
  cbn [List.map]. destruct (decide (phase_name key = name)) as [Heq|Hne].
  - rewrite filter_cons_True by done. by rewrite IH.
  - rewrite filter_cons_False by done. by rewrite IH.
Qed.

Lemma section_percent_melt (data : DataFrame) (key : Phase) :
  section_percent (melt data normalized_keys) (phase_name key)
  = List.map (get_col key) data.
Proof.
  unfold section_percent, melt, normalized_keys. cbn [flat_map].
  rewrite !filter_app, !filter_section_block, filter_nil.
  destruct key; cbn [phase_name]; repeat case_decide; try done;
    cbn [app]; rewrite ?app_nil_r, List.map_map; reflexivity.
Qed.

Lemma to_f32_zero (x : float) : F64.is_zero x = true -> F64.is_zero (F64.to_f32 x) = true.
Proof. destruct x; try discriminate; reflexivity. Qed.

(** C3.  A record whose total is zero does not stop the normalisation: the
    whole frame is normalised, row by row.  In the zero-total record every
    normalised duration is NaN or an infinity, never a finite percentage; it
    is NaN wherever the duration itself is zero (after narrowing) or NaN, and
    so all six are NaN when the record meets the invariant of the data model
    (non-negative durations, sub-phases within the frontend).  The value
    stays in the column that the aggregation reads. *)
Theorem normalize_zero_total (df : DataFrame) (i : nat) (r : Row) :
  df !! i = Some r ->
  F64.is_zero (row_total r) = true ->
  exists out r',
    normalize df = Some out /\
    length out = length df /\
    out !! i = Some r' /\
    (forall key, F64.is_finite (get_col key r') = false) /\
    (forall key,
       F64.is_zero (F64.to_f32 (get_col key r)) = true \/
       F64.is_nan (get_col key r) = true ->
       F64.is_nan (get_col key r') = true) /\
    (record_invariant r = true ->
     forall key, F64.is_nan (get_col key r') = true) /\
    (forall key,
       section_percent (melt out normalized_keys) (phase_name key) !! i
       = Some (get_col key r')) /\
    (forall j r2, df !! j = Some r2 -> out !! j = Some (normalized_row r2)).
Proof.
  intros Hi Hz.
  exists (List.map normalized_row df), (normalized_row r).
  assert (Hlook : forall j r2, df !! j = Some r2 ->
                    List.map normalized_row df !! j = Some (normalized_row r2)).
  { intros j r2 Hj. change (List.map normalized_row df) with (normalized_row <$> df).
    by rewrite list_lookup_fmap, Hj. }
  assert (Hget : forall key, get_col key (normalized_row r) = normalize_field key r)
    by (intros key; destruct key; reflexivity).
  assert (Hnan : forall key,
            F64.is_zero (F64.to_f32 (get_col key r)) = true \/
            F64.is_nan (get_col key r) = true ->
            F64.is_nan (get_col key (normalized_row r)) = true).
  { intros key Hk. rewrite Hget. apply div_zero_nan; [done|].
    destruct Hk as [Hk|Hk]; [by left|right; by apply to_f32_nan]. }
  split; [apply normalize_rows|].
  split; [apply length_map|].
  split; [by apply Hlook|].
  split; [intros key; rewrite Hget; by apply div_zero_not_finite|].
  split; [exact Hnan|].
  split.
  { intros Hinv key. apply Hnan. left. apply to_f32_zero.
    by apply zero_total_all_zero. }
  split; [|exact Hlook].
  intros key. rewrite section_percent_melt.
  change (List.map (get_col key) (List.map normalized_row df))
    with (get_col key <$> (normalized_row <$> df)).
  by rewrite !list_lookup_fmap, Hi.
Qed.

(** An all-zero run next to an ordinary one: its six percentages are NaN. *)
Lemma normalize_zero_total_witness :
  [row_scenario; row_zero] !! 1%nat = Some row_zero /\
  F64.is_zero (row_total row_zero) = true /\
  record_invariant row_zero = true /\
  exists out r',
    normalize [row_scenario; row_zero] = Some out /\
    out !! 1%nat = Some r' /\
    (forall key, F64.is_nan (get_col key r') = true).
Proof.
  assert (H1 : [row_scenario; row_zero] !! 1%nat = Some row_zero) by reflexivity.
  assert (H2 : F64.is_zero (row_total row_zero) = true) by reflexivity.
  assert (H3 : record_invariant row_zero = true) by reflexivity.
  split; [exact H1|]. split; [exact H2|]. split; [exact H3|].
  destruct (normalize_zero_total [row_scenario; row_zero] 1 row_zero H1 H2)
    as (out & r' & Hn & _ & Ho & _ & _ & Hinv & _).
  exists out, r'. split; [exact Hn|]. split; [exact Ho|]. exact (Hinv H3).
Defined.

(** ** Row selection *)

Lemma filter_matches (data : DataFrame) (o : option string) (col : Row -> string) :
  match o with
  | Some x => filter (fun r => col r = x) data
  | None => data
  end = filter (fun r => matches o (col r)) data.
Proof.
  destruct o as [x|]; cbn; [done|].
  induction data as [|r data IH]; [done|].
  rewrite filter_cons_True by done. by rewrite <- IH.
Qed.

Lemma filter_data_conjunction (data : DataFrame) (profile scenario kind : option string) :
  filter_data data profile scenario kind =
  filter (fun r => matches profile (col_profile r) /\
                   matches scenario (col_scenario r) /\
                   matches kind (col_kind r)) data.
Proof.
  unfold filter_data. cbv zeta.
  rewrite (filter_matches data profile col_profile).
  rewrite (filter_matches _ scenario col_scenario).
  rewrite (filter_matches _ kind col_kind).
  rewrite !list_filter_filter. apply list_filter_iff. intros r. tauto.
Qed.

Lemma select_rows_filter (data : DataFrame) (benchmark profile scenario kind : option string) :
  select_rows data benchmark profile scenario kind =
  filter (fun r => matches benchmark (col_benchmark r) /\
                   matches profile (col_profile r) /\
                   matches scenario (col_scenario r) /\
                   matches kind (col_kind r)) data.
Proof.
  unfold select_rows, filter_benchmark.
  rewrite (filter_matches data benchmark col_benchmark).
  rewrite filter_data_conjunction, list_filter_filter.
  apply list_filter_iff. intros r. tauto.
Qed.

(** C4.  The row selection takes an optional exact-match value for each of
    benchmark, profile, scenario and kind ([filter_data] for the last three,
    the callers' benchmark restriction before it) and returns exactly the rows
    that satisfy every supplied predicate, in their original order; an omitted
    predicate does not constrain, and with none supplied the frame is returned
    as it is.  Frames are values: the argument is not changed. *)
Theorem select_rows_conjunction
    (data : DataFrame) (benchmark profile scenario kind : option string) :
  select_rows data benchmark profile scenario kind =
    filter (fun r => matches benchmark (col_benchmark r) /\
                     matches profile (col_profile r) /\
                     matches scenario (col_scenario r) /\
                     matches kind (col_kind r)) data /\
  filter_data data profile scenario kind =
    filter (fun r => matches profile (col_profile r) /\
                     matches scenario (col_scenario r) /\
                     matches kind (col_kind r)) data /\
  select_rows data benchmark profile scenario kind `sublist_of` data /\
  (forall r, r ∈ select_rows data benchmark profile scenario kind <->
             r ∈ data /\
             matches benchmark (col_benchmark r) /\
             matches profile (col_profile r) /\
             matches scenario (col_scenario r) /\
             matches kind (col_kind r)) /\
  select_rows data None None None None = data /\
  filter_data data None None None = data.
Proof.
  split; [apply select_rows_filter|].
  split; [apply filter_data_conjunction|].
  split; [rewrite select_rows_filter; apply sublist_filter|].
  split; [|done].
  intros r. rewrite select_rows_filter, list_elem_of_filter. tauto.
Qed.

(** C7.  Filtering the filtered frame again by the same predicates returns
    the same frame, for [filter_data] and for the selection with the
    benchmark restriction. *)
Theorem filter_data_idempotent
    (data : DataFrame) (benchmark profile scenario kind : option string) :
  filter_data (filter_data data profile scenario kind) profile scenario kind
    = filter_data data profile scenario kind /\
  select_rows (select_rows data benchmark profile scenario kind)
              benchmark profile scenario kind
    = select_rows data benchmark profile scenario kind.
Proof.
  split.
  - rewrite !filter_data_conjunction. apply list_filter_filter_r. tauto.
  - rewrite !select_rows_filter. apply list_filter_filter_r. tauto.
Qed.

(** ** The layout *)

Lemma outer_bars_float (b l bc tc md : float) :
  outer_bars (plot_bar_bars b l bc tc md) =
  [ mkBar (F64.of_Z 0) (F64.of_Z 0) (F64.of_Z 100) (F64.of_Z 1) c_frontend;
    mkBar l (F64.of_Z 0) b (F64.of_Z 1) c_backend;
    mkBar (F64.of_Z 0) (F64.of_Z 0) l (F64.of_Z 1) c_linker ].
Proof. reflexivity. Qed.

Lemma inner_bars_float (b l bc tc md : float) :
  List.map segment (inner_bars (plot_bar_bars b l bc tc md)) =
  [ (F64.add b l, bc, c_borrowck);
    (F64.add (F64.add b l) bc, tc, c_typeck);
    (F64.add (F64.add (F64.add b l) bc) tc, md, c_metadata) ].
Proof. reflexivity. Qed.

Lemma outer_bars_Q (b l bc tc md : Q) :
  outer_bars (plot_bar_bars b l bc tc md) =
  [ mkBar 0%Q 0%Q 100%Q 1%Q c_frontend;
    mkBar l 0%Q b 1%Q c_backend;
    mkBar 0%Q 0%Q l 1%Q c_linker ].
Proof. reflexivity. Qed.

Lemma inner_bars_Q (b l bc tc md : Q) :
  List.map segment (inner_bars (plot_bar_bars b l bc tc md)) =
  [ ((b + l)%Q, bc, c_borrowck);
    ((b + l + bc)%Q, tc, c_typeck);
    ((b + l + bc + tc)%Q, md, c_metadata) ].
Proof. reflexivity. Qed.

(** C1.  For the means backend=30, linker=10, borrowck=20, typeck=25,
    metadata=5 the layout (in binary64, as the program computes it) consists of
    the outer segments (0,10,linker), (10,30,backend), (0,100,frontend) and the
    inner segments (40,20,borrowck), (60,25,typeck), (85,5,metadata); the
    cursor [fe_base] takes the values 40, 60, 85, each at most 100.  The outer
    segments are drawn in the order frontend, backend, linker, the reverse of
    the order in which they are listed here.  A group holding the one record
    with these percentages has these means. *)
Theorem plot_bar_scenario_segments :
  let bs := plot_bar_bars (F64.of_Z 30) (F64.of_Z 10) (F64.of_Z 20)
                          (F64.of_Z 25) (F64.of_Z 5) in
  List.map segment (List.rev (outer_bars bs)) =
    [ (F64.of_Z 0, F64.of_Z 10, c_linker);
      (F64.of_Z 10, F64.of_Z 30, c_backend);
      (F64.of_Z 0, F64.of_Z 100, c_frontend) ] /\
  List.map segment (inner_bars bs) =
    [ (F64.of_Z 40, F64.of_Z 20, c_borrowck);
      (F64.of_Z 60, F64.of_Z 25, c_typeck);
      (F64.of_Z 85, F64.of_Z 5, c_metadata) ] /\
  fe_base_values (F64.of_Z 30) (F64.of_Z 10) (F64.of_Z 20) (F64.of_Z 25) =
    [F64.of_Z 40; F64.of_Z 60; F64.of_Z 85] /\
  List.map bar_x (inner_bars bs) =
    fe_base_values (F64.of_Z 30) (F64.of_Z 10) (F64.of_Z 20) (F64.of_Z 25) /\
  forallb (fun v => F64.leb v (F64.of_Z 100))
    (fe_base_values (F64.of_Z 30) (F64.of_Z 10) (F64.of_Z 20) (F64.of_Z 25))
    = true /\
  group_bars [row_scenario] = bs.
Proof. vm_compute. repeat split. Qed.

(** C5, the claim as stated fails: for the means of the scenario above, a
    non-overflowing input (20 + 25 + 5 <= 100 - (30 + 10)), the widths of the
    three outer rectangles add up to 140. *)
Lemma outer_widths_sum_140 :
  let bs := plot_bar_bars (F64.of_Z 30) (F64.of_Z 10) (F64.of_Z 20)
                          (F64.of_Z 25) (F64.of_Z 5) in
  F64.leb (F64.add (F64.add (F64.of_Z 20) (F64.of_Z 25)) (F64.of_Z 5))
          (F64.sub (F64.of_Z 100) (F64.add (F64.of_Z 30) (F64.of_Z 10))) = true /\
  sum_widths (outer_bars bs) = F64.of_Z 140 /\
  F64.leb (F64.abs (F64.sub (sum_widths (outer_bars bs)) (F64.of_Z 100)))
          (F64.div (F64.of_Z 1) (F64.of_Z 10000)) = false.
Proof. vm_compute. repeat split. Qed.

(** C5 (as amended).  The outer layer is the frontend rectangle, which always
    spans the whole axis (offset 0, width 100), the backend rectangle and the
    linker rectangle; for every input the sum of their widths is
    100 + avg_backend + avg_linker: in binary64 the rounded sum
    [(100 + avg_backend) + avg_linker], and over the rationals without
    rounding, where it is 100 exactly when avg_backend + avg_linker is 0. *)
Theorem outer_widths_sum (b l bc tc md : float) (qb ql qbc qtc qmd : Q) :
  List.map bar_width (outer_bars (plot_bar_bars b l bc tc md))
    = [F64.of_Z 100; b; l] /\
  sum_widths (outer_bars (plot_bar_bars b l bc tc md))
    = F64.add (F64.add (F64.of_Z 100) b) l /\
  List.map bar_width (outer_bars (plot_bar_bars qb ql qbc qtc qmd))
    = [100%Q; qb; ql] /\
  (sum_widths (outer_bars (plot_bar_bars qb ql qbc qtc qmd)) == 100 + qb + ql)%Q /\
  ((sum_widths (outer_bars (plot_bar_bars qb ql qbc qtc qmd)) == 100)%Q
   <-> (qb + ql == 0)%Q).
Proof.
  rewrite outer_bars_float, outer_bars_Q.
  split; [reflexivity|]. split; [reflexivity|]. split; [reflexivity|].
  assert (Hsum : (sum_widths [mkBar 0 0 100 1 c_frontend; mkBar ql 0 qb 1 c_backend;
                              mkBar 0 0 ql 1 c_linker] == 100 + qb + ql)%Q)
    by reflexivity.
  split; [exact Hsum|].
  rewrite Hsum. split; intros H; lra.
Qed.

(** C6, the claim as stated fails: the means [edge_backend], ... are valid
    non-negative binary64 numbers that meet the precondition, both as the
    engine would evaluate it in binary64 and exactly (the two sides are equal
    rationals); the engine's running sums are rounded twice on the way, and
    the typeck rectangle ends at 100.00000000000001, past position 100. *)
Lemma inner_right_edge_rounding :
  forallb duration_ok
    [edge_backend; edge_linker; edge_borrowck; edge_typeck; edge_metadata] = true /\
  F64.leb (F64.add (F64.add edge_borrowck edge_typeck) edge_metadata)
          (F64.sub (F64.of_Z 100) (F64.add edge_backend edge_linker)) = true /\
  (F64.to_Q edge_borrowck + F64.to_Q edge_typeck + F64.to_Q edge_metadata
   <= 100 - (F64.to_Q edge_backend + F64.to_Q edge_linker))%Q /\
  List.map (fun bar => F64.leb (bar_right bar) (F64.of_Z 100))
    (inner_bars (plot_bar_bars edge_backend edge_linker edge_borrowck
                               edge_typeck edge_metadata))
    = [true; false; false] /\
  ~ Forall (fun bar => F64.leb (bar_right bar) (F64.of_Z 100) = true)
      (inner_bars (plot_bar_bars edge_backend edge_linker edge_borrowck
                                 edge_typeck edge_metadata)).
Proof.
  split; [vm_compute; reflexivity|].
  split; [vm_compute; reflexivity|].
  split; [vm_compute; discriminate|].
  split; [vm_compute; reflexivity|].
  intros HF. apply Forall_cons_1 in HF as [_ HF].
  apply Forall_cons_1 in HF as [H _]. vm_compute in H. discriminate H.
Qed.

(** The bounds need non-negative means: with typeck = -50 the precondition
    holds and the borrowck rectangle ends at 130. *)
Lemma inner_bounds_need_nonneg :
  (90 + -50 + 0 <= 100 - (30 + 10))%Q /\
  ~ Forall (fun bar => (bar_right bar <= 100)%Q)
      (inner_bars (plot_bar_bars 30 10 90 (-50) 0)%Q).
Proof.
  split; [vm_compute; discriminate|].
  intros HF. apply Forall_cons_1 in HF as [H _]. vm_compute in H. by apply H.
Qed.

Lemma to_Q_nonneg (x : float) :
  nonneg_in_range x -> F64.is_finite x = true -> (0 <= F64.to_Q x)%Q.
Proof.
  intros Hx Hf. rewrite (to_Q_units x Hx Hf).
  apply Qle_shift_div_l.
  - rewrite <- (Zlt_Qlt 0). apply Z.pow_pos_nonneg; lia.
  - rewrite Qmult_0_l, <- (Zle_Qle 0). apply units_nonneg.
Qed.

(** The running sums of the engine for non-negative means that meet the
    precondition: every sum is finite, and above the exact sum by a rounding
    error of less than [10^-12]. *)
Lemma cursor_bounds (fb fl fbc ftc fmd : float) :
  forallb duration_ok [fb; fl; fbc; ftc; fmd] = true ->
  forallb F64.is_finite [fb; fl; fbc; ftc; fmd] = true ->
  (F64.to_Q fbc + F64.to_Q ftc + F64.to_Q fmd
   <= 100 - (F64.to_Q fb + F64.to_Q fl))%Q ->
  let s0 := F64.add fb fl in
  let s1 := F64.add s0 fbc in
  let s2 := F64.add s1 ftc in
  let s3 := F64.add s2 fmd in
  Forall (fun s => F64.is_finite s = true /\
                   (0 <= F64.to_Q s)%Q /\ (F64.to_Q s <= 100 + (1 # 10 ^ 12))%Q)
         [s0; s1; s2; s3] /\
  (F64.to_Q s0 <= F64.to_Q fb + F64.to_Q fl + (1 # 10 ^ 12))%Q.
Proof.
  intros Hd Hf Hpre. cbv zeta.
  cbn [forallb] in Hd, Hf. rewrite !andb_true_r in Hd, Hf.
  repeat (apply andb_prop in Hd as [?%duration_ok_nonneg Hd]).
  apply duration_ok_nonneg in Hd.
  repeat (apply andb_prop in Hf as [? Hf]).
  pose proof (to_Q_nonneg fb) as Hb. pose proof (to_Q_nonneg fl) as Hl.
  pose proof (to_Q_nonneg fbc) as Hbc. pose proof (to_Q_nonneg ftc) as Htc.
  pose proof (to_Q_nonneg fmd) as Hmd.
  specialize (Hb ltac:(assumption) ltac:(assumption)).
  specialize (Hl ltac:(assumption) ltac:(assumption)).
  specialize (Hbc ltac:(assumption) ltac:(assumption)).
  specialize (Htc ltac:(assumption) ltac:(assumption)).
  specialize (Hmd ltac:(assumption) ltac:(assumption)).
  destruct (add_upper_Q fb fl) as (Hn0 & Hf0 & Hp0 & Hu0); try assumption; [lra|].
  unfold one_plus_eps in Hu0.
  destruct (add_upper_Q (F64.add fb fl) fbc) as (Hn1 & Hf1 & Hp1 & Hu1);
    try assumption; [lra|].
  unfold one_plus_eps in Hu1.
  destruct (add_upper_Q (F64.add (F64.add fb fl) fbc) ftc) as (Hn2 & Hf2 & Hp2 & Hu2);
    try assumption; [lra|].
  unfold one_plus_eps in Hu2.
  destruct (add_upper_Q (F64.add (F64.add (F64.add fb fl) fbc) ftc) fmd)
    as (Hn3 & Hf3 & Hp3 & Hu3); try assumption; [lra|].
  unfold one_plus_eps in Hu3.
  change (1 # 10 ^ 12)%Q with (1 # 1000000000000)%Q.
  split; [|lra].
  repeat constructor; try assumption; lra.
Qed.

(** C6 (as amended).  The engine never clamps: for every input the inner
    rectangles have the given means as widths and the running sums as offsets
    (in binary64 and over the rationals), so that an input such as backend=50,
    linker=30, borrowck=30 is drawn up to position 110; their combined width
    is the left-hand side of the precondition as binary64 computes it.  For
    non-negative means with avg_borrowck + avg_typeck + avg_metadata <=
    100 - (avg_backend + avg_linker): in exact arithmetic the inner widths add
    up to at most the span left after the initial cursor, and the right edge
    of every inner rectangle is at most 100; in binary64, as the engine
    computes them, every offset and every right edge is a finite number that
    is at most [100 + 10^-12], and the inner widths add up to at most the
    span left after the rounded initial cursor plus [10^-12]. *)
Theorem inner_segments_within_axis
    (b l bc tc md : Q) (fb fl fbc ftc fmd : float) :
  List.map segment (inner_bars (plot_bar_bars fb fl fbc ftc fmd)) =
    [ (F64.add fb fl, fbc, c_borrowck);
      (F64.add (F64.add fb fl) fbc, ftc, c_typeck);
      (F64.add (F64.add (F64.add fb fl) fbc) ftc, fmd, c_metadata) ] /\
  sum_widths (inner_bars (plot_bar_bars fb fl fbc ftc fmd))
    = F64.add (F64.add fbc ftc) fmd /\
  List.map segment (inner_bars (plot_bar_bars b l bc tc md)) =
    [ ((b + l)%Q, bc, c_borrowck);
      ((b + l + bc)%Q, tc, c_typeck);
      ((b + l + bc + tc)%Q, md, c_metadata) ] /\
  Exists (fun bar => F64.leb (bar_right bar) (F64.of_Z 100) = false)
    (inner_bars (plot_bar_bars (F64.of_Z 50) (F64.of_Z 30) (F64.of_Z 30)
                               (F64.of_Z 0) (F64.of_Z 0))) /\
  ((0 <= bc)%Q -> (0 <= tc)%Q -> (0 <= md)%Q ->
   (bc + tc + md <= 100 - (b + l))%Q ->
   (sum_widths (inner_bars (plot_bar_bars b l bc tc md)) <= 100 - (b + l))%Q /\
   Forall (fun bar => (bar_right bar <= 100)%Q)
          (inner_bars (plot_bar_bars b l bc tc md))) /\
  (forallb duration_ok [fb; fl; fbc; ftc; fmd] = true ->
   forallb F64.is_finite [fb; fl; fbc; ftc; fmd] = true ->
   (F64.to_Q fbc + F64.to_Q ftc + F64.to_Q fmd
    <= 100 - (F64.to_Q fb + F64.to_Q fl))%Q ->
   Forall (fun bar =>
             F64.is_finite (bar_x bar) = true /\
             F64.is_finite (bar_right bar) = true /\
             (0 <= F64.to_Q (bar_x bar))%Q /\
             (F64.to_Q (bar_x bar) <= 100 + (1 # 10 ^ 12))%Q /\
             (F64.to_Q (bar_right bar) <= 100 + (1 # 10 ^ 12))%Q)
          (inner_bars (plot_bar_bars fb fl fbc ftc fmd)) /\
   (F64.to_Q fbc + F64.to_Q ftc + F64.to_Q fmd
    <= 100 - F64.to_Q (F64.add fb fl) + (1 # 10 ^ 12))%Q).
Proof.
  split; [reflexivity|]. split; [reflexivity|]. split; [reflexivity|].
  split; [apply Exists_cons_hd; vm_compute; reflexivity|].
  split.
  - intros Hbc Htc Hmd Hpre.
    change (inner_bars (plot_bar_bars b l bc tc md)) with
      [ mkBar (b + l)%Q (1 / 2)%Q bc (1 - 1 / 2)%Q c_borrowck;
        mkBar (b + l + bc)%Q (1 / 2)%Q tc (1 - 1 / 2)%Q c_typeck;
        mkBar (b + l + bc + tc)%Q (1 / 2)%Q md (1 - 1 / 2)%Q c_metadata ].
    split.
    + cbn. lra.
    + repeat constructor; unfold bar_right; cbn; lra.
  - intros Hd Hf Hpre.
    destruct (cursor_bounds fb fl fbc ftc fmd Hd Hf Hpre) as [Hall H0].
    cbv zeta in Hall, H0.
    apply Forall_cons_1 in Hall as [(Hf0 & Hp0 & Hu0) Hall].
    apply Forall_cons_1 in Hall as [(Hf1 & Hp1 & Hu1) Hall].
    apply Forall_cons_1 in Hall as [(Hf2 & Hp2 & Hu2) Hall].
    apply Forall_cons_1 in Hall as [(Hf3 & Hp3 & Hu3) _].
    change (inner_bars (plot_bar_bars fb fl fbc ftc fmd)) with
      [ mkBar (F64.add fb fl) (F64.div (F64.of_Z 1) (F64.of_Z 2)) fbc
              (F64.sub (F64.of_Z 1) (F64.div (F64.of_Z 1) (F64.of_Z 2))) c_borrowck;
        mkBar (F64.add (F64.add fb fl) fbc) (F64.div (F64.of_Z 1) (F64.of_Z 2)) ftc
              (F64.sub (F64.of_Z 1) (F64.div (F64.of_Z 1) (F64.of_Z 2))) c_typeck;
        mkBar (F64.add (F64.add (F64.add fb fl) fbc) ftc)
              (F64.div (F64.of_Z 1) (F64.of_Z 2)) fmd
              (F64.sub (F64.of_Z 1) (F64.div (F64.of_Z 1) (F64.of_Z 2))) c_metadata ].
    split.
    + repeat constructor; assumption.
    + change (1 # 10 ^ 12)%Q with (1 # 1000000000000)%Q in *. lra.
Qed.

(** The means of the scenario of C1 meet the precondition, and so do the
    means [edge_backend], ..., whose typeck rectangle ends one unit in the
    last place above 100. *)
Lemma inner_segments_within_axis_witness :
  ((0 <= 20)%Q /\ (0 <= 25)%Q /\ (0 <= 5)%Q /\
   (20 + 25 + 5 <= 100 - (30 + 10))%Q /\
   (sum_widths (inner_bars (plot_bar_bars 30 10 20 25 5)%Q) <= 100 - (30 + 10))%Q /\
   Forall (fun bar => (bar_right bar <= 100)%Q)
          (inner_bars (plot_bar_bars 30 10 20 25 5)%Q)) /\
  (forallb duration_ok
     [edge_backend; edge_linker; edge_borrowck; edge_typeck; edge_metadata] = true /\
   forallb F64.is_finite
     [edge_backend; edge_linker; edge_borrowck; edge_typeck; edge_metadata] = true /\
   (F64.to_Q edge_borrowck + F64.to_Q edge_typeck + F64.to_Q edge_metadata
    <= 100 - (F64.to_Q edge_backend + F64.to_Q edge_linker))%Q /\
   Forall (fun bar => (F64.to_Q (bar_right bar) <= 100 + (1 # 10 ^ 12))%Q)
          (inner_bars (plot_bar_bars edge_backend edge_linker edge_borrowck
                                     edge_typeck edge_metadata))).
Proof.
  assert (H1 : (0 <= 20)%Q) by (vm_compute; discriminate).
  assert (H2 : (0 <= 25)%Q) by (vm_compute; discriminate).
  assert (H3 : (0 <= 5)%Q) by (vm_compute; discriminate).
  assert (H4 : (20 + 25 + 5 <= 100 - (30 + 10))%Q) by (vm_compute; discriminate).
  assert (H5 : forallb duration_ok
                 [edge_backend; edge_linker; edge_borrowck; edge_typeck; edge_metadata]
               = true) by (vm_compute; reflexivity).
  assert (H6 : forallb F64.is_finite
                 [edge_backend; edge_linker; edge_borrowck; edge_typeck; edge_metadata]
               = true) by (vm_compute; reflexivity).
  assert (H7 : (F64.to_Q edge_borrowck + F64.to_Q edge_typeck + F64.to_Q edge_metadata
                <= 100 - (F64.to_Q edge_backend + F64.to_Q edge_linker))%Q)
    by (vm_compute; discriminate).
  split.
  - split; [exact H1|]. split; [exact H2|]. split; [exact H3|]. split; [exact H4|].
    exact (proj1 (proj2 (proj2 (proj2 (proj2
      (inner_segments_within_axis 30 10 20 25 5
         (F64.of_Z 30) (F64.of_Z 10) (F64.of_Z 20) (F64.of_Z 25) (F64.of_Z 5))))))
      H1 H2 H3 H4).
  - split; [exact H5|]. split; [exact H6|]. split; [exact H7|].
    destruct (proj2 (proj2 (proj2 (proj2 (proj2
      (inner_segments_within_axis 30 10 20 25 5 edge_backend edge_linker
         edge_borrowck edge_typeck edge_metadata))))) H5 H6 H7) as [Hall _].
    eapply Forall_impl; [exact Hall|]. intros bar (_ & _ & _ & _ & H). exact H.
Defined.

(** ** The pyplot state *)

Lemma gcf_update_gcf g st : gcf (update_gcf g st) = g (gcf st).
Proof. reflexivity. Qed.

Lemma saved_update_gca g st : plt_saved (update_gca g st) = plt_saved st.
Proof. reflexivity. Qed.

Lemma ready_wf n st : ready n st -> wf_plt st.
Proof.
  intros [_ Hlt]. unfold wf_plt, wf_figure.
  destruct (fig_axes (gcf st)); [done|]. by apply bool_decide_eq_true.
Qed.

Lemma with_gca_ready f :
  (fig_current f < length (fig_axes f))%nat -> with_gca f = f.
Proof. unfold with_gca. destruct (fig_axes f); cbn; [lia|done]. Qed.

Lemma wf_with_gca f :
  wf_figure f = true ->
  (fig_current (with_gca f) < length (fig_axes (with_gca f)))%nat.
Proof.
  unfold wf_figure, with_gca. destruct (fig_axes f) as [|a l] eqn:E.
  - intros _. cbn. lia.
  - intros Hlt%bool_decide_eq_true. by rewrite E.
Qed.

Lemma figure_axes_update_gca g f :
  wf_figure f = true ->
  figure_axes (update_gca_fig g f) = g (figure_axes f).
Proof.
  intros Hwf%wf_with_gca. unfold update_gca_fig, figure_axes. cbv zeta.
  set (f' := with_gca f) in *.
  assert (Hlen : (fig_current (update_axes g (fig_current f') f')
                  < length (fig_axes (update_axes g (fig_current f') f')))%nat).
  { cbn. by rewrite length_alter. }
  rewrite (with_gca_ready _ Hlen).
  cbn [update_axes fig_axes fig_current].
  rewrite list_lookup_alter_eq.
  destruct (lookup_lt_is_Some_2 _ _ Hwf) as [a ->]. reflexivity.
Qed.

Lemma update_gca_fig_ready g f :
  wf_figure f = true ->
  length (fig_axes (update_gca_fig g f)) = length (fig_axes (with_gca f)) /\
  (fig_current (update_gca_fig g f) < length (fig_axes (update_gca_fig g f)))%nat.
Proof.
  intros Hwf%wf_with_gca. unfold update_gca_fig. cbn.
  rewrite length_alter. done.
Qed.

Lemma current_axes_update_gca g st :
  wf_plt st -> current_axes (update_gca g st) = g (current_axes st).
Proof. intros Hwf. by apply figure_axes_update_gca. Qed.

Lemma wf_update_gca g st : wf_plt st -> wf_plt (update_gca g st).
Proof.
  intros Hwf. destruct (update_gca_fig_ready g (gcf st) Hwf) as [Hlen Hlt].
  eapply ready_wf. split; [reflexivity|exact Hlt].
Qed.

Lemma ready_update_gca n g st : ready n st -> ready n (update_gca g st).
Proof.
  intros Hr. pose proof (ready_wf _ _ Hr) as Hwf. destruct Hr as [Hn Hlt].
  destruct (update_gca_fig_ready g (gcf st) Hwf) as [Hlen Hlt'].
  rewrite (with_gca_ready _ Hlt) in Hlen.
  split; [|exact Hlt'].
  change (length (fig_axes (update_gca_fig g (gcf st))) = n). by rewrite Hlen.
Qed.

(** The rectangles drawn by a sequence of [plt.bar] calls are appended to
    those of the current axes. *)
Lemma fold_plt_bar bs st :
  wf_plt st ->
  wf_plt (fold_left (fun st b => plt_bar b st) bs st) /\
  plt_saved (fold_left (fun st b => plt_bar b st) bs st) = plt_saved st /\
  current_axes (fold_left (fun st b => plt_bar b st) bs st) =
    mkAxes (ax_bars (current_axes st) ++ bs) (ax_legend (current_axes st))
           (ax_xlabel (current_axes st)) (ax_yticks (current_axes st))
           (ax_hidden_spines (current_axes st)).
Proof.
  revert st. induction bs as [|b bs IH]; intros st Hwf.
  - cbn. rewrite app_nil_r. by destruct (current_axes st).
  - cbn [fold_left].
    destruct (IH (plt_bar b st) (wf_update_gca _ _ Hwf)) as (Hw & Hs & Hc).
    split; [exact Hw|]. split; [by rewrite Hs|].
    rewrite Hc. unfold plt_bar. rewrite current_axes_update_gca by done.
    cbn. by rewrite <- app_assoc.
Qed.

Lemma plot_bar_group data profile scenario kind st :
  plot_bar data profile scenario kind st =
  update_gca (set_xlabel "Percent out of whole compilation")
    (update_gca set_null_locator
       (fold_left (fun st b => plt_bar b st)
          (group_bars (filter_data data profile scenario kind)) st)).
Proof. reflexivity. Qed.

Lemma plot_bar_axes data profile scenario kind st :
  wf_plt st ->
  wf_plt (plot_bar data profile scenario kind st) /\
  plt_saved (plot_bar data profile scenario kind st) = plt_saved st /\
  current_axes (plot_bar data profile scenario kind st) =
    mkAxes (ax_bars (current_axes st)
              ++ group_bars (filter_data data profile scenario kind))
           (ax_legend (current_axes st))
           (Some "Percent out of whole compilation") false
           (ax_hidden_spines (current_axes st)).
Proof.
  intros Hwf. rewrite plot_bar_group.
  destruct (fold_plt_bar (group_bars (filter_data data profile scenario kind))
              st Hwf) as (Hw & Hs & Hc).
  split; [by do 2 apply wf_update_gca|]. split; [exact Hs|].
  rewrite current_axes_update_gca by (by apply wf_update_gca).
  rewrite current_axes_update_gca by done.
  rewrite Hc. reflexivity.
Qed.

Lemma plot_bar_ready n data profile scenario kind st :
  ready n st -> ready n (plot_bar data profile scenario kind st).
Proof.
  intros Hr. rewrite plot_bar_group. do 2 apply ready_update_gca.
  generalize (group_bars (filter_data data profile scenario kind)).
  intros bs. revert st Hr. induction bs as [|b bs IH]; intros st Hr; [done|].
  cbn [fold_left]. apply IH. by apply ready_update_gca.
Qed.

Lemma ready_after_update_gca g st :
  wf_plt st -> exists n, ready n (update_gca g st).
Proof.
  intros Hwf. destruct (update_gca_fig_ready g (gcf st) Hwf) as [_ Hlt].
  eexists. split; [reflexivity|exact Hlt].
Qed.

Lemma figure_axes_map_axes g f :
  (fig_current f < length (fig_axes f))%nat ->
  figure_axes (map_axes g f) = g (figure_axes f).
Proof.
  intros Hlt. unfold figure_axes. cbv zeta.
  assert (Hlt' : (fig_current (map_axes g f) < length (fig_axes (map_axes g f)))%nat)
    by (cbn; by rewrite length_map).
  rewrite (with_gca_ready _ Hlt), (with_gca_ready _ Hlt').
  cbn [map_axes fig_axes fig_current].
  change (List.map g (fig_axes f)) with (g <$> fig_axes f).
  rewrite list_lookup_fmap.
  destruct (lookup_lt_is_Some_2 _ _ Hlt) as [a ->]. reflexivity.
Qed.

Lemma figure_axes_ext f f' :
  fig_axes f = fig_axes f' -> fig_current f = fig_current f' ->
  figure_axes f = figure_axes f'.
Proof.
  unfold figure_axes, with_gca. cbv zeta. intros Ha Hc. rewrite Ha.
  destruct (fig_axes f') eqn:E; cbn; [done|]. by rewrite Ha, Hc, E.
Qed.

Lemma ready_map_axes n g st : ready n st -> ready n (update_gcf (map_axes g) st).
Proof. intros [Hn Hlt]. split; cbn; rewrite length_map; done. Qed.

Lemma ready_set_size n w h st : ready n st -> ready n (update_gcf (set_size_inches w h) st).
Proof. intros [Hn Hlt]. split; done. Qed.

Lemma ready_set_dpi n d st : ready n st -> ready n (update_gcf (set_dpi d) st).
Proof. intros [Hn Hlt]. split; done. Qed.

(** What one [single_bench] call leaves behind. *)
Lemma single_bench_steps data name benchmark profile scenario metadata st :
  single_bench data name benchmark profile scenario metadata st =
  savefig (name ++ ".png")
    (update_gcf (set_dpi 300)
       (update_gcf (set_size_inches 5 2)
          (update_gcf (map_axes hide_all_spines)
             (plt_legend (create_bars metadata) "lower left" (1, 1 # 10)%Q
                (plot_bar (filter (fun r => col_benchmark r = benchmark) data)
                          (Some profile) (Some scenario) None st))))).
Proof. reflexivity. Qed.

(** Lines 90-98 on a figure that has its axes. *)
Lemma finish_figure n name w h d st :
  ready n st ->
  let st' := savefig name
               (update_gcf (set_dpi d)
                  (update_gcf (set_size_inches w h)
                     (update_gcf (map_axes hide_all_spines) st))) in
  ready n st' /\
  plt_saved st' = plt_saved st ++ [(name, gcf st')] /\
  current_axes st' = hide_all_spines (current_axes st).
Proof.
  intros Hr. pose proof (ready_map_axes n hide_all_spines st Hr) as Hr3.
  assert (Hc3 : current_axes (update_gcf (map_axes hide_all_spines) st)
                = hide_all_spines (current_axes st))
    by (apply figure_axes_map_axes; apply Hr).
  assert (Hs3 : plt_saved (update_gcf (map_axes hide_all_spines) st)
                = plt_saved st) by reflexivity.
  revert Hr3 Hc3 Hs3.
  generalize (update_gcf (map_axes hide_all_spines) st). intros st3 Hr3 Hc3 Hs3.
  cbv zeta. split; [exact Hr3|]. split.
  - cbn [savefig plt_saved update_gcf]. by rewrite Hs3.
  - rewrite <- Hc3. apply figure_axes_ext; reflexivity.
Qed.

(** Line 88 (and line 110 of [grid]). *)
Lemma plt_legend_axes hs l anchor st :
  wf_plt st ->
  (exists n, ready n (plt_legend hs l anchor st)) /\
  plt_saved (plt_legend hs l anchor st) = plt_saved st /\
  current_axes (plt_legend hs l anchor st) =
    set_legend (Some (mkLegend hs l anchor)) (current_axes st).
Proof.
  intros Hwf. unfold plt_legend.
  split; [by apply ready_after_update_gca|].
  split; [reflexivity|]. by apply current_axes_update_gca.
Qed.

(** What one [single_bench] call leaves behind. *)
Lemma single_bench_axes data name benchmark profile scenario metadata st :
  wf_plt st ->
  wf_plt (single_bench data name benchmark profile scenario metadata st) /\
  plt_saved (single_bench data name benchmark profile scenario metadata st) =
    plt_saved st ++
    [((name ++ ".png")%string,
      gcf (single_bench data name benchmark profile scenario metadata st))] /\
  current_axes (single_bench data name benchmark profile scenario metadata st) =
    hide_all_spines
      (mkAxes (ax_bars (current_axes st)
                 ++ group_bars (select_rows data (Some benchmark) (Some profile)
                                            (Some scenario) None))
              (Some (mkLegend (create_bars metadata) "lower left" (1, 1 # 10)%Q))
              (Some "Percent out of whole compilation") false
              (ax_hidden_spines (current_axes st))).
Proof.
  intros Hwf. rewrite single_bench_steps.
  destruct (plot_bar_axes (filter (fun r => col_benchmark r = benchmark) data)
              (Some profile) (Some scenario) None st Hwf) as (Hw1 & Hs1 & Hc1).
  revert Hw1 Hs1 Hc1.
  generalize (plot_bar (filter (fun r => col_benchmark r = benchmark) data)
                (Some profile) (Some scenario) None st).
  intros st1 Hw1 Hs1 Hc1.
  destruct (plt_legend_axes (create_bars metadata) "lower left" (1, 1 # 10)%Q
              st1 Hw1) as ([n Hr2] & Hs2 & Hc2).
  revert Hr2 Hs2 Hc2.
  generalize (plt_legend (create_bars metadata) "lower left" (1, 1 # 10)%Q st1).
  intros st2 Hr2 Hs2 Hc2.
  destruct (finish_figure n (name ++ ".png") 5 2 300 st2 Hr2) as (Hr & Hs & Hc).
  split; [exact (ready_wf _ _ Hr)|].
  split; [rewrite Hs, Hs2, Hs1; reflexivity|].
  rewrite Hc, Hc2, Hc1. reflexivity.
Qed.

Lemma group_bars_metadata (rows : DataFrame) :
  exists bar,
    group_bars rows !! 3%nat = Some bar /\
    bar_color bar = c_metadata /\
    bar_width bar = mean (List.map col_metadata rows).
Proof.
  eexists. split; [reflexivity|]. split; [reflexivity|].
  cbn [bar_width]. f_equal. apply (section_percent_melt rows Metadata).
Qed.

(** C8, the claim as stated fails: of the six rectangles drawn for an empty
    group, the frontend rectangle has width 100; only the other five have a
    NaN width. *)
Lemma empty_group_frontend_width :
  let bs := ax_bars (current_axes (plot_bar [] None None None plt_initial)) in
  length bs = 6%nat /\
  List.map (fun b => F64.is_nan (bar_width b)) bs
    = [false; true; true; true; true; true] /\
  (bar_width <$> bs !! 0%nat) = Some (F64.of_Z 100) /\
  ~ Forall (fun b => F64.is_nan (bar_width b) = true) bs.
Proof.
  cbv zeta.
  assert (E : ax_bars (current_axes (plot_bar [] None None None plt_initial))
              = plot_bar_bars F64.nan F64.nan F64.nan F64.nan F64.nan)
    by (vm_compute; reflexivity).
  rewrite E. split; [reflexivity|]. split; [reflexivity|].
  split; [reflexivity|].
  intros HF. apply Forall_cons_1 in HF as [H0 _]. vm_compute in H0. discriminate H0.
Qed.

(** C8 (as amended).  For a group that matches no record every per-phase mean
    is NaN, and [plot_bar] still draws its six rectangles: the frontend
    rectangle with offset 0 and width 100, and the five phase rectangles with
    NaN widths (borrowck, typeck, metadata and backend also with NaN
    offsets). *)
Theorem plot_bar_empty_group
    (data : DataFrame) (profile scenario kind : option string) (st : Plt) :
  wf_plt st ->
  filter_data data profile scenario kind = [] ->
  (forall key,
     mean (section_percent
             (melt (filter_data data profile scenario kind) normalized_keys)
             (phase_name key)) = F64.nan) /\
  ax_bars (current_axes (plot_bar data profile scenario kind st)) =
    ax_bars (current_axes st) ++
    [ mkBar (F64.of_Z 0) (F64.of_Z 0) (F64.of_Z 100) (F64.of_Z 1) c_frontend;
      mkBar F64.nan (F64.div (F64.of_Z 1) (F64.of_Z 2)) F64.nan
            (F64.div (F64.of_Z 1) (F64.of_Z 2)) c_borrowck;
      mkBar F64.nan (F64.div (F64.of_Z 1) (F64.of_Z 2)) F64.nan
            (F64.div (F64.of_Z 1) (F64.of_Z 2)) c_typeck;
      mkBar F64.nan (F64.div (F64.of_Z 1) (F64.of_Z 2)) F64.nan
            (F64.div (F64.of_Z 1) (F64.of_Z 2)) c_metadata;
      mkBar F64.nan (F64.of_Z 0) F64.nan (F64.of_Z 1) c_backend;
      mkBar (F64.of_Z 0) (F64.of_Z 0) F64.nan (F64.of_Z 1) c_linker ].
Proof.
  intros Hwf Hempty. split.
  - intros key. rewrite Hempty. by destruct key.
  - destruct (plot_bar_axes data profile scenario kind st Hwf) as (_ & _ & Hc).
    rewrite Hc, Hempty. cbn [ax_bars]. f_equal.
Qed.

(** No run of the sample frame has the profile Opt. *)
Lemma plot_bar_empty_group_witness :
  wf_plt plt_initial /\
  filter_data [row_scenario] (Some "Opt") None None = [] /\
  ax_bars (current_axes (plot_bar [row_scenario] (Some "Opt") None None plt_initial)) =
    ax_bars (current_axes plt_initial) ++
    [ mkBar (F64.of_Z 0) (F64.of_Z 0) (F64.of_Z 100) (F64.of_Z 1) c_frontend;
      mkBar F64.nan (F64.div (F64.of_Z 1) (F64.of_Z 2)) F64.nan
            (F64.div (F64.of_Z 1) (F64.of_Z 2)) c_borrowck;
      mkBar F64.nan (F64.div (F64.of_Z 1) (F64.of_Z 2)) F64.nan
            (F64.div (F64.of_Z 1) (F64.of_Z 2)) c_typeck;
      mkBar F64.nan (F64.div (F64.of_Z 1) (F64.of_Z 2)) F64.nan
            (F64.div (F64.of_Z 1) (F64.of_Z 2)) c_metadata;
      mkBar F64.nan (F64.of_Z 0) F64.nan (F64.of_Z 1) c_backend;
      mkBar (F64.of_Z 0) (F64.of_Z 0) F64.nan (F64.of_Z 1) c_linker ].
Proof.
  assert (H1 : wf_plt plt_initial) by reflexivity.
  assert (H2 : filter_data [row_scenario] (Some "Opt") None None = [])
    by (vm_compute; reflexivity).
  split; [exact H1|]. split; [exact H2|].
  exact (proj2 (plot_bar_empty_group [row_scenario] (Some "Opt") None None
                  plt_initial H1 H2)).
Defined.

(** ** The legend flag *)

Lemma map_alter_absorb {A B} (f : A -> B) (g : A -> A) (i : nat) (l : list A) :
  (forall x, f (g x) = f x) -> List.map f (alter g i l) = List.map f l.
Proof.
  intros Hfg. revert i. induction l as [|x l IH]; intros i; [done|].
  destruct i as [|i]; cbn.
  - by rewrite Hfg.
  - by rewrite IH.
Qed.

Lemma gcf_erase_legends st : gcf (erase_legends st) = erase_legend_fig (gcf st).
Proof. unfold gcf, erase_legends. cbn. by destruct (plt_figure st). Qed.

Lemma erase_update_gcf g st :
  (forall f, erase_legend_fig (g f) = g (erase_legend_fig f)) ->
  erase_legends (update_gcf g st) = update_gcf g (erase_legends st).
Proof.
  intros Hg. unfold update_gcf. rewrite gcf_erase_legends, <- Hg. reflexivity.
Qed.

Lemma erase_savefig name st :
  erase_legends (savefig name st) = savefig name (erase_legends st).
Proof.
  unfold savefig. rewrite gcf_erase_legends.
  unfold erase_legends at 1. cbn [plt_figure plt_saved fmap option_fmap option_map].
  by rewrite List.map_app.
Qed.

Lemma erase_map_axes_spines f :
  erase_legend_fig (map_axes hide_all_spines f)
  = map_axes hide_all_spines (erase_legend_fig f).
Proof.
  unfold erase_legend_fig, map_axes. cbn. by rewrite !List.map_map.
Qed.

(** The legend handles leave no trace once the legends are taken off. *)
Lemma erase_plt_legend hs hs' l anchor st :
  erase_legends (plt_legend hs l anchor st)
  = erase_legends (plt_legend hs' l anchor st).
Proof.
  unfold plt_legend, update_gca, update_gcf, erase_legends.
  cbn [plt_figure plt_saved fmap option_fmap option_map]. f_equal. f_equal.
  unfold erase_legend_fig, update_gca_fig, map_axes, update_axes.
  cbn [fig_axes fig_current fig_size_inches fig_dpi].
  by rewrite !map_alter_absorb.
Qed.

Lemma erase_single_bench data name benchmark profile scenario st :
  erase_legends (single_bench data name benchmark profile scenario true st)
  = erase_legends (single_bench data name benchmark profile scenario false st).
Proof.
  rewrite !single_bench_steps.
  generalize (plot_bar (filter (fun r => col_benchmark r = benchmark) data)
                (Some profile) (Some scenario) None st). intros st1.
  rewrite !erase_savefig.
  rewrite !(erase_update_gcf (set_dpi 300)) by reflexivity.
  rewrite !(erase_update_gcf (set_size_inches 5 2)) by reflexivity.
  rewrite !(erase_update_gcf (map_axes hide_all_spines))
    by apply erase_map_axes_spines.
  by rewrite (erase_plt_legend (create_bars true) (create_bars false)).
Qed.

(** *** The grid *)

Lemma grid_steps data name benchmark kind metadata st :
  grid data name benchmark kind metadata st =
  savefig (name ++ ".png")
    (update_gcf (set_dpi 300)
       (update_gcf (set_size_inches 14 6)
          (plt_legend (create_bars metadata) "lower left" (1, 4 # 10)%Q
             (map_dataframe
                (match kind with
                 | Some k =>
                     filter (fun r => col_kind r = k)
                       (match benchmark with
                        | Some b => filter (fun r => col_benchmark r = b) data
                        | None => data
                        end)
                 | None =>
                     match benchmark with
                     | Some b => filter (fun r => col_benchmark r = b) data
                     | None => data
                     end
                 end)
                (FacetGrid st))))).
Proof. reflexivity. Qed.

Lemma erase_grid data name benchmark kind st :
  erase_legends (grid data name benchmark kind true st)
  = erase_legends (grid data name benchmark kind false st).
Proof.
  rewrite !grid_steps.
  match goal with
  | |- context [map_dataframe ?d ?s] => generalize (map_dataframe d s)
  end. intros st1.
  rewrite !erase_savefig.
  rewrite !(erase_update_gcf (set_dpi 300)) by reflexivity.
  rewrite !(erase_update_gcf (set_size_inches 14 6)) by reflexivity.
  by rewrite (erase_plt_legend (create_bars true) (create_bars false)).
Qed.

Lemma ready_FacetGrid st : ready 12 (FacetGrid st).
Proof. split; [reflexivity|]. cbn. lia. Qed.

Lemma ready_sca n i st :
  (i < n)%nat -> length (fig_axes (gcf st)) = n -> ready n (update_gcf (sca i) st).
Proof. intros Hi Hn. split; cbn; [done|]. by rewrite Hn. Qed.

Lemma map_dataframe_ready data st : ready 12 (map_dataframe data (FacetGrid st)).
Proof.
  unfold map_dataframe.
  assert (Hidx : Forall (fun ic : nat * (string * string) => (ic.1 < 12)%nat)
                   (imap (fun i cell => (i, cell)) facet_cells))
    by (vm_compute; repeat constructor).
  revert Hidx. generalize (imap (fun i (cell : string * string) => (i, cell)) facet_cells).
  generalize (ready_FacetGrid st). generalize (FacetGrid st).
  intros st0 Hr l. revert st0 Hr.
  induction l as [|[i cell] l IH]; intros st0 Hr Hidx; [exact Hr|].
  apply Forall_cons_1 in Hidx as [Hi Hidx]. cbn [fold_left].
  apply IH; [|exact Hidx].
  destruct (facet_data data cell) as [|r rows]; [exact Hr|].
  apply plot_bar_ready. apply ready_sca; [exact Hi|apply Hr].
Qed.

Lemma grid_legend data name benchmark kind metadata st :
  ax_legend (current_axes (grid data name benchmark kind metadata st))
  = Some (mkLegend (create_bars metadata) "lower left" (1, 4 # 10)%Q).
Proof.
  rewrite grid_steps.
  match goal with
  | |- context [map_dataframe ?d ?s] =>
      pose proof (ready_wf _ _ (map_dataframe_ready d st)) as Hwf;
      revert Hwf; generalize (map_dataframe d s)
  end. intros st1 Hwf.
  destruct (plt_legend_axes (create_bars metadata) "lower left" (1, 4 # 10)%Q
              st1 Hwf) as (_ & _ & Hc).
  revert Hc.
  generalize (plt_legend (create_bars metadata) "lower left" (1, 4 # 10)%Q st1).
  intros st2 Hc.
  transitivity (ax_legend (current_axes st2)).
  - f_equal. apply figure_axes_ext; reflexivity.
  - rewrite Hc. reflexivity.
Qed.


(** *** The cells of the grid *)

Lemma update_gca_bars_at n g extra st j :
  ready n st ->
  (forall ax, ax_bars (g ax) = ax_bars ax ++ extra) ->
  bars_at (update_gca g st) j =
    (if decide (j = fig_current (gcf st))
     then (fun bs => bs ++ extra) <$> bars_at st j
     else bars_at st j) /\
  fig_current (gcf (update_gca g st)) = fig_current (gcf st).
Proof.
  intros [Hn Hlt] Hg. unfold bars_at, update_gca.
  rewrite gcf_update_gcf. unfold update_gca_fig. cbv zeta.
  rewrite (with_gca_ready _ Hlt). cbn [update_axes fig_axes fig_current].
  split; [|reflexivity].
  rewrite list_lookup_alter.
  destruct (decide (fig_current (gcf st) = j)) as [Heq|Hne].
  - subst j. rewrite decide_True by done.
    destruct (fig_axes (gcf st) !! fig_current (gcf st)); cbn; [|done].
    by rewrite Hg.
  - by rewrite decide_False by done.
Qed.

Lemma fold_plt_bar_bars_at n bs st j :
  ready n st ->
  bars_at (fold_left (fun st b => plt_bar b st) bs st) j =
    (if decide (j = fig_current (gcf st))
     then (fun old => old ++ bs) <$> bars_at st j
     else bars_at st j) /\
  fig_current (gcf (fold_left (fun st b => plt_bar b st) bs st))
    = fig_current (gcf st) /\
  ready n (fold_left (fun st b => plt_bar b st) bs st).
Proof.
  revert st. induction bs as [|b bs IH]; intros st Hr.
  - cbn. split; [|done]. destruct (decide _); [|done].
    destruct (bars_at st j); cbn; [|done]. by rewrite app_nil_r.
  - cbn [fold_left].
    destruct (update_gca_bars_at n (add_bar b) [b] st j Hr) as [Hb Hc]; [done|].
    pose proof (ready_update_gca n (add_bar b) st Hr) as Hr'.
    fold (plt_bar b st) in Hb, Hc, Hr'.
    destruct (IH (plt_bar b st) Hr') as (Hb' & Hc' & Hr'').
    split; [|split; [by rewrite Hc', Hc|exact Hr'']].
    rewrite Hb', Hc, Hb. destruct (decide _); [|done].
    destruct (bars_at st j); cbn; [|done]. by rewrite <- app_assoc.
Qed.

Lemma plot_bar_bars_at n data profile scenario kind st j :
  ready n st ->
  bars_at (plot_bar data profile scenario kind st) j =
    (if decide (j = fig_current (gcf st))
     then (fun old => old ++ group_bars (filter_data data profile scenario kind))
            <$> bars_at st j
     else bars_at st j).
Proof.
  intros Hr. rewrite plot_bar_group.
  destruct (fold_plt_bar_bars_at n
              (group_bars (filter_data data profile scenario kind)) st j Hr)
    as (Hb & Hc & Hr1).
  revert Hb Hc Hr1.
  generalize (fold_left (fun st b => plt_bar b st)
                (group_bars (filter_data data profile scenario kind)) st).
  intros st1 Hb Hc Hr1.
  destruct (update_gca_bars_at n set_null_locator [] st1 j Hr1) as [Hb2 Hc2].
  { intros ax. by rewrite app_nil_r. }
  pose proof (ready_update_gca n set_null_locator st1 Hr1) as Hr2.
  revert Hb2 Hc2 Hr2. generalize (update_gca set_null_locator st1).
  intros st2 Hb2 Hc2 Hr2.
  destruct (update_gca_bars_at n
              (set_xlabel "Percent out of whole compilation") [] st2 j Hr2)
    as [Hb3 _].
  { intros ax. by rewrite app_nil_r. }
  rewrite Hb3, Hc2, Hb2, Hc, Hb.
  destruct (decide _); [|done].
  destruct (bars_at st j); cbn; [|done]. by rewrite !app_nil_r.
Qed.

Lemma map_dataframe_step n data i cell st j :
  ready n st -> (i < n)%nat ->
  let st' := match facet_data data cell with
             | [] => st
             | subset => plot_bar subset None None None (update_gcf (sca i) st)
             end in
  ready n st' /\
  bars_at st' j =
    (if decide (j = i) then (fun old => old ++ cell_bars data cell) <$> bars_at st j
     else bars_at st j).
Proof.
  intros Hr Hi. cbv zeta. unfold cell_bars.
  destruct (facet_data data cell) as [|r rows] eqn:E.
  - split; [exact Hr|]. destruct (decide _); [|done].
    destruct (bars_at st j); cbn; [|done]. by rewrite app_nil_r.
  - pose proof (ready_sca n i st Hi (proj1 Hr)) as Hr1.
    split; [by apply plot_bar_ready|].
    rewrite (plot_bar_bars_at n _ None None None _ j Hr1). reflexivity.
Qed.

Lemma map_dataframe_fold n data (l : list (nat * (string * string))) st j :
  ready n st ->
  Forall (fun ic => (ic.1 < n)%nat) l ->
  NoDup (l.*1) ->
  bars_at (fold_left (fun st ic =>
                        let '(i, cell) := ic in
                        match facet_data data cell with
                        | [] => st
                        | subset =>
                            plot_bar subset None None None (update_gcf (sca i) st)
                        end) l st) j =
    match list_find (fun ic => ic.1 = j) l with
    | Some (_, (_, cell)) => (fun old => old ++ cell_bars data cell) <$> bars_at st j
    | None => bars_at st j
    end.
Proof.
  revert st. induction l as [|[i cell] l IH]; intros st Hr Hidx Hnd; [done|].
  apply Forall_cons_1 in Hidx as [Hi Hidx].
  apply NoDup_cons in Hnd as [Hnotin Hnd].
  cbn [fold_left].
  destruct (map_dataframe_step n data i cell st j Hr Hi) as [Hr1 Hb1].
  rewrite (IH _ Hr1 Hidx Hnd), Hb1. clear IH.
  cbn [list_find]. cbn [fst]. destruct (decide (i = j)) as [->|Hne].
  - rewrite decide_True by done. cbn.
    destruct (list_find (fun ic => ic.1 = j) l) as [[k [i' c']]|] eqn:Ef; [|done].
    apply list_find_Some in Ef as (Hk & Hj & _). cbn in Hj. subst i'.
    exfalso. apply Hnotin. apply list_elem_of_fmap. exists (j, c'). split; [done|].
    by eapply list_elem_of_lookup_2.
  - rewrite decide_False by done.
    destruct (list_find (fun ic => ic.1 = j) l) as [[k [i' c']]|]; done.
Qed.

(** Every cell of the grid shows the six rectangles of its own rows, and
    nothing when it has no rows. *)
Lemma map_dataframe_cells data st j cell :
  facet_cells !! j = Some cell ->
  bars_at (map_dataframe data (FacetGrid st)) j = Some (cell_bars data cell).
Proof.
  intros Hj. unfold map_dataframe.
  rewrite (map_dataframe_fold 12 data _ (FacetGrid st) j (ready_FacetGrid st)).
  - assert (Hfind : list_find (fun ic : nat * (string * string) => ic.1 = j)
                      (imap (fun i cell => (i, cell)) facet_cells)
                    = Some (j, (j, cell)) /\ bars_at (FacetGrid st) j = Some []).
    { do 12 (destruct j as [|j]; [injection Hj as <-; split; reflexivity|]).
      discriminate Hj. }
    destruct Hfind as [-> ->]. reflexivity.
  - vm_compute. repeat constructor.
  - change (NoDup (seq 0 12)). apply NoDup_seq.
Qed.

Lemma grid_steps_rows data name benchmark kind metadata st :
  grid data name benchmark kind metadata st =
  savefig (name ++ ".png")
    (update_gcf (set_dpi 300)
       (update_gcf (set_size_inches 14 6)
          (plt_legend (create_bars metadata) "lower left" (1, 4 # 10)%Q
             (map_dataframe (select_rows data benchmark None None kind)
                            (FacetGrid st))))).
Proof. reflexivity. Qed.

Lemma grid_cells data name benchmark kind metadata st j cell :
  facet_cells !! j = Some cell ->
  bars_at (grid data name benchmark kind metadata st) j
  = Some (cell_bars (select_rows data benchmark None None kind) cell).
Proof.
  intros Hj. rewrite grid_steps_rows.
  pose proof (map_dataframe_cells (select_rows data benchmark None None kind)
                st j cell Hj) as Hb.
  pose proof (map_dataframe_ready (select_rows data benchmark None None kind) st)
    as Hr.
  revert Hb Hr.
  generalize (map_dataframe (select_rows data benchmark None None kind)
                            (FacetGrid st)).
  intros st1 Hb Hr.
  destruct (update_gca_bars_at 12
              (set_legend (Some (mkLegend (create_bars metadata) "lower left"
                                          (1, 4 # 10)%Q))) [] st1 j Hr)
    as [Hb2 _].
  { intros ax. by rewrite app_nil_r. }
  fold (plt_legend (create_bars metadata) "lower left" (1, 4 # 10)%Q st1) in Hb2.
  revert Hb2.
  generalize (plt_legend (create_bars metadata) "lower left" (1, 4 # 10)%Q st1).
  intros st2 Hb2.
  transitivity (bars_at st2 j); [reflexivity|].
  rewrite Hb2, Hb. destruct (decide _); [|done]. cbn. by rewrite app_nil_r.
Qed.
(** C9, the claim as stated fails: the metadata segment is not drawn for
    every dataset and filter combination.  A facet of a grid that has no rows
    gets no rectangle at all: in the grid of the one run [row_scenario]
    (Debug, Full) the facet (Check, Full) is empty, and in the grid of a
    benchmark that has no run all twelve axes are. *)
Lemma empty_facet_no_metadata_segment :
  bars_at (grid [row_scenario] "ripgrep" (Some "ripgrep-14.1.0") None true
                plt_initial) 0 = Some [] /\
  bars_at (grid [row_scenario] "ripgrep" (Some "ripgrep-14.1.0") None true
                plt_initial) 4 = Some (group_bars [row_scenario]) /\
  Forall (fun j => bars_at (grid [row_scenario] "diesel" (Some "diesel-1.4.8") None
                                 true plt_initial) j = Some [])
         (seq 0 12) /\
  ~ (forall j, (j < 12)%nat ->
       exists bars bar,
         bars_at (grid [row_scenario] "ripgrep" (Some "ripgrep-14.1.0") None true
                       plt_initial) j = Some bars /\
         bar ∈ bars /\ bar_color bar = c_metadata).
Proof.
  assert (H0 : bars_at (grid [row_scenario] "ripgrep" (Some "ripgrep-14.1.0") None
                             true plt_initial) 0 = Some []).
  { rewrite (grid_cells _ _ _ _ _ _ 0 ("Check", "Full") eq_refl). reflexivity. }
  split; [exact H0|]. split.
  { rewrite (grid_cells _ _ _ _ _ _ 4 ("Debug", "Full") eq_refl). reflexivity. }
  split.
  { apply Forall_forall. intros j Hj. apply elem_of_seq in Hj.
    do 12 (destruct j as [|j];
           [erewrite grid_cells by reflexivity; reflexivity|]).
    lia. }
  intros Hall. destruct (Hall 0%nat ltac:(lia)) as (bars & bar & Hb & Hin & _).
  rewrite H0 in Hb. injection Hb as <-. by apply elem_of_nil in Hin.
Qed.

(** C9 (as amended).  The [metadata] flag of a render call only selects the
    legend handles.  With the legends taken off, the pyplot state after
    [single_bench] and after [grid] (every rectangle of every axes, and the
    saved files) is the same for both values of the flag; the legend of the
    current axes holds [create_bars metadata], which with the flag set is the
    other list followed by the metadata patch.  The rectangles come from
    [plot_bar], which is not given the flag: its fourth rectangle is always
    the metadata segment, after [single_bench] and in every cell of the grid
    that has rows.  A cell without rows has no rectangle. *)
Theorem metadata_flag_only_legend
    (data : DataFrame) (name benchmark profile scenario : string)
    (gname : string) (gbenchmark gkind : option string) (st : Plt) :
  wf_plt st ->
  erase_legends (single_bench data name benchmark profile scenario true st)
    = erase_legends (single_bench data name benchmark profile scenario false st) /\
  erase_legends (grid data gname gbenchmark gkind true st)
    = erase_legends (grid data gname gbenchmark gkind false st) /\
  (forall metadata,
     ax_legend (current_axes
                  (single_bench data name benchmark profile scenario metadata st))
     = Some (mkLegend (create_bars metadata) "lower left" (1, 1 # 10)%Q)) /\
  (forall metadata,
     ax_legend (current_axes (grid data gname gbenchmark gkind metadata st))
     = Some (mkLegend (create_bars metadata) "lower left" (1, 4 # 10)%Q)) /\
  (create_bars true = create_bars false ++ [metadata_patch]) /\
  (metadata_patch ∉ create_bars false) /\
  (forall metadata,
     ax_bars (current_axes
                (single_bench data name benchmark profile scenario metadata st))
     = ax_bars (current_axes st) ++
       group_bars (select_rows data (Some benchmark) (Some profile)
                               (Some scenario) None)) /\
  (forall metadata j cell,
     facet_cells !! j = Some cell ->
     bars_at (grid data gname gbenchmark gkind metadata st) j =
     Some (match facet_data (select_rows data gbenchmark None None gkind) cell with
           | [] => []
           | subset => group_bars subset
           end)) /\
  (forall rows, exists bar,
     group_bars rows !! 3%nat = Some bar /\
     bar_color bar = c_metadata /\
     bar_width bar = mean (List.map col_metadata rows)).
Proof.
  intros Hwf.
  split; [apply erase_single_bench|].
  split; [apply erase_grid|].
  split.
  { intros m.
    destruct (single_bench_axes data name benchmark profile scenario m st Hwf)
      as (_ & _ & Hc). rewrite Hc. reflexivity. }
  split; [intros m; apply grid_legend|].
  split; [reflexivity|].
  split.
  { unfold create_bars, metadata_patch. rewrite !elem_of_cons, elem_of_nil.
    intros H. repeat destruct H as [H|H]; try discriminate H. done. }
  split.
  { intros m.
    destruct (single_bench_axes data name benchmark profile scenario m st Hwf)
      as (_ & _ & Hc). rewrite Hc. reflexivity. }
  split; [|apply group_bars_metadata].
  intros m j cell Hj. by apply grid_cells.
Qed.

(** Both render calls on a two-run frame, from the initial state. *)
Lemma metadata_flag_only_legend_witness :
  wf_plt plt_initial /\
  erase_legends (single_bench [row_scenario; row_other] "out" "ripgrep-14.1.0"
                              "Debug" "Full" true plt_initial)
    = erase_legends (single_bench [row_scenario; row_other] "out" "ripgrep-14.1.0"
                                  "Debug" "Full" false plt_initial) /\
  erase_legends (grid [row_scenario; row_other] "all" None None true plt_initial)
    = erase_legends (grid [row_scenario; row_other] "all" None None false plt_initial).
Proof.
  assert (H : wf_plt plt_initial) by reflexivity.
  split; [exact H|].
  destruct (metadata_flag_only_legend [row_scenario; row_other] "out"
              "ripgrep-14.1.0" "Debug" "Full" "all" None None plt_initial H)
    as (H1 & H2 & _).
  split; [exact H1|exact H2].
Defined.

(** ** [single_benchmark] *)

Lemma single_benchmark_steps df benchmark metadata st :
  single_benchmark df benchmark metadata st =
  single_bench df (benchmark ++ "-check-incr-patched") benchmark
    "Check" "IncrPatched0" true
    (single_bench df (benchmark ++ "-opt-incr-patched") benchmark
       "Opt" "IncrPatched0" true
       (single_bench df (benchmark ++ "-debug-incr-patched") benchmark
          "Debug" "IncrPatched0" true
          (single_bench df (benchmark ++ "-debug-full") benchmark
             "Debug" "Full" true st))).
Proof. reflexivity. Qed.

Lemma figure_axes_hide_all_legend (f : Figure) bars l x y hs :
  figure_axes f = hide_all_spines (mkAxes bars l x y hs) ->
  ax_legend (figure_axes f) = l /\ ax_bars (figure_axes f) = bars.
Proof. intros ->. split; reflexivity. Qed.

(** C10.  [single_benchmark] does not use its [metadata] argument: whatever
    its value, the call is the four [single_bench] renders Debug/Full,
    Debug/IncrPatched0, Opt/IncrPatched0 and Check/IncrPatched0 of the
    benchmark, each with [metadata=True].  It saves exactly four files, each
    with the legend [create_bars true], which holds the metadata patch.  The
    four renders draw on the same axes: every file shows the rectangles of the
    renders before it followed by the six of its own group. *)
Theorem single_benchmark_ignores_metadata
    (df : DataFrame) (benchmark : string) (metadata : bool) (st : Plt) :
  wf_plt st ->
  single_benchmark df benchmark metadata st
    = single_benchmark df benchmark true st /\
  single_benchmark df benchmark metadata st
    = single_benchmark df benchmark false st /\
  single_benchmark df benchmark metadata st =
    single_bench df (benchmark ++ "-check-incr-patched") benchmark
      "Check" "IncrPatched0" true
      (single_bench df (benchmark ++ "-opt-incr-patched") benchmark
         "Opt" "IncrPatched0" true
         (single_bench df (benchmark ++ "-debug-incr-patched") benchmark
            "Debug" "IncrPatched0" true
            (single_bench df (benchmark ++ "-debug-full") benchmark
               "Debug" "Full" true st))) /\
  In metadata_patch (create_bars true) /\
  exists f1 f2 f3 f4,
    plt_saved (single_benchmark df benchmark metadata st) =
      plt_saved st ++
      [ (((benchmark ++ "-debug-full") ++ ".png")%string, f1);
        (((benchmark ++ "-debug-incr-patched") ++ ".png")%string, f2);
        (((benchmark ++ "-opt-incr-patched") ++ ".png")%string, f3);
        (((benchmark ++ "-check-incr-patched") ++ ".png")%string, f4) ] /\
    Forall (fun f => ax_legend (figure_axes f) =
                     Some (mkLegend (create_bars true) "lower left" (1, 1 # 10)%Q))
           [f1; f2; f3; f4] /\
    ax_bars (figure_axes f1) =
      ax_bars (current_axes st) ++
      group_bars (select_rows df (Some benchmark) (Some "Debug") (Some "Full") None) /\
    ax_bars (figure_axes f2) =
      ax_bars (figure_axes f1) ++
      group_bars (select_rows df (Some benchmark) (Some "Debug")
                              (Some "IncrPatched0") None) /\
    ax_bars (figure_axes f3) =
      ax_bars (figure_axes f2) ++
      group_bars (select_rows df (Some benchmark) (Some "Opt")
                              (Some "IncrPatched0") None) /\
    ax_bars (figure_axes f4) =
      ax_bars (figure_axes f3) ++
      group_bars (select_rows df (Some benchmark) (Some "Check")
                              (Some "IncrPatched0") None).
Proof.
  intros Hwf.
  split; [reflexivity|]. split; [reflexivity|].
  split; [apply single_benchmark_steps|].
  split; [cbn; tauto|].
  rewrite single_benchmark_steps.
  destruct (single_bench_axes df (benchmark ++ "-debug-full") benchmark
              "Debug" "Full" true st Hwf) as (Hw1 & Hs1 & Hc1).
  revert Hw1 Hs1 Hc1.
  generalize (single_bench df (benchmark ++ "-debug-full") benchmark
                "Debug" "Full" true st). intros st1 Hw1 Hs1 Hc1.
  destruct (single_bench_axes df (benchmark ++ "-debug-incr-patched") benchmark
              "Debug" "IncrPatched0" true st1 Hw1) as (Hw2 & Hs2 & Hc2).
  revert Hw2 Hs2 Hc2.
  generalize (single_bench df (benchmark ++ "-debug-incr-patched") benchmark
                "Debug" "IncrPatched0" true st1). intros st2 Hw2 Hs2 Hc2.
  destruct (single_bench_axes df (benchmark ++ "-opt-incr-patched") benchmark
              "Opt" "IncrPatched0" true st2 Hw2) as (Hw3 & Hs3 & Hc3).
  revert Hw3 Hs3 Hc3.
  generalize (single_bench df (benchmark ++ "-opt-incr-patched") benchmark
                "Opt" "IncrPatched0" true st2). intros st3 Hw3 Hs3 Hc3.
  destruct (single_bench_axes df (benchmark ++ "-check-incr-patched") benchmark
              "Check" "IncrPatched0" true st3 Hw3) as (Hw4 & Hs4 & Hc4).
  revert Hw4 Hs4 Hc4.
  generalize (single_bench df (benchmark ++ "-check-incr-patched") benchmark
                "Check" "IncrPatched0" true st3). intros st4 Hw4 Hs4 Hc4.
  exists (gcf st1), (gcf st2), (gcf st3), (gcf st4).
  apply figure_axes_hide_all_legend in Hc1 as [Hl1 Hb1].
  apply figure_axes_hide_all_legend in Hc2 as [Hl2 Hb2].
  apply figure_axes_hide_all_legend in Hc3 as [Hl3 Hb3].
  apply figure_axes_hide_all_legend in Hc4 as [Hl4 Hb4].
  split.
  { rewrite Hs4, Hs3, Hs2, Hs1, <- !app_assoc. cbn [app].
    reflexivity. }
  split; [repeat constructor; assumption|].
  split; [exact Hb1|]. split; [exact Hb2|]. split; [exact Hb3|exact Hb4].
Qed.

(** The call on a two-run frame, from the initial state. *)
Lemma single_benchmark_ignores_metadata_witness :
  wf_plt plt_initial /\
  single_benchmark [row_scenario; row_other] "ripgrep-14.1.0" false plt_initial
    = single_benchmark [row_scenario; row_other] "ripgrep-14.1.0" true plt_initial /\
  In metadata_patch (create_bars true).
Proof.
  assert (H : wf_plt plt_initial) by reflexivity.
  split; [exact H|].
  destruct (single_benchmark_ignores_metadata [row_scenario; row_other]
              "ripgrep-14.1.0" false plt_initial H) as (H1 & _ & _ & H4 & _).
  split; [exact H1|exact H4].
Defined.

(** * Further properties *)

(** ** Row selection *)

(** X1.  Filtering in stages is filtering once: two successive [filter_data]
    calls keep exactly the rows that satisfy all the predicates of both, in
    either order of the calls, and predicates given in separate calls act as
    if given together. *)
Theorem filter_data_stages
    (data : DataFrame) (p1 s1 k1 p2 s2 k2 : option string) :
  filter_data (filter_data data p1 s1 k1) p2 s2 k2 =
    filter (fun r => (matches p1 (col_profile r) /\ matches p2 (col_profile r)) /\
                     (matches s1 (col_scenario r) /\ matches s2 (col_scenario r)) /\
                     (matches k1 (col_kind r) /\ matches k2 (col_kind r))) data /\
  filter_data (filter_data data p1 s1 k1) p2 s2 k2 =
    filter_data (filter_data data p2 s2 k2) p1 s1 k1 /\
  filter_data (filter_data (filter_data data p1 None None) None s1 None)
              None None k1
    = filter_data data p1 s1 k1.
Proof.
  rewrite !filter_data_conjunction, !list_filter_filter.
  split; [apply list_filter_iff; intros r; cbn; tauto|].
  split; apply list_filter_iff; intros r; cbn; tauto.
Qed.

Lemma filter_no_row {A} (P : A -> Prop) `{!forall x, Decision (P x)} (l : list A) :
  (forall x, ~ P x) -> filter P l = [].
Proof.
  intros HP. induction l as [|x l IH]; [done|].
  by rewrite filter_cons_False.
Qed.

(** X2.  Two different values for the same column select nothing. *)
Theorem filter_data_conflict
    (data : DataFrame) (p p' : string) (s k s' k' : option string) :
  p <> p' ->
  filter_data (filter_data data (Some p) s k) (Some p') s' k' = [] /\
  filter_data (filter_data data s (Some p) k) s' (Some p') k' = [] /\
  filter_data (filter_data data s k (Some p)) s' k' (Some p') = [].
Proof.
  intros Hne. rewrite !filter_data_conjunction, !list_filter_filter.
  repeat split; apply filter_no_row; intros r; cbn; intuition congruence.
Qed.

(** A frame with runs of two profiles. *)
Lemma filter_data_conflict_witness :
  "Debug" <> "Opt" /\
  filter_data (filter_data [row_scenario; row_other] (Some "Debug") None None)
              (Some "Opt") None None = [].
Proof.
  assert (H : "Debug" <> "Opt") by discriminate.
  split; [exact H|].
  exact (proj1 (filter_data_conflict [row_scenario; row_other] "Debug" "Opt"
                  None None None None H)).
Defined.

(** X3.  Selecting from two frames put end to end is selecting from each: the
    selection of a concatenation is the concatenation of the selections, so
    it never reorders rows, never has more rows than the frame, and every row
    it returns satisfies every supplied predicate. *)
Theorem filter_data_app
    (d1 d2 : DataFrame) (profile scenario kind : option string) :
  filter_data (d1 ++ d2) profile scenario kind =
    filter_data d1 profile scenario kind ++ filter_data d2 profile scenario kind /\
  (length (filter_data d1 profile scenario kind) <= length d1)%nat /\
  Forall (fun r => matches profile (col_profile r) /\
                   matches scenario (col_scenario r) /\
                   matches kind (col_kind r))
         (filter_data d1 profile scenario kind).
Proof.
  rewrite !filter_data_conjunction.
  split; [apply filter_app|]. split; [apply length_filter|].
  apply Forall_forall. intros r Hr. by apply list_elem_of_filter in Hr as [? _].
Qed.

(** ** The facets of the grid *)

Lemma facet_data_filter_data (data : DataFrame) (p s : string) :
  facet_data data (p, s) = filter_data data (Some p) (Some s) None.
Proof.
  rewrite filter_data_conjunction. apply list_filter_iff. intros r. cbn. tauto.
Qed.

Lemma facet_data_select_rows
    (data : DataFrame) (benchmark kind : option string) (p s : string) :
  facet_data (select_rows data benchmark None None kind) (p, s)
  = select_rows data benchmark (Some p) (Some s) kind.
Proof.
  rewrite facet_data_filter_data, !select_rows_filter, filter_data_conjunction.
  rewrite list_filter_filter. apply list_filter_iff. intros r. cbn. tauto.
Qed.

(** X4.  A cell of the grid and a single view select the same rows: the cell
    for profile [p] and scenario [s] holds the rows that
    [single_bench(..., profile=p, scenario=s)] aggregates, and when there are
    such rows both draw the same six rectangles.  When there are none the two
    differ: the grid leaves the cell without rectangles, [single_bench] draws
    the six rectangles of the empty group. *)
Theorem grid_cell_is_single_view
    (data : DataFrame) (gname name benchmark : string) (kind : option string)
    (gmetadata metadata : bool) (st st0 : Plt) (j : nat) (p s : string) :
  facet_cells !! j = Some (p, s) ->
  wf_plt st0 ->
  bars_at (grid data gname (Some benchmark) kind gmetadata st) j =
    Some (match select_rows data (Some benchmark) (Some p) (Some s) kind with
          | [] => []
          | rows => group_bars rows
          end) /\
  ax_bars (current_axes (single_bench data name benchmark p s metadata st0)) =
    ax_bars (current_axes st0) ++
    group_bars (select_rows data (Some benchmark) (Some p) (Some s) None) /\
  length (group_bars (select_rows data (Some benchmark) (Some p) (Some s) None))
    = 6%nat.
Proof.
  intros Hj Hwf. split; [|split; [|reflexivity]].
  - rewrite (grid_cells data gname (Some benchmark) kind gmetadata st j (p, s) Hj).
    unfold cell_bars. by rewrite facet_data_select_rows.
  - destruct (single_bench_axes data name benchmark p s metadata st0 Hwf)
      as (_ & _ & Hc). rewrite Hc. reflexivity.
Qed.

(** The scenario of C1 in the Debug/Full cell and as a single view. *)
Lemma grid_cell_is_single_view_witness :
  facet_cells !! 4%nat = Some ("Debug", "Full") /\
  wf_plt plt_initial /\
  bars_at (grid [row_scenario; row_other] "ripgrep" (Some "ripgrep-14.1.0")
                None false plt_initial) 4 =
    Some (group_bars [row_scenario]) /\
  ax_bars (current_axes (single_bench [row_scenario; row_other] "view"
                           "ripgrep-14.1.0" "Debug" "Full" true plt_initial)) =
    group_bars [row_scenario].
Proof.
  assert (H1 : facet_cells !! 4%nat = Some ("Debug", "Full")) by reflexivity.
  assert (H2 : wf_plt plt_initial) by reflexivity.
  split; [exact H1|]. split; [exact H2|].
  destruct (grid_cell_is_single_view [row_scenario; row_other] "ripgrep" "view"
              "ripgrep-14.1.0" None false true plt_initial plt_initial 4
              "Debug" "Full" H1 H2) as (Hg & Hs & _).
  split; [exact Hg|exact Hs].
Defined.

Lemma filter_disjoint_or {A} (P Q : A -> Prop)
    `{!forall x, Decision (P x)} `{!forall x, Decision (Q x)} (l : list A) :
  (forall x, P x -> Q x -> False) ->
  filter (fun x => P x \/ Q x) l ≡ₚ filter P l ++ filter Q l.
Proof.
  intros Hdis. induction l as [|x l IH]; [done|].
  destruct (decide (P x)) as [HP|HP], (decide (Q x)) as [HQ|HQ].
  - destruct (Hdis x HP HQ).
  - rewrite (filter_cons_True (fun x => P x \/ Q x)) by tauto.
    rewrite (filter_cons_True P), (filter_cons_False Q) by done.
    cbn. by rewrite IH.
  - rewrite (filter_cons_True (fun x => P x \/ Q x)) by tauto.
    rewrite (filter_cons_False P), (filter_cons_True Q) by done.
    rewrite IH. apply Permutation_middle.
  - rewrite (filter_cons_False (fun x => P x \/ Q x)) by tauto.
    by rewrite (filter_cons_False P), (filter_cons_False Q).
Qed.

Lemma facets_of_cells (data : DataFrame) (cells : list (string * string)) :
  NoDup cells ->
  concat (facet_data data <$> cells)
  ≡ₚ filter (fun r => (col_profile r, col_scenario r) ∈ cells) data.
Proof.
  induction cells as [|[p s] cells IH]; intros Hnd.
  - cbn. rewrite filter_no_row; [done|]. intros r. apply not_elem_of_nil.
  - apply NoDup_cons in Hnd as [Hnotin Hnd]. cbn [fmap list_fmap concat].
    rewrite (IH Hnd). unfold facet_data.
    rewrite <- filter_disjoint_or.
    + erewrite list_filter_iff; [done|]. intros r.
      rewrite elem_of_cons. cbn.
      split; intros [H|H]; try (by right); left;
        first [by injection H | destruct H as [Hp Hs]; by rewrite Hp, Hs].
    + intros r [Hp Hs] Hin. cbn in Hp, Hs. apply Hnotin. by rewrite <- Hp, <- Hs.
Qed.

Lemma in_grid_facet_cells (r : Row) :
  (col_profile r, col_scenario r) ∈ facet_cells <-> in_grid r.
Proof.
  unfold in_grid, facet_cells.
  rewrite !list_elem_of_In, in_flat_map. split.
  - intros (p & Hp & Hin). apply in_map_iff in Hin as (s & Heq & Hs).
    injection Heq as <- <-. done.
  - intros [Hp Hs]. exists (col_profile r). split; [done|].
    apply in_map_iff. by exists (col_scenario r).
Qed.

(** X5.  The twelve facets partition the rows the grid can show: taken
    together they hold, each row once, exactly the rows whose profile is one
    of Check, Debug, Opt and whose scenario is one of Full, IncrFull,
    IncrPatched0, IncrUnchanged.  A row with any other profile or scenario is
    in no facet, and no row is in two facets. *)
Theorem facets_partition (data : DataFrame) :
  concat (facet_data data <$> facet_cells) ≡ₚ filter in_grid data /\
  (forall r cell, cell ∈ facet_cells -> r ∈ facet_data data cell -> in_grid r) /\
  (forall r c1 c2, r ∈ facet_data data c1 -> r ∈ facet_data data c2 -> c1 = c2) /\
  length facet_cells = 12%nat /\ NoDup facet_cells.
Proof.
  assert (Hnd : NoDup facet_cells) by (apply NoDup_ListNoDup; vm_compute; repeat constructor; cbn; intuition discriminate).
  split; [|split; [|split; [|split; [reflexivity|exact Hnd]]]].
  - rewrite (facets_of_cells data facet_cells Hnd).
    erewrite list_filter_iff; [done|]. apply in_grid_facet_cells.
  - intros r [p s] Hc Hr. apply list_elem_of_filter in Hr as [[Hp Hs] _].
    cbn in Hp, Hs. apply in_grid_facet_cells. by rewrite Hp, Hs.
  - intros r [p1 s1] [p2 s2] H1 H2.
    apply list_elem_of_filter in H1 as [[Hp1 Hs1] _].
    apply list_elem_of_filter in H2 as [[Hp2 Hs2] _].
    cbn in *. congruence.
Qed.

Lemma filter_none_Forall {A} (P : A -> Prop) `{!forall x, Decision (P x)} (l : list A) :
  Forall (fun x => ~ P x) l -> filter P l = [].
Proof.
  induction 1 as [|x l Hx _ IH]; [done|]. by rewrite filter_cons_False.
Qed.

(** X6.  The rectangles of a cell depend on the rows of that cell only: rows
    of other profiles or scenarios, added before or after, leave the cell as
    it is. *)
Theorem grid_cell_independent
    (data other : DataFrame) (name : string) (benchmark kind : option string)
    (metadata : bool) (st : Plt) (j : nat) (cell : string * string) :
  facet_cells !! j = Some cell ->
  Forall (fun r => (col_profile r, col_scenario r) <> cell) other ->
  bars_at (grid (data ++ other) name benchmark kind metadata st) j
    = bars_at (grid data name benchmark kind metadata st) j /\
  bars_at (grid (other ++ data) name benchmark kind metadata st) j
    = bars_at (grid data name benchmark kind metadata st) j.
Proof.
  intros Hj Hother.
  assert (Hempty : facet_data (select_rows other benchmark None None kind) cell = []).
  { apply filter_none_Forall. rewrite select_rows_filter.
    apply Forall_forall. intros r Hr [Hp Hs].
    apply list_elem_of_filter in Hr as [_ Hr].
    rewrite Forall_forall in Hother. apply (Hother r Hr).
    destruct cell as [p s]. cbn in Hp, Hs. by rewrite Hp, Hs. }
  rewrite !(grid_cells _ name benchmark kind metadata st j cell Hj).
  unfold cell_bars, facet_data in *.
  rewrite !select_rows_filter in *. rewrite !filter_app, Hempty.
  by rewrite app_nil_r.
Qed.

(** A run of another benchmark profile next to the scenario of C1. *)
Lemma grid_cell_independent_witness :
  facet_cells !! 4%nat = Some ("Debug", "Full") /\
  Forall (fun r => (col_profile r, col_scenario r) <> ("Debug", "Full")) [row_other] /\
  bars_at (grid ([row_scenario] ++ [row_other]) "all" None None false plt_initial) 4
    = bars_at (grid [row_scenario] "all" None None false plt_initial) 4.
Proof.
  assert (H1 : facet_cells !! 4%nat = Some ("Debug", "Full")) by reflexivity.
  assert (H2 : Forall (fun r => (col_profile r, col_scenario r) <> ("Debug", "Full"))
                 [row_other]) by (repeat constructor; discriminate).
  split; [exact H1|]. split; [exact H2|].
  exact (proj1 (grid_cell_independent [row_scenario] [row_other] "all" None None
                  false plt_initial 4 ("Debug", "Full") H1 H2)).
Defined.

(** ** Normalisation *)

Lemma filter_map_commute {A B} (f : A -> B) (P : B -> Prop)
    `{!forall y, Decision (P y)} (l : list A) :
  filter P (List.map f l) = List.map f (filter (fun x => P (f x)) l).
Proof.
  induction l as [|x l IH]; [done|]. cbn [List.map].
  destruct (decide (P (f x))) as [HP|HP].
  - rewrite !filter_cons_True by done. cbn. by rewrite IH.
  - by rewrite !filter_cons_False.
Qed.

(** X7.  Normalising and selecting commute: selecting rows of the normalised
    frame gives the same frame as normalising the selected rows, because the
    percentages of a record do not depend on the other records. *)
Theorem normalize_select_commute
    (df : DataFrame) (benchmark profile scenario kind : option string) :
  (fun d => select_rows d benchmark profile scenario kind) <$> normalize df
  = normalize (select_rows df benchmark profile scenario kind).
Proof.
  rewrite !normalize_rows. cbn. f_equal.
  rewrite !select_rows_filter. apply filter_map_commute.
Qed.

Lemma add_nan_l (x : float) : F64.add F64.nan x = F64.nan.
Proof. reflexivity. Qed.

Lemma add_is_nan (x y : float) :
  F64.is_nan x || F64.is_nan y = true -> F64.is_nan (F64.add x y) = true.
Proof. destruct x as [[]|[]| |], y as [[]|[]| |]; try reflexivity; discriminate. Qed.

Lemma percent_is_nan (x t : float) :
  F64.is_nan x || F64.is_nan t = true ->
  F64.is_nan (F64.mul (F64.div x t) (F64.of_Z 100)) = true.
Proof. destruct x as [[]|[]| |], t as [[]|[]| |]; try reflexivity; discriminate. Qed.

(** X8.  A measurement that is missing (NaN) is not repaired: a NaN duration
    has a NaN percentage, and when the frontend, backend or linker duration
    of a record is NaN, so is its total and with it all six percentages of
    the record.  The other records are normalised as usual. *)
Theorem normalize_missing_value (df : DataFrame) (i : nat) (r : Row) :
  df !! i = Some r ->
  exists out r',
    normalize df = Some out /\
    out !! i = Some r' /\
    (forall key, F64.is_nan (get_col key r) = true ->
                 F64.is_nan (get_col key r') = true) /\
    (F64.is_nan (col_frontend r) || F64.is_nan (col_backend r)
       || F64.is_nan (col_linker r) = true ->
     forall key, F64.is_nan (get_col key r') = true) /\
    (forall j r2, j <> i -> df !! j = Some r2 ->
                  out !! j = Some (normalized_row r2)).
Proof.
  intros Hi. exists (List.map normalized_row df), (normalized_row r).
  assert (Hlook : forall j r2, df !! j = Some r2 ->
                    List.map normalized_row df !! j = Some (normalized_row r2)).
  { intros j r2 Hj. change (List.map normalized_row df) with (normalized_row <$> df).
    by rewrite list_lookup_fmap, Hj. }
  assert (Hget : forall key, get_col key (normalized_row r) = normalize_field key r)
    by (intros key; destruct key; reflexivity).
  split; [apply normalize_rows|]. split; [by apply Hlook|].
  split; [|split; [|intros j r2 _; apply Hlook]].
  - intros key Hk. rewrite Hget. apply percent_is_nan.
    by rewrite (to_f32_nan _ Hk).
  - intros Hnan key. rewrite Hget. apply percent_is_nan.
    assert (Ht : F64.is_nan (row_total r) = true).
    { unfold row_total. apply add_is_nan.
      destruct (F64.is_nan (col_linker r)); [by rewrite orb_true_r|].
      rewrite orb_false_r in Hnan |- *. by apply add_is_nan. }
    rewrite Ht. apply orb_true_r.
Qed.

(** A run whose linker time is missing, next to a complete one. *)
Lemma normalize_missing_value_witness :
  [row_scenario;
   row_of "diesel-1.4.8" "Opt" "Full" "lib" (F64.of_Z 3) (F64.of_Z 2) F64.nan
          (F64.of_Z 1) (F64.of_Z 1) (F64.of_Z 1)] !! 1%nat
  = Some (row_of "diesel-1.4.8" "Opt" "Full" "lib" (F64.of_Z 3) (F64.of_Z 2)
                 F64.nan (F64.of_Z 1) (F64.of_Z 1) (F64.of_Z 1)) /\
  exists out r',
    normalize
      [row_scenario;
       row_of "diesel-1.4.8" "Opt" "Full" "lib" (F64.of_Z 3) (F64.of_Z 2) F64.nan
              (F64.of_Z 1) (F64.of_Z 1) (F64.of_Z 1)] = Some out /\
    out !! 1%nat = Some r' /\
    (forall key, F64.is_nan (get_col key r') = true).
Proof.
  split; [reflexivity|].
  destruct (normalize_missing_value
              [row_scenario;
               row_of "diesel-1.4.8" "Opt" "Full" "lib" (F64.of_Z 3) (F64.of_Z 2)
                      F64.nan (F64.of_Z 1) (F64.of_Z 1) (F64.of_Z 1)] 1 _ eq_refl)
    as (out & r' & Hn & Ho & _ & Hall & _).
  exists out, r'. split; [exact Hn|]. split; [exact Ho|]. exact (Hall eq_refl).
Defined.

Lemma normalized_row_set_total (v : float) (r : Row) :
  normalized_row (set_extra "total" v r) = normalized_row r.
Proof.
  destruct r. unfold normalized_row. cbn. f_equal. apply delete_insert_eq.
Qed.

(** X9.  The helper column is private to the normalisation: a column "total"
    that the frame already has is overwritten and then dropped, so the result
    does not depend on it, and every other additional column of a record is
    passed through unchanged. *)
Theorem normalize_total_column_private (df : DataFrame) (g : Row -> float) :
  normalize (List.map (fun r => set_extra "total" (g r) r) df) = normalize df /\
  (forall r name, name <> "total" ->
     extra (normalized_row r) !! name = extra r !! name) /\
  normalize df = Some (List.map normalized_row df).
Proof.
  rewrite !normalize_rows, List.map_map.
  split; [|split; [|reflexivity]].
  - f_equal. apply List.map_ext. intros r. apply normalized_row_set_total.
  - intros r name Hne. cbn. by apply lookup_delete_ne.
Qed.

(** ** Signs of the percentages *)


Lemma leb_zero_non_negative (x : float) :
  F64.leb (F64.of_Z 0) x = true <-> non_negative x.
Proof.
  destruct x as [s|[]| |[] m e]; cbn; split; try done.
Qed.

Lemma to_f32_non_negative (x : float) : non_negative x -> non_negative (F64.to_f32 x).
Proof.
  destruct x as [s|s| |s m e]; try done. cbn [non_negative F64.to_f32]. intros ->.
  pose proof (binary_round_sign 24 128 false m e) as H1.
  destruct (binary_round 24 128 false m e) as [s1|s1| |s1 m1 e1]; try done.
  subst s1.
  pose proof (binary_round_sign F64.prec F64.emax false m1 e1) as H2.
  by destruct (binary_round F64.prec F64.emax false m1 e1).
Qed.

Lemma div_core_nonneg (mx my : positive) (ex ey : Z) :
  0 <= fst (fst (SFdiv_core_binary F64.prec F64.emax (Zpos mx) ex (Zpos my) ey)).
Proof.
  unfold SFdiv_core_binary.
  set (e' := Z.min _ _). set (s := ex - ey - e').
  set (m' := match s with Z0 => _ | Zpos _ => _ | Zneg _ => _ end).
  assert (Hm : 0 <= m').
  { subst m'. destruct s; try lia. apply Z.shiftl_nonneg. lia. }
  pose proof (Z_div_mod m' (Zpos my) eq_refl) as Hdiv.
  destruct (Z.div_eucl m' (Zpos my)) as [q r]. cbn [fst].
  destruct Hdiv as [Heq Hr]. nia.
Qed.

(** A percentage of a non-negative duration in a finite positive total is
    not negative. *)
Lemma percent_non_negative (x : float) (m : positive) (e : Z) :
  non_negative x ->
  non_negative (F64.mul (F64.div x (S754_finite false m e)) (F64.of_Z 100)).
Proof.
  intros Hx.
  assert (Hd : non_negative (F64.div x (S754_finite false m e))).
  { destruct x as [s|s| |s mx ex]; try done.
    - cbn in Hx. by subst s.
    - cbn in Hx. subst s. unfold F64.div, SFdiv.
      pose proof (div_core_nonneg mx m ex e) as Hq.
      destruct (SFdiv_core_binary _ _ _ _ _ _) as [[q ez] lz]. cbn [fst] in Hq.
      pose proof (binary_round_aux_sign F64.prec F64.emax (xorb false false) q ez lz Hq) as Hs.
      by destruct (binary_round_aux _ _ _ q ez lz). }
  assert (H100 : exists m1 e1, F64.of_Z 100 = S754_finite false m1 e1)
    by (vm_compute; eauto).
  destruct H100 as (m1 & e1 & ->).
  destruct (F64.div x (S754_finite false m e)) as [s|s| |s m2 e2]; try done.
  - cbn in Hd. by subst s.
  - cbn in Hd. subst s. unfold F64.mul, SFmul.
    pose proof (binary_round_aux_sign F64.prec F64.emax (xorb false false)
                  (Zpos (m2 * m1)) (e2 + e1) loc_Exact ltac:(lia)) as Hs.
    by destruct (binary_round_aux _ _ _ _ _ _).
Qed.

Lemma percent_zero (x : float) (m : positive) (e : Z) :
  F64.is_zero x = true ->
  F64.is_zero (F64.mul (F64.div x (S754_finite false m e)) (F64.of_Z 100)) = true.
Proof. destruct x; try discriminate. reflexivity. Qed.

Lemma nonneg_in_range_non_negative (x : float) : nonneg_in_range x -> non_negative x.
Proof. destruct x; cbn; try done. by intros [-> _]. Qed.

(** X10.  Percentages are not negative: in a record whose six durations are
    non-negative binary64 numbers and whose total is finite and not zero,
    every normalised duration compares [>= 0] (so it is no NaN), and a zero
    duration has a zero percentage. *)
Theorem normalize_non_negative (df : DataFrame) (i : nat) (r : Row) :
  df !! i = Some r ->
  forallb (fun key => duration_ok (get_col key r)) normalized_keys = true ->
  F64.is_finite (row_total r) = true ->
  F64.is_zero (row_total r) = false ->
  exists out r',
    normalize df = Some out /\
    out !! i = Some r' /\
    (forall key, F64.leb (F64.of_Z 0) (get_col key r') = true) /\
    (forall key, F64.is_zero (get_col key r) = true ->
                 F64.is_zero (get_col key r') = true).
Proof.
  intros Hi Hd Hfin Hnz.
  exists (List.map normalized_row df), (normalized_row r).
  split; [apply normalize_rows|].
  split.
  { change (List.map normalized_row df) with (normalized_row <$> df).
    by rewrite list_lookup_fmap, Hi. }
  assert (Hget : forall key, get_col key (normalized_row r) = normalize_field key r)
    by (intros key; destruct key; reflexivity).
  assert (Hall : forall key, nonneg_in_range (get_col key r)).
  { cbn [forallb normalized_keys] in Hd. rewrite !andb_true_r in Hd.
    repeat (apply andb_prop in Hd as [?%duration_ok_nonneg Hd]).
    apply duration_ok_nonneg in Hd. intros key. by destruct key. }
  assert (Htot : exists m e, row_total r = S754_finite false m e).
  { destruct (add_nonneg_in_range (col_frontend r) (col_backend r)
                (Hall Frontend) (Hall Backend)) as [Hfb _].
    destruct (add_nonneg_in_range _ (col_linker r) Hfb (Hall Linker)) as [Ht _].
    fold (row_total r) in Ht.
    destruct (row_total r) as [s|s| |s m e]; try done.
    destruct Ht as [-> _]. eauto. }
  destruct Htot as (m & e & Ht).
  split; intros key; rewrite Hget; unfold normalize_field; rewrite Ht.
  - apply leb_zero_non_negative, percent_non_negative, to_f32_non_negative,
      nonneg_in_range_non_negative, Hall.
  - intros Hz. by apply percent_zero, to_f32_zero.
Qed.

Lemma normalize_non_negative_witness :
  exists out r',
    normalize [row_tenth] = Some out /\
    out !! 0%nat = Some r' /\
    (forall key, F64.leb (F64.of_Z 0) (get_col key r') = true) /\
    (forall key, F64.is_zero (get_col key row_tenth) = true ->
                 F64.is_zero (get_col key r') = true).
Proof.
  apply (normalize_non_negative [row_tenth] 0 row_tenth); vm_compute; reflexivity.
Defined.

(** ** Aggregation *)

Lemma phase_name_inj (k1 k2 : Phase) : phase_name k1 = phase_name k2 -> k1 = k2.
Proof. destruct k1, k2; cbn; intros Heq; try reflexivity; discriminate. Qed.

Lemma section_percent_app (d1 d2 : list MeltRow) (name : string) :
  section_percent (d1 ++ d2) name = section_percent d1 name ++ section_percent d2 name.
Proof. unfold section_percent. by rewrite filter_app, List.map_app. Qed.

Lemma section_percent_block (data : DataFrame) (k : Phase) (name : string) :
  section_percent
    (List.map (fun r => mkMelt (col_profile r) (col_scenario r) (col_kind r)
                               (phase_name k) (get_col k r)) data) name
  = if decide (phase_name k = name) then List.map (get_col k) data else [].
Proof.
  unfold section_percent. rewrite filter_section_block.
  destruct (decide _); [|reflexivity]. by rewrite List.map_map.
Qed.

Lemma section_percent_absent (data : DataFrame) (vars : list Phase) (key : Phase) :
  key ∉ vars -> section_percent (melt data vars) (phase_name key) = [].
Proof.
  induction vars as [|k vars IH]; [reflexivity|].
  intros [Hne Hnin]%not_elem_of_cons.
  unfold melt in *. cbn [flat_map].
  rewrite section_percent_app, section_percent_block, (IH Hnin).
  destruct (decide (phase_name k = phase_name key)) as [Heq|_]; [|reflexivity].
  by apply phase_name_inj in Heq.
Qed.

(** X11.  Melting keeps every value column apart: the long frame has one row
    per record and value column, and when no column is listed twice, the
    "Percent" values of the rows of a section are that column of the input, in
    row order; a section that was not melted has no rows. *)
Theorem melt_round_trip (data : DataFrame) (vars : list Phase) :
  NoDup vars ->
  length (melt data vars) = (length vars * length data)%nat /\
  (forall key, key ∈ vars ->
     section_percent (melt data vars) (phase_name key) = List.map (get_col key) data) /\
  (forall key, key ∉ vars ->
     section_percent (melt data vars) (phase_name key) = []) /\
  Forall (fun m => exists r, r ∈ data /\ m_profile m = col_profile r /\
                             m_scenario m = col_scenario r /\ m_kind m = col_kind r)
         (melt data vars).
Proof.
  intros Hnd. split; [|split; [|split]].
  - clear Hnd. induction vars as [|k vars IH]; [reflexivity|].
    unfold melt in *. cbn [flat_map]. rewrite length_app, IH, length_map.
    cbn [length]. lia.
  - induction Hnd as [|k vars Hk Hnd IH]; intros key Hin; [by apply elem_of_nil in Hin|].
    unfold melt in *. cbn [flat_map].
    rewrite section_percent_app, section_percent_block.
    destruct (decide (phase_name k = phase_name key)) as [Heq|Hne].
    + apply phase_name_inj in Heq. subst k.
      fold (melt data vars). by rewrite (section_percent_absent _ _ _ Hk), app_nil_r.
    + apply elem_of_cons in Hin as [->|Hin]; [done|]. by apply IH.
  - intros key. apply section_percent_absent.
  - clear Hnd. apply Forall_forall. intros m Hm.
    apply list_elem_of_In in Hm. unfold melt in Hm.
    apply in_flat_map in Hm as (k & _ & Hm).
    apply in_map_iff in Hm as (r & <- & Hr).
    exists r. split; [by apply list_elem_of_In|]. by cbn.
Qed.

Lemma melt_round_trip_witness :
  length (melt [row_scenario; row_other] [Frontend; Backend; Linker]) = 6%nat /\
  section_percent (melt [row_scenario; row_other] [Frontend; Backend; Linker]) "backend"
  = [F64.of_Z 30; F64.of_Z 40].
Proof.
  assert (Hnd : NoDup [Frontend; Backend; Linker]).
  { apply NoDup_ListNoDup. repeat constructor; cbn; intuition discriminate. }
  destruct (melt_round_trip [row_scenario; row_other] [Frontend; Backend; Linker] Hnd)
    as (Hlen & Hin & _).
  split; [exact Hlen|].
  apply (Hin Backend). apply list_elem_of_In. cbn. tauto.
Defined.

Lemma unique_elem_of (x : string) (l : list string) : x ∈ unique l -> x ∈ l.
Proof.
  induction l as [|y l IH]; [done|]. cbn.
  intros [->|Hin]%elem_of_cons; [left|right].
  apply list_elem_of_filter in Hin as [_ Hin]. by apply IH.
Qed.

Lemma filter_id {A} (P : A -> Prop) `{!forall x, Decision (P x)} (l : list A) :
  Forall P l -> filter P l = l.
Proof.
  induction 1 as [|x l Hx Hl IH]; [reflexivity|].
  by rewrite filter_cons_True, IH.
Qed.

Lemma unique_block (n : nat) (a : string) (l : list string) :
  a ∉ l -> unique (replicate (S n) a ++ l) = a :: unique l.
Proof.
  intros Hnin.
  assert (Hf : filter (fun y => y <> a) (unique l) = unique l).
  { apply filter_id, Forall_forall. intros y Hy ->.
    by apply Hnin, unique_elem_of. }
  induction n as [|n IH].
  - cbn. by rewrite Hf.
  - change (replicate (S (S n)) a ++ l) with (a :: (replicate (S n) a ++ l)).
    cbn [unique]. rewrite IH. rewrite filter_cons_False by (intros H; by apply H).
    by rewrite Hf.
Qed.

Lemma melt_sections (data : DataFrame) (vars : list Phase) :
  section <$> melt data vars
  = flat_map (fun k => replicate (length data) (phase_name k)) vars.
Proof.
  induction vars as [|k vars IH]; [reflexivity|].
  unfold melt in *. cbn [flat_map]. rewrite fmap_app, IH. f_equal.
  clear. induction data as [|r data IH]; [reflexivity|]. cbn. by rewrite <- IH.
Qed.

(** X12.  [plot_violin] shows the three top-level phases only: for a
    selection that has rows, the frame handed to [violinplot] has three rows
    per selected record, and there is one violin for each of "frontend",
    "backend" and "linker", in this order, over that column of the selected
    records; borrowck, typeck and metadata are left out. *)
Theorem plot_violin_sections
    (data : DataFrame) (profile scenario kind : option string) :
  filter_data data profile scenario kind <> [] ->
  let rows := filter_data data profile scenario kind in
  length (plot_violin_data data profile scenario kind) = (3 * length rows)%nat /\
  plot_violin data profile scenario kind
  = [("frontend", List.map col_frontend rows);
     ("backend", List.map col_backend rows);
     ("linker", List.map col_linker rows)].
Proof.
  intros Hne. cbn zeta.
  unfold plot_violin, plot_violin_data, violins.
  revert Hne. generalize (filter_data data profile scenario kind).
  intros rows Hne.
  split.
  { unfold melt. cbn [flat_map]. rewrite !length_app, !length_map. cbn. lia. }
  rewrite melt_sections. cbn [flat_map phase_name].
  destruct rows as [|r rows']; [done|].
  cbn [length]. rewrite app_nil_r.
  rewrite unique_block.
  2:{ intros [Hin|Hin]%elem_of_app; apply elem_of_replicate in Hin as [Hin _];
      discriminate. }
  rewrite unique_block.
  2:{ intros Hin; apply elem_of_replicate in Hin as [Hin _]; discriminate. }
  rewrite <- (app_nil_r (replicate _ "linker")).
  rewrite unique_block by apply not_elem_of_nil.
  cbn [unique fmap list_fmap].
  assert (Hsec : forall key, key ∈ [Frontend; Backend; Linker] ->
            section_percent (melt (r :: rows') [Frontend; Backend; Linker])
                            (phase_name key)
            = List.map (get_col key) (r :: rows')).
  { intros key Hin. clear -Hin.
    unfold melt. cbn [flat_map].
    rewrite !section_percent_app, !section_percent_block. cbn [section_percent].
    apply list_elem_of_In in Hin. cbn in Hin.
    destruct Hin as [<-|[<-|[<-|[]]]]; cbn [phase_name];
      repeat case_decide; try done; cbn [app]; by rewrite ?app_nil_r. }
  change "frontend" with (phase_name Frontend).
  change "backend" with (phase_name Backend).
  change "linker" with (phase_name Linker).
  rewrite (Hsec Frontend), (Hsec Backend), (Hsec Linker);
    try (apply list_elem_of_In; cbn; tauto).
  reflexivity.
Qed.

Lemma plot_violin_sections_witness :
  plot_violin [row_scenario; row_other] None None (Some "bin")
  = [("frontend", [F64.of_Z 60]); ("backend", [F64.of_Z 30]);
     ("linker", [F64.of_Z 10])].
Proof.
  apply (plot_violin_sections [row_scenario; row_other] None None (Some "bin")).
  vm_compute. discriminate.
Defined.

(** ** The mean *)

Lemma round_exact (s : bool) (m : positive) (e : Z) :
  bounded F64.prec F64.emax m e = true ->
  binary_round_aux F64.prec F64.emax s (Zpos m) e loc_Exact = S754_finite s m e.
Proof.
  unfold bounded, canonical_mantissa.
  intros [Hc%Z.eqb_eq He]%andb_prop.
  unfold binary_round_aux, shr_fexp. cbn [Zdigits2 shr_record_of_loc].
  rewrite Hc, Z.sub_diag. cbn [shr shr_m loc_of_shr_record round_nearest_even Zdigits2
                               shr_record_of_loc].
  rewrite Hc, Z.sub_diag. cbn [shr shr_m]. by rewrite He.
Qed.

Lemma round_exact_double (s : bool) (m : positive) (e : Z) :
  bounded F64.prec F64.emax m e = true ->
  binary_round_aux F64.prec F64.emax s (Zpos m~0) (e - 1) loc_Exact
  = S754_finite s m e.
Proof.
  intros Hb. pose proof Hb as Hb'. revert Hb'.
  unfold bounded, canonical_mantissa.
  intros [Hc%Z.eqb_eq He]%andb_prop.
  unfold binary_round_aux at 1. unfold shr_fexp at 1.
  cbn [Zdigits2 digits2_pos shr_record_of_loc].
  replace (Zpos (Pos.succ (digits2_pos m)) + (e - 1)) with (Zpos (digits2_pos m) + e)
    by lia.
  rewrite Hc. replace (e - (e - 1)) with 1 by lia.
  cbn [shr SpecFloat.iter_pos shr_1 orb shr_m loc_of_shr_record round_nearest_even].
  replace (e - 1 + 1) with e by lia.
  unfold shr_fexp. cbn [Zdigits2 shr_record_of_loc].
  rewrite Hc, Z.sub_diag. cbn [shr shr_m]. by rewrite He.
Qed.

(** Dividing a binary64 number by one gives the number back. *)
Lemma div_one (s : bool) (m : positive) (e : Z) :
  bounded F64.prec F64.emax m e = true ->
  F64.div (S754_finite s m e) (F64.of_Z 1) = S754_finite s m e.
Proof.
  intros Hb. pose proof Hb as Hb'. revert Hb'.
  unfold bounded, canonical_mantissa.
  intros [Hc%Z.eqb_eq He]%andb_prop.
  change (F64.of_Z 1) with (S754_finite false 4503599627370496 (-52)).
  unfold F64.div, SFdiv, SFdiv_core_binary.
  change (Zdigits2 (Zpos 4503599627370496)) with 53.
  cbn [Zdigits2]. rewrite xorb_false_r.
  set (e' := Z.min _ _).
  assert (He' : e' = e \/ e' = e - 1).
  { subst e'. revert Hc. unfold fexp, emin, F64.prec, F64.emax.
    pose proof (Pos2Z.is_pos (digits2_pos m)). lia. }
  destruct He' as [->| ->].
  - replace (e - -52 - e) with 52 by lia.
    rewrite Z.shiftl_mul_pow2 by lia.
    pose proof (Z_div_mod (Zpos m * 2 ^ 52) (Zpos 4503599627370496) eq_refl) as Hdiv.
    destruct (Z.div_eucl _ _) as [q r]. destruct Hdiv as [Heq Hr].
    change (2 ^ 52) with 4503599627370496 in Heq.
    assert (q = Zpos m /\ r = 0) as [-> ->] by lia.
    change (new_location _ 0) with loc_Exact.
    by apply round_exact.
  - replace (e - -52 - (e - 1)) with 53 by lia.
    rewrite Z.shiftl_mul_pow2 by lia.
    pose proof (Z_div_mod (Zpos m * 2 ^ 53) (Zpos 4503599627370496) eq_refl) as Hdiv.
    destruct (Z.div_eucl _ _) as [q r]. destruct Hdiv as [Heq Hr].
    change (2 ^ 53) with 9007199254740992 in Heq.
    assert (q = Zpos m~0 /\ r = 0) as [-> ->] by lia.
    change (new_location _ 0) with loc_Exact.
    by apply round_exact_double.
Qed.

Lemma mean_single (x : float) :
  valid_binary F64.prec F64.emax x = true ->
  x <> S754_zero true ->
  mean [x] = x.
Proof.
  destruct x as [[]|[]| |s m e]; try done.
  intros Hv _. unfold mean. cbn [List.filter F64.is_nan negb length fold_left].
  change (F64.add (F64.of_Z 0) (S754_finite s m e)) with (S754_finite s m e).
  change (Z.of_nat 1) with 1. by apply div_one.
Qed.

Lemma group_bars_columns (rows : DataFrame) :
  group_bars rows
  = plot_bar_bars (mean (List.map col_backend rows)) (mean (List.map col_linker rows))
                  (mean (List.map col_borrowck rows)) (mean (List.map col_typeck rows))
                  (mean (List.map col_metadata rows)).
Proof.
  unfold group_bars. fold normalized_keys.
  change "backend" with (phase_name Backend).
  change "linker" with (phase_name Linker).
  change "borrowck" with (phase_name Borrowck).
  change "typeck" with (phase_name Typeck).
  change "metadata" with (phase_name Metadata).
  by rewrite !section_percent_melt.
Qed.

(** X13.  The mean of one value is the value: a group that holds a single
    record is drawn with that record's own percentages, without any rounding
    (the sum [0 + x] and the quotient [x / 1] are exact).  The negative zero,
    whose sign a sum can lose, is set aside. *)
Theorem single_record_group (r : Row) :
  (forall key, key <> Frontend ->
     valid_binary F64.prec F64.emax (get_col key r) = true /\
     get_col key r <> S754_zero true) ->
  group_bars [r]
  = plot_bar_bars (col_backend r) (col_linker r) (col_borrowck r) (col_typeck r)
                  (col_metadata r).
Proof.
  intros Hr.
  rewrite group_bars_columns. cbn [List.map].
  destruct (Hr Backend) as [? ?]; [done|].
  destruct (Hr Linker) as [? ?]; [done|].
  destruct (Hr Borrowck) as [? ?]; [done|].
  destruct (Hr Typeck) as [? ?]; [done|].
  destruct (Hr Metadata) as [? ?]; [done|].
  cbn [get_col] in *.
  by rewrite !mean_single.
Qed.

Lemma single_record_group_witness :
  group_bars [row_scenario]
  = plot_bar_bars (F64.of_Z 30) (F64.of_Z 10) (F64.of_Z 20) (F64.of_Z 25) (F64.of_Z 5).
Proof.
  apply (single_record_group row_scenario).
  intros key Hkey. destruct key; try done; split; vm_compute; congruence.
Defined.

Lemma pairwise_sum_small (fuel : nat) (a : list float) :
  (length a < 8)%nat -> pairwise_sum fuel a = fold_left F64.add a (S754_zero true).
Proof.
  intros Hlt. apply Nat.ltb_lt in Hlt. destruct fuel; cbn [pairwise_sum]; by rewrite Hlt.
Qed.

(** Two partial sums that differ at most in the sign of a zero stay so when
    a value is added to both, and the final [0 + sum] removes the
    difference. *)
Lemma add_zero_sign (s s' a : float) :
  s = s' \/ (F64.is_zero s = true /\ F64.is_zero s' = true) ->
  F64.add s a = F64.add s' a \/
  (F64.is_zero (F64.add s a) = true /\ F64.is_zero (F64.add s' a) = true).
Proof.
  intros [->|[Hs Hs']]; [by left|].
  destruct s as [ss| | |]; try discriminate.
  destruct s' as [ss'| | |]; try discriminate.
  destruct a as [sa|sa| |sa ma ea]; [right|left..]; try reflexivity.
  by destruct ss, ss', sa.
Qed.

Lemma fold_add_zero_sign (l : list float) (s s' : float) :
  s = s' \/ (F64.is_zero s = true /\ F64.is_zero s' = true) ->
  F64.add (F64.of_Z 0) (fold_left F64.add l s)
  = F64.add (F64.of_Z 0) (fold_left F64.add l s').
Proof.
  revert s s'. induction l as [|a l IH]; intros s s' H.
  - cbn [fold_left]. destruct H as [->|[Hs Hs']]; [reflexivity|].
    destruct s as [[]| | |], s' as [[]| | |]; try discriminate; reflexivity.
  - cbn [fold_left]. by apply IH, add_zero_sign.
Qed.

Lemma np_sum_skip_zero (l1 l2 : list float) :
  (length (l1 ++ F64.of_Z 0 :: l2) < 8)%nat ->
  np_sum (l1 ++ F64.of_Z 0 :: l2) = np_sum (l1 ++ l2).
Proof.
  intros Hlen. unfold np_sum.
  rewrite !pairwise_sum_small; [|revert Hlen; rewrite !length_app; cbn; lia|exact Hlen].
  rewrite !fold_left_app. cbn [fold_left].
  apply fold_add_zero_sign.
  destruct (fold_left F64.add l1 (S754_zero true)) as [[]|[]| |]; try (by left);
    right; split; reflexivity.
Qed.

Lemma mean_skip (l1 l2 : list float) (x : float) :
  F64.is_nan x = true ->
  (length (l1 ++ x :: l2) < 8)%nat ->
  mean (l1 ++ x :: l2) = mean (l1 ++ l2).
Proof.
  intros Hx Hlen. unfold mean.
  rewrite !List.filter_app, !List.map_app. cbn [List.filter List.map].
  rewrite Hx. cbn [negb].
  rewrite np_sum_skip_zero; [reflexivity|].
  revert Hlen. rewrite !length_app. cbn [length]. by rewrite !length_map.
Qed.

(** X14.  Missing values and the aggregation.  In a group of fewer than
    eight rows, a record whose five drawn percentages are all NaN (as
    normalisation leaves them for a record of zero total) does not change the
    rectangles of its group, wherever it stands among the rows: its entries
    are replaced by 0, which the left-to-right sum absorbs, and they are not
    counted.  From eight rows on this is no longer so, because the position of
    a value decides with which values it is added first: for the eight runs
    [eight_rows] the mean of the backend is 3.6999999999999997, and 3.7 when
    the missing record stands before them. *)
Theorem group_bars_skips_missing (rows1 rows2 : DataFrame) (r : Row) (st : Plt) :
  (forall key, key <> Frontend -> F64.is_nan (get_col key r) = true) ->
  (length (rows1 ++ r :: rows2) < 8)%nat ->
  group_bars (rows1 ++ r :: rows2) = group_bars (rows1 ++ rows2) /\
  plot_bar (rows1 ++ r :: rows2) None None None st
  = plot_bar (rows1 ++ rows2) None None None st /\
  mean (List.map col_backend eight_rows)
  = S754_finite false 8331659310635417 (-51) /\
  mean (List.map col_backend (row_missing :: eight_rows))
  = S754_finite false 8331659310635418 (-51) /\
  group_bars (row_missing :: eight_rows) <> group_bars eight_rows.
Proof.
  intros Hr Hlen.
  assert (Hg : group_bars (rows1 ++ r :: rows2) = group_bars (rows1 ++ rows2)).
  { assert (Hl : forall f : Row -> float,
                (length (List.map f rows1 ++ f r :: List.map f rows2) < 8)%nat).
    { intros f. revert Hlen. rewrite !length_app. cbn [length].
      by rewrite !length_map. }
    rewrite !group_bars_columns, !List.map_app. cbn [List.map].
    rewrite (mean_skip _ _ (col_backend r)); [|by apply (Hr Backend)|apply (Hl col_backend)].
    rewrite (mean_skip _ _ (col_linker r)); [|by apply (Hr Linker)|apply (Hl col_linker)].
    rewrite (mean_skip _ _ (col_borrowck r)); [|by apply (Hr Borrowck)|apply (Hl col_borrowck)].
    rewrite (mean_skip _ _ (col_typeck r)); [|by apply (Hr Typeck)|apply (Hl col_typeck)].
    rewrite (mean_skip _ _ (col_metadata r)); [|by apply (Hr Metadata)|apply (Hl col_metadata)].
    reflexivity. }
  split; [exact Hg|]. split.
  { rewrite !plot_bar_group. cbn [filter_data]. by rewrite Hg. }
  split; [vm_compute; reflexivity|]. split; [vm_compute; reflexivity|].
  intros Heq.
  apply (f_equal (fun bs => bar_width <$> bs !! 4%nat)) in Heq.
  vm_compute in Heq. discriminate Heq.
Qed.

Lemma group_bars_skips_missing_witness :
  group_bars ([row_scenario] ++ normalized_row row_zero :: [row_other])
  = group_bars ([row_scenario] ++ [row_other]).
Proof.
  apply (group_bars_skips_missing [row_scenario] [row_other]
           (normalized_row row_zero) plt_initial).
  - intros key Hkey. destruct key; try done; vm_compute; reflexivity.
  - cbn. lia.
Defined.

(** X15.  [plot_bar] reads five columns only: two groups that agree on the
    backend, linker, borrowck, typeck and metadata columns are drawn alike,
    whatever their frontend percentages, benchmarks, profiles, scenarios and
    kinds are; the frontend is the background of width 100 in both. *)
Theorem plot_bar_frontend_unused (rows1 rows2 : DataFrame) (st : Plt) :
  (forall key, key <> Frontend ->
     List.map (get_col key) rows1 = List.map (get_col key) rows2) ->
  group_bars rows1 = group_bars rows2 /\
  plot_bar rows1 None None None st = plot_bar rows2 None None None st /\
  group_bars rows1 !! 0%nat
  = Some (mkBar (F64.of_Z 0) (F64.of_Z 0) (F64.of_Z 100) (F64.of_Z 1) c_frontend).
Proof.
  intros Hcols.
  assert (Hg : group_bars rows1 = group_bars rows2).
  { rewrite !group_bars_columns.
    change col_backend with (get_col Backend).
    change col_linker with (get_col Linker).
    change col_borrowck with (get_col Borrowck).
    change col_typeck with (get_col Typeck).
    change col_metadata with (get_col Metadata).
    by rewrite !Hcols. }
  split; [exact Hg|]. split; [|reflexivity].
  rewrite !plot_bar_group. cbn [filter_data]. by rewrite Hg.
Qed.

Lemma plot_bar_frontend_unused_witness :
  group_bars [row_scenario]
  = group_bars [row_of "diesel-1.4.8" "Opt" "IncrFull" "lib"
                       (F64.of_Z 7) (F64.of_Z 30) (F64.of_Z 10)
                       (F64.of_Z 20) (F64.of_Z 25) (F64.of_Z 5)].
Proof.
  apply (plot_bar_frontend_unused [row_scenario]
           [row_of "diesel-1.4.8" "Opt" "IncrFull" "lib"
                   (F64.of_Z 7) (F64.of_Z 30) (F64.of_Z 10)
                   (F64.of_Z 20) (F64.of_Z 25) (F64.of_Z 5)] plt_initial).
  intros key Hkey. destruct key; try done; reflexivity.
Defined.

(** ** The layout *)

Lemma add_comm (x y : float) : F64.add x y = F64.add y x.
Proof.
  destruct x as [[]|[]| |sx mx ex], y as [[]|[]| |sy my ey]; try reflexivity.
  unfold F64.add, SFadd. by rewrite (Z.min_comm ex ey), Z.add_comm.
Qed.

(** X16.  The rectangles tile the axis for every input, NaN or not: the
    linker starts at 0 and the backend where the linker's width ends; the
    borrowck rectangle starts at the right edge of the backend rectangle, the
    typeck rectangle at the right edge of borrowck, and the metadata rectangle
    at the right edge of typeck.  The frontend lies behind all of them from 0
    to 100.  Every rectangle ends at height 1; the three inner ones start at
    one half. *)
Theorem segments_tile (b l bc tc md : float) :
  match plot_bar_bars b l bc tc md with
  | [fe; bo; ty; me; ba; li] =>
      segment fe = (F64.of_Z 0, F64.of_Z 100, c_frontend) /\
      bar_x li = F64.of_Z 0 /\ bar_width li = l /\
      bar_x ba = bar_width li /\ bar_width ba = b /\
      bar_x bo = bar_right ba /\ bar_width bo = bc /\
      bar_x ty = bar_right bo /\ bar_width ty = tc /\
      bar_x me = bar_right ty /\ bar_width me = md /\
      Forall (fun bar => F64.add (bar_y bar) (bar_height bar) = F64.of_Z 1)
             [fe; bo; ty; me; ba; li] /\
      Forall (fun bar => bar_y bar = F64.div (F64.of_Z 1) (F64.of_Z 2)) [bo; ty; me] /\
      Forall (fun bar => bar_y bar = F64.of_Z 0) [fe; ba; li]
  | _ => False
  end.
Proof.
  cbn [plot_bar_bars].
  repeat split; try reflexivity.
  - unfold bar_right. cbn [bar_x bar_width nadd float_number]. apply add_comm.
  - repeat constructor.
  - repeat constructor.
  - repeat constructor.
Qed.

(** X17.  The legend of [create_bars] tells the truth about the rectangles
    of [plot_bar]: every patch has the colour of exactly one rectangle, and
    the width of that rectangle is the mean of the column the patch is
    labelled with; for "Frontend" it is the constant 100.  No colour and no
    label occurs twice. *)
Theorem legend_names_widths (rows : DataFrame) :
  List.map (fun p => (patch_label p,
                      bar_width <$> List.find (fun bar => bar_color bar =? patch_color p)%nat
                                              (group_bars rows)))
           (create_bars true)
  = [ ("Frontend", Some (F64.of_Z 100));
      ("Backend", Some (mean (List.map col_backend rows)));
      ("Linker", Some (mean (List.map col_linker rows)));
      ("borrowck", Some (mean (List.map col_borrowck rows)));
      ("typeck", Some (mean (List.map col_typeck rows)));
      ("metadata", Some (mean (List.map col_metadata rows))) ] /\
  bar_color <$> group_bars rows ≡ₚ patch_color <$> create_bars true /\
  NoDup (patch_color <$> create_bars true) /\
  NoDup (patch_label <$> create_bars true).
Proof.
  rewrite group_bars_columns.
  generalize (mean (List.map col_backend rows)) (mean (List.map col_linker rows))
             (mean (List.map col_borrowck rows)) (mean (List.map col_typeck rows))
             (mean (List.map col_metadata rows)).
  intros b l bc tc md.
  split; [reflexivity|]. split.
  - cbn. unfold c_frontend, c_backend, c_linker, c_borrowck, c_typeck, c_metadata.
    apply NoDup_Permutation.
    + apply NoDup_ListNoDup. repeat constructor; cbn; lia.
    + apply NoDup_ListNoDup. repeat constructor; cbn; lia.
    + intros c. rewrite !list_elem_of_In. cbn. lia.
  - split; apply NoDup_ListNoDup; cbn; repeat constructor; cbn;
      unfold c_frontend, c_backend, c_linker, c_borrowck, c_typeck, c_metadata;
      intuition (try lia; try discriminate).
Qed.

(** X18.  A NaN mean displaces what is drawn after it: when the mean of the
    backend or of the linker is NaN, all three inner rectangles are placed at
    NaN; when only the mean of borrowck is NaN, typeck and metadata are.  The
    frontend rectangle is not affected. *)
Theorem nan_mean_displaces_inner (b l bc tc md : float) :
  F64.is_nan b || F64.is_nan l || F64.is_nan bc = true ->
  Forall (fun bar => F64.is_nan (bar_x bar) = true)
         (skipn (if F64.is_nan b || F64.is_nan l then 0 else 1)
                (inner_bars (plot_bar_bars b l bc tc md))) /\
  List.map segment (firstn 1 (plot_bar_bars b l bc tc md))
  = [(F64.of_Z 0, F64.of_Z 100, c_frontend)].
Proof.
  intros Hnan. split; [|reflexivity].
  change (inner_bars (plot_bar_bars b l bc tc md)) with
    [ mkBar (F64.add b l) (F64.div (F64.of_Z 1) (F64.of_Z 2)) bc
            (F64.sub (F64.of_Z 1) (F64.div (F64.of_Z 1) (F64.of_Z 2))) c_borrowck;
      mkBar (F64.add (F64.add b l) bc) (F64.div (F64.of_Z 1) (F64.of_Z 2)) tc
            (F64.sub (F64.of_Z 1) (F64.div (F64.of_Z 1) (F64.of_Z 2))) c_typeck;
      mkBar (F64.add (F64.add (F64.add b l) bc) tc)
            (F64.div (F64.of_Z 1) (F64.of_Z 2)) md
            (F64.sub (F64.of_Z 1) (F64.div (F64.of_Z 1) (F64.of_Z 2))) c_metadata ].
  destruct (F64.is_nan b || F64.is_nan l) eqn:Hbl.
  - assert (H0 : F64.is_nan (F64.add b l) = true) by (by apply add_is_nan).
    assert (H1 : F64.is_nan (F64.add (F64.add b l) bc) = true)
      by (apply add_is_nan; by rewrite H0).
    assert (H2 : F64.is_nan (F64.add (F64.add (F64.add b l) bc) tc) = true)
      by (apply add_is_nan; by rewrite H1).
    cbn [skipn]. repeat constructor; assumption.
  - cbn [orb] in Hnan.
    assert (H1 : F64.is_nan (F64.add (F64.add b l) bc) = true)
      by (apply add_is_nan; rewrite Hnan; apply orb_true_r).
    assert (H2 : F64.is_nan (F64.add (F64.add (F64.add b l) bc) tc) = true)
      by (apply add_is_nan; by rewrite H1).
    cbn [skipn]. repeat constructor; assumption.
Qed.

Lemma nan_mean_displaces_inner_witness :
  Forall (fun bar => F64.is_nan (bar_x bar) = true)
         (skipn 1 (inner_bars (plot_bar_bars (F64.of_Z 30) (F64.of_Z 10) F64.nan
                                             (F64.of_Z 25) (F64.of_Z 5)))).
Proof.
  apply (nan_mean_displaces_inner (F64.of_Z 30) (F64.of_Z 10) F64.nan
                                  (F64.of_Z 25) (F64.of_Z 5)).
  vm_compute. reflexivity.
Defined.

(** ** Saved files *)

Lemma update_gcf_with_saved g s st :
  update_gcf g (with_saved s st) = with_saved s (update_gcf g st).
Proof. reflexivity. Qed.

Lemma update_gca_with_saved g s st :
  update_gca g (with_saved s st) = with_saved s (update_gca g st).
Proof. reflexivity. Qed.

Lemma plt_legend_with_saved hs l anchor s st :
  plt_legend hs l anchor (with_saved s st) = with_saved s (plt_legend hs l anchor st).
Proof. reflexivity. Qed.

Lemma savefig_with_saved name s st :
  savefig name (with_saved s st) = with_saved s (savefig name st).
Proof. unfold savefig, with_saved. cbn. by rewrite app_assoc. Qed.

Lemma fold_plt_bar_with_saved bs s st :
  fold_left (fun st b => plt_bar b st) bs (with_saved s st)
  = with_saved s (fold_left (fun st b => plt_bar b st) bs st).
Proof.
  revert st. induction bs as [|b bs IH]; intros st; [reflexivity|].
  cbn [fold_left]. unfold plt_bar at 2. rewrite update_gca_with_saved. apply IH.
Qed.

Lemma plot_bar_with_saved data profile scenario kind s st :
  plot_bar data profile scenario kind (with_saved s st)
  = with_saved s (plot_bar data profile scenario kind st).
Proof.
  rewrite 2!plot_bar_group.
  generalize (group_bars (filter_data data profile scenario kind)). intros bs.
  rewrite fold_plt_bar_with_saved.
  generalize (fold_left (fun st b => plt_bar b st) bs st). intros st1.
  by rewrite 2!update_gca_with_saved.
Qed.

Lemma single_bench_with_saved data name benchmark profile scenario metadata s st :
  single_bench data name benchmark profile scenario metadata (with_saved s st)
  = with_saved s (single_bench data name benchmark profile scenario metadata st).
Proof.
  rewrite 2!single_bench_steps, plot_bar_with_saved.
  generalize (plot_bar (filter (fun r => col_benchmark r = benchmark) data)
                       (Some profile) (Some scenario) None st). intros st1.
  rewrite plt_legend_with_saved.
  generalize (plt_legend (create_bars metadata) "lower left" (1, 1 # 10)%Q st1).
  intros st2.
  by rewrite 3!update_gcf_with_saved, savefig_with_saved.
Qed.

Lemma map_dataframe_with_saved data s st :
  map_dataframe data (with_saved s st) = with_saved s (map_dataframe data st).
Proof.
  unfold map_dataframe.
  generalize (imap (fun i (cell : string * string) => (i, cell)) facet_cells).
  intros l. revert st. induction l as [|[i cell] l IH]; intros st; [reflexivity|].
  cbn [fold_left]. destruct (facet_data data cell) as [|r rows].
  - apply IH.
  - rewrite update_gcf_with_saved, plot_bar_with_saved. apply IH.
Qed.

Lemma grid_with_saved data name benchmark kind metadata s st :
  grid data name benchmark kind metadata (with_saved s st)
  = with_saved s (grid data name benchmark kind metadata st).
Proof.
  rewrite 2!grid_steps_rows.
  change (FacetGrid (with_saved s st)) with (with_saved s (FacetGrid st)).
  generalize (FacetGrid st). intros st0.
  rewrite map_dataframe_with_saved.
  generalize (map_dataframe (select_rows data benchmark None None kind) st0).
  intros st1.
  rewrite plt_legend_with_saved.
  generalize (plt_legend (create_bars metadata) "lower left" (1, 4 # 10)%Q st1).
  intros st2.
  by rewrite 2!update_gcf_with_saved, savefig_with_saved.
Qed.

Lemma single_benchmark_with_saved df benchmark metadata s st :
  single_benchmark df benchmark metadata (with_saved s st)
  = with_saved s (single_benchmark df benchmark metadata st).
Proof.
  rewrite 2!single_benchmark_steps. by rewrite 4!single_bench_with_saved.
Qed.

Lemma with_saved_split st :
  st = with_saved (plt_saved st) (mkPlt (plt_figure st) []).
Proof. destruct st as [f s]. unfold with_saved. cbn. by rewrite app_nil_r. Qed.


(** ** The grid's figure *)

Lemma fold_plt_bar_saved bs st :
  plt_saved (fold_left (fun st b => plt_bar b st) bs st) = plt_saved st.
Proof.
  revert st. induction bs as [|b bs IH]; intros st; [reflexivity|].
  cbn [fold_left]. by rewrite IH.
Qed.

Lemma plot_bar_saved data profile scenario kind st :
  plt_saved (plot_bar data profile scenario kind st) = plt_saved st.
Proof. rewrite plot_bar_group, !saved_update_gca. apply fold_plt_bar_saved. Qed.

Lemma map_dataframe_saved data st :
  plt_saved (map_dataframe data st) = plt_saved st.
Proof.
  unfold map_dataframe.
  generalize (imap (fun i (cell : string * string) => (i, cell)) facet_cells).
  intros l. revert st. induction l as [|[i cell] l IH]; intros st; [reflexivity|].
  cbn [fold_left]. rewrite IH. destruct (facet_data data cell); [reflexivity|].
  by rewrite plot_bar_saved.
Qed.

Lemma grid_from_initial data name benchmark kind metadata st :
  grid data name benchmark kind metadata st
  = with_saved (plt_saved st) (grid data name benchmark kind metadata plt_initial).
Proof.
  rewrite <- grid_with_saved. rewrite 2!grid_steps_rows.
  replace (FacetGrid (with_saved (plt_saved st) plt_initial)) with (FacetGrid st);
    [reflexivity|].
  unfold FacetGrid, with_saved. cbn. by rewrite app_nil_r.
Qed.

Lemma grid_saved_figure data name benchmark kind metadata st :
  exists fig,
    plt_figure (grid data name benchmark kind metadata st) = Some fig /\
    plt_saved (grid data name benchmark kind metadata st)
    = plt_saved st ++ [((name ++ ".png")%string, fig)] /\
    length (fig_axes fig) = 12%nat /\
    fig_size_inches fig = Some (14, 6) /\
    fig_dpi fig = Some 300.
Proof.
  exists (gcf (grid data name benchmark kind metadata st)).
  split; [|split; [|split; [|split]]].
  - rewrite grid_steps_rows. reflexivity.
  - rewrite grid_steps_rows.
    pose proof (map_dataframe_saved (select_rows data benchmark None None kind)
                  (FacetGrid st)) as Hs.
    revert Hs.
    generalize (map_dataframe (select_rows data benchmark None None kind)
                              (FacetGrid st)).
    intros st1 Hs. change (plt_saved (FacetGrid st)) with (plt_saved st) in Hs.
    rewrite <- Hs. reflexivity.
  - rewrite grid_steps_rows.
    pose proof (map_dataframe_ready (select_rows data benchmark None None kind) st)
      as Hr.
    apply (ready_update_gca 12
             (set_legend (Some (mkLegend (create_bars metadata) "lower left"
                                         (1, 4 # 10)%Q)))) in Hr.
    fold (plt_legend (create_bars metadata) "lower left" (1, 4 # 10)%Q
            (map_dataframe (select_rows data benchmark None None kind)
                           (FacetGrid st))) in Hr.
    revert Hr.
    generalize (plt_legend (create_bars metadata) "lower left" (1, 4 # 10)%Q
                  (map_dataframe (select_rows data benchmark None None kind)
                                 (FacetGrid st))).
    intros st2 [Hn _]. exact Hn.
  - rewrite grid_steps_rows. reflexivity.
  - rewrite grid_steps_rows. reflexivity.
Qed.

(** X20.  [grid] starts a new figure: on every state its effect is to put one
    file after those saved before, and the figure it draws and leaves current
    is the one it draws from the initial state, whatever figure was current
    before.  The figure has twelve axes, the [j]-th showing the rectangles of
    the [j]-th facet, is 14 by 6 inches at 300 dpi, and is the one saved under
    the name of the grid. *)
Theorem grid_fresh_figure (data : DataFrame) (name : string)
    (benchmark kind : option string) (metadata : bool) (st : Plt) :
  grid data name benchmark kind metadata st
  = with_saved (plt_saved st) (grid data name benchmark kind metadata plt_initial) /\
  exists fig,
    plt_figure (grid data name benchmark kind metadata st) = Some fig /\
    plt_saved (grid data name benchmark kind metadata st)
    = plt_saved st ++ [((name ++ ".png")%string, fig)] /\
    length (fig_axes fig) = 12%nat /\
    fig_size_inches fig = Some (14, 6) /\
    fig_dpi fig = Some 300 /\
    forall j cell, facet_cells !! j = Some cell ->
      ax_bars <$> fig_axes fig !! j
      = Some (cell_bars (select_rows data benchmark None None kind) cell).
Proof.
  split; [apply grid_from_initial|].
  destruct (grid_saved_figure data name benchmark kind metadata st)
    as (fig & Hf & Hs & Hn & Hsz & Hd).
  exists fig. repeat (split; [assumption|]).
  intros j cell Hj.
  pose proof (grid_cells data name benchmark kind metadata st j cell Hj) as Hb.
  unfold bars_at, gcf in Hb. by rewrite Hf in Hb.
Qed.

(** ** The legend of the grid *)

Lemma update_gca_legend_at n g st j :
  ready n st ->
  legend_at (update_gca g st) j =
    (if decide (fig_current (gcf st) = j)
     then (fun ax => ax_legend (g ax)) <$> fig_axes (gcf st) !! j
     else legend_at st j) /\
  fig_current (gcf (update_gca g st)) = fig_current (gcf st).
Proof.
  intros [Hn Hlt]. unfold legend_at, update_gca.
  rewrite gcf_update_gcf. unfold update_gca_fig. cbv zeta.
  rewrite (with_gca_ready _ Hlt). cbn [update_axes fig_axes fig_current].
  split; [|reflexivity].
  rewrite list_lookup_alter.
  destruct (decide (fig_current (gcf st) = j)) as [Heq|Hne]; [|reflexivity].
  subst j. by destruct (fig_axes (gcf st) !! fig_current (gcf st)).
Qed.

Lemma update_gca_legend_keep n g st j :
  ready n st ->
  (forall ax, ax_legend (g ax) = ax_legend ax) ->
  legend_at (update_gca g st) j = legend_at st j.
Proof.
  intros Hr Hg. rewrite (proj1 (update_gca_legend_at n g st j Hr)).
  destruct (decide _); [|reflexivity].
  unfold legend_at. destruct (fig_axes (gcf st) !! j); cbn; [|reflexivity].
  by rewrite Hg.
Qed.

Lemma fold_plt_bar_legend n bs st j :
  ready n st ->
  legend_at (fold_left (fun st b => plt_bar b st) bs st) j = legend_at st j.
Proof.
  revert st. induction bs as [|b bs IH]; intros st Hr; [reflexivity|].
  cbn [fold_left].
  rewrite IH by (by apply ready_update_gca).
  by apply (update_gca_legend_keep n).
Qed.

(** [plot_bar] leaves every legend and the choice of the current axes as they
    are. *)
Lemma plot_bar_legend_at n data profile scenario kind st j :
  ready n st ->
  legend_at (plot_bar data profile scenario kind st) j = legend_at st j /\
  fig_current (gcf (plot_bar data profile scenario kind st))
  = fig_current (gcf st).
Proof.
  intros Hr. rewrite plot_bar_group.
  pose proof (fold_plt_bar_legend n
                (group_bars (filter_data data profile scenario kind)) st j Hr) as Hl.
  destruct (fold_plt_bar_bars_at n
              (group_bars (filter_data data profile scenario kind)) st j Hr)
    as (_ & Hc & Hr1).
  revert Hl Hc Hr1.
  generalize (fold_left (fun st b => plt_bar b st)
                (group_bars (filter_data data profile scenario kind)) st).
  intros st1 Hl Hc Hr1.
  pose proof (update_gca_legend_keep n set_null_locator st1 j Hr1
                ltac:(reflexivity)) as Hl2.
  pose proof (proj2 (update_gca_legend_at n set_null_locator st1 j Hr1)) as Hc2.
  pose proof (ready_update_gca n set_null_locator st1 Hr1) as Hr2.
  revert Hl2 Hc2 Hr2. generalize (update_gca set_null_locator st1).
  intros st2 Hl2 Hc2 Hr2.
  pose proof (update_gca_legend_keep n
                (set_xlabel "Percent out of whole compilation") st2 j Hr2
                ltac:(reflexivity)) as Hl3.
  pose proof (proj2 (update_gca_legend_at n
                (set_xlabel "Percent out of whole compilation") st2 j Hr2)) as Hc3.
  split; congruence.
Qed.

Lemma map_dataframe_fold_current n data (l : list (nat * (string * string))) st :
  ready n st ->
  Forall (fun ic => (ic.1 < n)%nat) l ->
  let st' := fold_left (fun st ic =>
                          let '(i, cell) := ic in
                          match facet_data data cell with
                          | [] => st
                          | subset =>
                              plot_bar subset None None None (update_gcf (sca i) st)
                          end) l st in
  fig_current (gcf st')
  = default (fig_current (gcf st))
      (last (filter (fun ic => (0 < length (facet_data data ic.2))%nat) l).*1) /\
  forall j, legend_at st' j = legend_at st j.
Proof.
  cbv zeta.
  revert st. induction l as [|[i cell] l IH]; intros st Hr Hidx; [done|].
  apply Forall_cons_1 in Hidx as [Hi Hidx]. cbn [fold_left].
  destruct (map_dataframe_step n data i cell st 0 Hr Hi) as [Hr1 _].
  destruct (IH _ Hr1 Hidx) as [Hc Hl]. clear IH.
  rewrite Hc. clear Hc.
  destruct (facet_data data cell) as [|r rows] eqn:E.
  - rewrite filter_cons_False by (cbn [snd]; rewrite E; cbn; lia).
    split; [reflexivity|exact Hl].
  - rewrite filter_cons_True by (cbn [snd]; rewrite E; cbn; lia).
    pose proof (ready_sca n i st Hi (proj1 Hr)) as Hrs.
    split.
    + rewrite (proj2 (plot_bar_legend_at n (r :: rows) None None None _ 0 Hrs)).
      rewrite fmap_cons, last_cons. cbn [fst].
      change (fig_current (gcf (update_gcf (sca i) st))) with i.
      by destruct (last _).
    + intros j. rewrite Hl.
      by rewrite (proj1 (plot_bar_legend_at n (r :: rows) None None None _ j Hrs)).
Qed.

Lemma map_dataframe_current data st :
  fig_current (gcf (map_dataframe data (FacetGrid st))) = legend_cell data /\
  forall j, (j < 12)%nat ->
    legend_at (map_dataframe data (FacetGrid st)) j = Some None.
Proof.
  destruct (map_dataframe_fold_current 12 data
              (imap (fun i cell => (i, cell)) facet_cells) (FacetGrid st)
              (ready_FacetGrid st)) as [Hc Hl].
  { vm_compute. repeat constructor. }
  split; [exact Hc|].
  intros j Hj. unfold map_dataframe. rewrite Hl.
  do 12 (destruct j as [|j]; [reflexivity|]). lia.
Qed.

Lemma last_filter_split {A} (P : A -> Prop) `{!forall x, Decision (P x)}
    (l1 l2 : list A) (x : A) :
  P x -> Forall (fun y => ~ P y) l2 -> last (filter P (l1 ++ x :: l2)) = Some x.
Proof.
  intros Hx Hl2. rewrite filter_app, filter_cons_True by done.
  rewrite (filter_none_Forall P l2 Hl2). apply last_snoc.
Qed.

Lemma legend_cell_last data j cell :
  facet_cells !! j = Some cell ->
  facet_data data cell <> [] ->
  (forall j' cell', (j < j')%nat -> facet_cells !! j' = Some cell' ->
                    facet_data data cell' = []) ->
  legend_cell data = j.
Proof.
  intros Hj Hne Hlater. unfold legend_cell, drawn_cells.
  assert (Hlook : imap (fun i (cell : string * string) => (i, cell)) facet_cells !! j
                  = Some (j, cell)) by (by rewrite list_lookup_imap, Hj).
  rewrite <- (take_drop_middle _ _ _ Hlook).
  rewrite filter_app, filter_cons_True.
  2:{ cbn [snd]. destruct (facet_data data cell); [done|cbn; lia]. }
  rewrite (filter_none_Forall _ (drop (S j) _)).
  - rewrite fmap_app. cbn [fmap list_fmap fst]. by rewrite last_snoc.
  - apply Forall_lookup. intros k [i c] Hk.
    rewrite lookup_drop, list_lookup_imap in Hk.
    destruct (facet_cells !! (S j + k)%nat) as [c'|] eqn:Ec; [|discriminate].
    injection Hk as <- <-. cbn [snd].
    rewrite (Hlater (S j + k)%nat c'); [cbn; lia|lia|exact Ec].
Qed.

Lemma legend_cell_none data :
  (forall cell, cell ∈ facet_cells -> facet_data data cell = []) ->
  legend_cell data = 11%nat.
Proof.
  intros Hall. unfold legend_cell, drawn_cells.
  rewrite filter_none_Forall; [reflexivity|].
  apply Forall_lookup. intros k [i c] Hk.
  rewrite list_lookup_imap in Hk.
  destruct (facet_cells !! k) as [c'|] eqn:Ec; [|discriminate].
  injection Hk as <- <-. cbn [snd].
  rewrite (Hall c'); [cbn; lia|]. by eapply list_elem_of_lookup_2.
Qed.

(** X21.  The legend of a grid is attached to one facet: the last facet (in
    row-major order) that has rows, because [map_dataframe] leaves the axes it
    drew last current; when no facet has rows it is the last axes of the grid.
    No other axes of the grid has a legend. *)
Theorem grid_legend_position (data : DataFrame) (name : string)
    (benchmark kind : option string) (metadata : bool) (st : Plt) :
  let rows := select_rows data benchmark None None kind in
  let st' := grid data name benchmark kind metadata st in
  fig_current (gcf st') = legend_cell rows /\
  (forall j, (j < 12)%nat ->
     legend_at st' j
     = Some (if decide (j = legend_cell rows)
             then Some (mkLegend (create_bars metadata) "lower left" (1, 4 # 10)%Q)
             else None)) /\
  (forall j cell,
     facet_cells !! j = Some cell ->
     facet_data rows cell <> [] ->
     (forall j' cell', (j < j')%nat -> facet_cells !! j' = Some cell' ->
                       facet_data rows cell' = []) ->
     legend_cell rows = j) /\
  ((forall cell, cell ∈ facet_cells -> facet_data rows cell = []) ->
   legend_cell rows = 11%nat).
Proof.
  cbv zeta.
  split; [|split; [|split; [apply legend_cell_last|apply legend_cell_none]]].
  - rewrite grid_steps_rows.
    destruct (map_dataframe_current (select_rows data benchmark None None kind) st)
      as [Hc _].
    pose proof (map_dataframe_ready (select_rows data benchmark None None kind) st)
      as Hr.
    revert Hc Hr.
    generalize (map_dataframe (select_rows data benchmark None None kind)
                              (FacetGrid st)).
    intros st1 Hc Hr.
    pose proof (proj2 (update_gca_legend_at 12
                  (set_legend (Some (mkLegend (create_bars metadata) "lower left"
                                              (1, 4 # 10)%Q))) st1 0 Hr)) as Hc2.
    rewrite <- Hc, <- Hc2. reflexivity.
  - intros j Hj. rewrite grid_steps_rows.
    destruct (map_dataframe_current (select_rows data benchmark None None kind) st)
      as [Hc Hl].
    specialize (Hl j Hj).
    pose proof (map_dataframe_ready (select_rows data benchmark None None kind) st)
      as Hr.
    revert Hc Hl Hr.
    generalize (map_dataframe (select_rows data benchmark None None kind)
                              (FacetGrid st)).
    intros st1 Hc Hl Hr.
    pose proof (proj1 (update_gca_legend_at 12
                  (set_legend (Some (mkLegend (create_bars metadata) "lower left"
                                              (1, 4 # 10)%Q))) st1 j Hr)) as Hl2.
    transitivity (legend_at (plt_legend (create_bars metadata) "lower left"
                                        (1, 4 # 10)%Q st1) j); [reflexivity|].
    unfold plt_legend. rewrite Hl2, Hc.
    destruct (decide (legend_cell _ = j)) as [Heq|Hne].
    + rewrite decide_True by done.
      unfold legend_at in Hl. destruct (fig_axes (gcf st1) !! j); [reflexivity|].
      discriminate Hl.
    + rewrite decide_False by done. exact Hl.
Qed.

(** ** The whole script *)

Lemma single_bench_count data name benchmark profile scenario metadata st :
  wf_plt st ->
  let st' := single_bench data name benchmark profile scenario metadata st in
  wf_plt st' /\
  saved_names st' = saved_names st ++ [(name ++ ".png")%string] /\
  saved_rectangles st'
  = saved_rectangles st ++ [(length (ax_bars (current_axes st)) + 6)%nat] /\
  length (ax_bars (current_axes st')) = (length (ax_bars (current_axes st)) + 6)%nat.
Proof.
  intros Hwf. cbv zeta.
  destruct (single_bench_axes data name benchmark profile scenario metadata st Hwf)
    as (Hw & Hs & Hc).
  revert Hw Hs Hc.
  generalize (single_bench data name benchmark profile scenario metadata st).
  intros st' Hw Hs Hc.
  assert (Hlen : length (ax_bars (current_axes st'))
                 = (length (ax_bars (current_axes st)) + 6)%nat).
  { rewrite Hc. cbn [hide_all_spines hide_spine ax_bars].
    by rewrite length_app. }
  split; [exact Hw|]. unfold saved_names, saved_rectangles.
  rewrite Hs, !fmap_app. cbn [fmap list_fmap fst snd].
  fold (current_axes st'). rewrite Hlen. done.
Qed.

Lemma single_benchmark_count df benchmark metadata st :
  wf_plt st ->
  let st' := single_benchmark df benchmark metadata st in
  let n := length (ax_bars (current_axes st)) in
  wf_plt st' /\
  saved_names st'
  = saved_names st ++
    [ ((benchmark ++ "-debug-full") ++ ".png")%string;
      ((benchmark ++ "-debug-incr-patched") ++ ".png")%string;
      ((benchmark ++ "-opt-incr-patched") ++ ".png")%string;
      ((benchmark ++ "-check-incr-patched") ++ ".png")%string ] /\
  saved_rectangles st'
  = saved_rectangles st ++ [(n + 6)%nat; (n + 12)%nat; (n + 18)%nat; (n + 24)%nat] /\
  length (ax_bars (current_axes st')) = (n + 24)%nat.
Proof.
  intros Hwf. cbv zeta. rewrite single_benchmark_steps.
  destruct (single_bench_count df (benchmark ++ "-debug-full") benchmark
              "Debug" "Full" true st Hwf) as (Hw1 & Hn1 & Hr1 & Hl1).
  revert Hw1 Hn1 Hr1 Hl1.
  generalize (single_bench df (benchmark ++ "-debug-full") benchmark
                "Debug" "Full" true st). intros st1 Hw1 Hn1 Hr1 Hl1.
  destruct (single_bench_count df (benchmark ++ "-debug-incr-patched") benchmark
              "Debug" "IncrPatched0" true st1 Hw1) as (Hw2 & Hn2 & Hr2 & Hl2).
  revert Hw2 Hn2 Hr2 Hl2.
  generalize (single_bench df (benchmark ++ "-debug-incr-patched") benchmark
                "Debug" "IncrPatched0" true st1). intros st2 Hw2 Hn2 Hr2 Hl2.
  destruct (single_bench_count df (benchmark ++ "-opt-incr-patched") benchmark
              "Opt" "IncrPatched0" true st2 Hw2) as (Hw3 & Hn3 & Hr3 & Hl3).
  revert Hw3 Hn3 Hr3 Hl3.
  generalize (single_bench df (benchmark ++ "-opt-incr-patched") benchmark
                "Opt" "IncrPatched0" true st2). intros st3 Hw3 Hn3 Hr3 Hl3.
  destruct (single_bench_count df (benchmark ++ "-check-incr-patched") benchmark
              "Check" "IncrPatched0" true st3 Hw3) as (Hw4 & Hn4 & Hr4 & Hl4).
  revert Hw4 Hn4 Hr4 Hl4.
  generalize (single_bench df (benchmark ++ "-check-incr-patched") benchmark
                "Check" "IncrPatched0" true st3). intros st4 Hw4 Hn4 Hr4 Hl4.
  split; [exact Hw4|].
  split; [by rewrite Hn4, Hn3, Hn2, Hn1, <- !app_assoc|].
  split.
  - rewrite Hr4, Hr3, Hr2, Hr1, <- !app_assoc, Hl3, Hl2, Hl1. cbn [app].
    apply (f_equal (app (saved_rectangles st))).
    repeat (apply (f_equal2 cons); [lia|]). reflexivity.
  - rewrite Hl4, Hl3, Hl2, Hl1. lia.
Qed.

Lemma grid_count data name benchmark kind metadata st :
  let st' := grid data name benchmark kind metadata st in
  saved_names st' = saved_names st ++ [(name ++ ".png")%string] /\
  exists fig, plt_saved st' = plt_saved st ++ [((name ++ ".png")%string, fig)] /\
              length (fig_axes fig) = 12%nat.
Proof.
  cbv zeta.
  destruct (grid_saved_figure data name benchmark kind metadata st)
    as (fig & _ & Hs & Hn & _).
  split; [|by exists fig].
  unfold saved_names. by rewrite Hs, fmap_app.
Qed.

(** X22.  The script as a whole.  Whatever the frame holds, the
    normalisation succeeds and fifteen files are written, in a fixed order and
    under pairwise different names.  The twelve single views are all drawn on
    the same axes, which is never cleared: the [k]-th of them holds [6 * k]
    more rectangles than the axes held at the start, those of all earlier
    views under its own.  Each of the three grids is a figure of its own with
    twelve axes. *)
Theorem main_files (df : DataFrame) (st : Plt) :
  wf_plt st ->
  exists st',
    main df st = Some st' /\
    saved_names st' = saved_names st ++ output_files /\
    NoDup output_files /\
    length output_files = 15%nat /\
    take 12 (drop (length (plt_saved st)) (saved_rectangles st'))
    = (fun k => (length (ax_bars (current_axes st)) + 6 * k)%nat) <$> seq 1 12 /\
    Forall (fun nf => length (fig_axes nf.2) = 12%nat)
           (drop (length (plt_saved st) + 12) (plt_saved st')).
Proof.
  intros Hwf. unfold main. rewrite normalize_rows.
  cbn [mbind option_bind].
  generalize (List.map normalized_row df). intros d.
  eexists. split; [reflexivity|].
  destruct (single_benchmark_count d "ripgrep-14.1.0" false st Hwf)
    as (Hw1 & Hn1 & Hr1 & Hl1).
  revert Hw1 Hn1 Hr1 Hl1.
  generalize (single_benchmark d "ripgrep-14.1.0" false st).
  intros st1 Hw1 Hn1 Hr1 Hl1.
  destruct (single_benchmark_count d "regex-automata-0.4.6" true st1 Hw1)
    as (Hw2 & Hn2 & Hr2 & Hl2).
  revert Hw2 Hn2 Hr2 Hl2.
  generalize (single_benchmark d "regex-automata-0.4.6" true st1).
  intros st2 Hw2 Hn2 Hr2 Hl2.
  destruct (single_benchmark_count d "diesel-1.4.8" true st2 Hw2)
    as (Hw3 & Hn3 & Hr3 & Hl3).
  revert Hw3 Hn3 Hr3 Hl3.
  generalize (single_benchmark d "diesel-1.4.8" true st2).
  intros st3 Hw3 Hn3 Hr3 Hl3.
  destruct (grid_count d "ripgrep" (Some "ripgrep-14.1.0") None false st3)
    as (Hn4 & f4 & Hs4 & Hf4).
  revert Hn4 Hs4.
  generalize (grid d "ripgrep" (Some "ripgrep-14.1.0") None false st3).
  intros st4 Hn4 Hs4.
  destruct (grid_count d "binaries" None (Some "bin") false st4)
    as (Hn5 & f5 & Hs5 & Hf5).
  revert Hn5 Hs5.
  generalize (grid d "binaries" None (Some "bin") false st4).
  intros st5 Hn5 Hs5.
  destruct (grid_count d "libraries" None (Some "lib") false st5)
    as (Hn6 & f6 & Hs6 & Hf6).
  revert Hn6 Hs6.
  generalize (grid d "libraries" None (Some "lib") false st5).
  intros st6 Hn6 Hs6.
  assert (Hlen3 : length (plt_saved st3) = (length (plt_saved st) + 12)%nat).
  { transitivity (length (saved_rectangles st3));
      [unfold saved_rectangles; by rewrite length_fmap|].
    rewrite Hr3, Hr2, Hr1, !length_app. unfold saved_rectangles.
    rewrite length_fmap. cbn [length]. lia. }
  split; [|split; [|split; [reflexivity|split]]].
  - rewrite Hn6, Hn5, Hn4, Hn3, Hn2, Hn1, <- !app_assoc. reflexivity.
  - apply NoDup_ListNoDup. unfold output_files.
    repeat (constructor; [cbn; intuition discriminate|]). constructor.
  - unfold saved_rectangles at 1. rewrite Hs6, Hs5, Hs4, !fmap_app.
    fold (saved_rectangles st3). rewrite Hr3, Hr2, Hr1, Hl2, Hl1.
    rewrite <- !app_assoc.
    replace (length (plt_saved st)) with (length (saved_rectangles st))
      by (unfold saved_rectangles; by rewrite length_fmap).
    rewrite drop_app_length.
    generalize (length (ax_bars (current_axes st))). intros n.
    cbn [app take fmap list_fmap seq].
    repeat (apply (f_equal2 cons); [lia|]). reflexivity.
  - rewrite Hs6, Hs5, Hs4, <- Hlen3, <- !app_assoc, drop_app_length.
    repeat constructor; assumption.
Qed.

Lemma main_files_witness :
  exists st',
    main [row_scenario; row_other] plt_initial = Some st' /\
    saved_names st' = output_files.
Proof.
  destruct (main_files [row_scenario; row_other] plt_initial eq_refl)
    as (st' & Hm & Hn & _).
  exists st'. split; [exact Hm|exact Hn].
Defined.

(** ** The printed summary *)

Lemma value_counts_lookup (l : list string) (k : string) :
  value_counts l !! k
  = (if decide (length (filter (fun x => x = k) l) = 0%nat) then None
     else Some (length (filter (fun x => x = k) l))).
Proof.
  induction l as [|x l IH]; [reflexivity|].
  unfold value_counts in *. cbn [foldr].
  destruct (decide (x = k)) as [->|Hne].
  - rewrite lookup_insert_eq, filter_cons_True by done. rewrite IH.
    cbn [length].
    rewrite (decide_False (P := S _ = 0%nat)) by lia.
    by destruct (decide (length (filter (fun x => x = k) l) = 0%nat)) as [->|].
  - rewrite lookup_insert_ne, filter_cons_False by done. exact IH.
Qed.

Lemma kind_groups_length (df : DataFrame) (k : string) :
  length (filter (fun x => x = k) ((group_keys df).*2))
  = length (remove_dups (col_benchmark <$> filter (fun r => col_kind r = k) df)).
Proof.
  transitivity (length ((filter (fun g : string * string => g.2 = k)
                                (group_keys df)).*1)).
  { rewrite length_fmap. unfold group_keys.
    generalize (remove_dups ((fun r => (col_benchmark r, col_kind r)) <$> df)).
    intros l. induction l as [|[b k'] l IH]; [reflexivity|].
    rewrite fmap_cons. cbn [snd].
    destruct (decide (k' = k)) as [->|Hne].
    - rewrite !filter_cons_True by done. cbn [length]. by rewrite IH.
    - by rewrite !filter_cons_False. }
  apply Permutation_length, NoDup_Permutation.
  - apply NoDup_fmap_2_strong.
    + intros [b1 k1] [b2 k2] [Hk1 _]%list_elem_of_filter [Hk2 _]%list_elem_of_filter.
      cbn in *. congruence.
    + apply NoDup_filter, NoDup_remove_dups.
  - apply NoDup_remove_dups.
  - intros b. rewrite elem_of_remove_dups, !list_elem_of_fmap. split.
    + intros ([b' k'] & -> & [Hk Hin]%list_elem_of_filter).
      unfold group_keys in Hin. rewrite elem_of_remove_dups in Hin.
      apply list_elem_of_fmap in Hin as (r & Heq & Hr).
      injection Heq as -> ->. cbn in Hk. exists r. split; [reflexivity|].
      by apply list_elem_of_filter.
    + intros (r & -> & [Hk Hr]%list_elem_of_filter).
      exists (col_benchmark r, col_kind r). split; [reflexivity|].
      apply list_elem_of_filter. split; [exact Hk|].
      unfold group_keys. rewrite elem_of_remove_dups.
      apply list_elem_of_fmap. by exists r.
Qed.

(** X23.  The summary printed in line 132 counts benchmarks, not runs: the
    number listed for a kind is the number of distinct benchmarks that have a
    row of that kind, however many rows (profiles, scenarios) each of them
    has; a kind that no row has is not listed, and no count is zero. *)
Theorem benchmarks_per_kind_counts (df : DataFrame) (k : string) :
  let n := length (remove_dups (col_benchmark <$> filter (fun r => col_kind r = k) df)) in
  benchmarks_per_kind df !! k = (if decide (n = 0%nat) then None else Some n) /\
  (benchmarks_per_kind df !! k = None <-> forall r, r ∈ df -> col_kind r <> k) /\
  (forall r r', r ∈ df -> col_benchmark r' = col_benchmark r ->
                col_kind r' = col_kind r ->
                benchmarks_per_kind (r' :: df) = benchmarks_per_kind df).
Proof.
  cbv zeta.
  assert (Hlook : benchmarks_per_kind df !! k
                  = (if decide (length (remove_dups
                         (col_benchmark <$> filter (fun r => col_kind r = k) df)) = 0%nat)
                     then None
                     else Some (length (remove_dups
                         (col_benchmark <$> filter (fun r => col_kind r = k) df))))).
  { unfold benchmarks_per_kind. by rewrite value_counts_lookup, kind_groups_length. }
  split; [exact Hlook|]. split.
  - rewrite Hlook. destruct (decide _) as [Hz|Hnz]; split; try done.
    + intros _ r Hr Hk. apply length_zero_iff_nil in Hz.
      assert (Hin : col_benchmark r ∈ remove_dups
                (col_benchmark <$> filter (fun r => col_kind r = k) df)).
      { rewrite elem_of_remove_dups. apply list_elem_of_fmap. exists r.
        split; [reflexivity|]. by apply list_elem_of_filter. }
      rewrite Hz in Hin. by apply elem_of_nil in Hin.
    + intros Hall. exfalso. apply Hnz.
      rewrite (filter_none_Forall (fun r => col_kind r = k) df); [reflexivity|].
      apply Forall_forall. exact Hall.
  - intros r r' Hr Hb Hk. unfold benchmarks_per_kind, group_keys.
    rewrite fmap_cons. cbn [remove_dups].
    destruct (decide_rel elem_of _ _) as [_|Hn]; [reflexivity|].
    exfalso. apply Hn.
    apply list_elem_of_fmap. exists r. split; [by rewrite Hb, Hk|exact Hr].
Qed.

(** ** The figures in full *)

Lemma update_gca_axes_at n g st j :
  ready n st ->
  axes_at (update_gca g st) j =
    (if decide (fig_current (gcf st) = j) then g <$> axes_at st j else axes_at st j).
Proof.
  intros [Hn Hlt]. unfold axes_at, update_gca.
  rewrite gcf_update_gcf. unfold update_gca_fig. cbv zeta.
  rewrite (with_gca_ready _ Hlt). cbn [update_axes fig_axes fig_current].
  rewrite list_lookup_alter.
  destruct (decide (fig_current (gcf st) = j)) as [Heq|Hne]; [|reflexivity].
  by subst j.
Qed.

Lemma fold_plt_bar_axes_at n bs st j :
  ready n st ->
  axes_at (fold_left (fun st b => plt_bar b st) bs st) j =
    (if decide (fig_current (gcf st) = j)
     then (fun ax => mkAxes (ax_bars ax ++ bs) (ax_legend ax) (ax_xlabel ax)
                            (ax_yticks ax) (ax_hidden_spines ax)) <$> axes_at st j
     else axes_at st j).
Proof.
  revert st. induction bs as [|b bs IH]; intros st Hr.
  - cbn [fold_left]. destruct (decide _); [|reflexivity].
    destruct (axes_at st j) as [[]|]; cbn; [|reflexivity]. by rewrite app_nil_r.
  - cbn [fold_left].
    pose proof (ready_update_gca n (add_bar b) st Hr) as Hr'.
    pose proof (update_gca_axes_at n (add_bar b) st j Hr) as Ha.
    pose proof (proj2 (update_gca_legend_at n (add_bar b) st j Hr)) as Hc.
    fold (plt_bar b st) in Hr', Ha, Hc.
    rewrite (IH _ Hr'), Hc, Ha.
    destruct (decide _); [|reflexivity].
    destruct (axes_at st j) as [ax|]; cbn; [|reflexivity].
    by rewrite <- app_assoc.
Qed.

Lemma plot_bar_axes_at n data profile scenario kind st j :
  ready n st ->
  axes_at (plot_bar data profile scenario kind st) j =
    (if decide (fig_current (gcf st) = j)
     then drawn (group_bars (filter_data data profile scenario kind)) <$> axes_at st j
     else axes_at st j).
Proof.
  intros Hr. rewrite plot_bar_group.
  pose proof (fold_plt_bar_axes_at n
                (group_bars (filter_data data profile scenario kind)) st j Hr) as Ha.
  destruct (fold_plt_bar_bars_at n
              (group_bars (filter_data data profile scenario kind)) st j Hr)
    as (_ & Hc & Hr1).
  revert Ha Hc Hr1.
  generalize (fold_left (fun st b => plt_bar b st)
                (group_bars (filter_data data profile scenario kind)) st).
  generalize (group_bars (filter_data data profile scenario kind)).
  intros bs st1 Ha Hc Hr1.
  pose proof (update_gca_axes_at n set_null_locator st1 j Hr1) as Ha2.
  pose proof (proj2 (update_gca_legend_at n set_null_locator st1 j Hr1)) as Hc2.
  pose proof (ready_update_gca n set_null_locator st1 Hr1) as Hr2.
  revert Ha2 Hc2 Hr2. generalize (update_gca set_null_locator st1).
  intros st2 Ha2 Hc2 Hr2.
  rewrite (update_gca_axes_at n _ st2 j Hr2), Hc2, Ha2, Hc, Ha.
  destruct (decide _); [|reflexivity].
  by destruct (axes_at st j).
Qed.

Lemma map_dataframe_fold_axes n data (l : list (nat * (string * string))) st j :
  ready n st ->
  Forall (fun ic => (ic.1 < n)%nat) l ->
  NoDup (l.*1) ->
  axes_at (fold_left (fun st ic =>
                        let '(i, cell) := ic in
                        match facet_data data cell with
                        | [] => st
                        | subset =>
                            plot_bar subset None None None (update_gcf (sca i) st)
                        end) l st) j =
    match list_find (fun ic => ic.1 = j) l with
    | Some (_, (_, cell)) =>
        match facet_data data cell with
        | [] => axes_at st j
        | subset => drawn (group_bars subset) <$> axes_at st j
        end
    | None => axes_at st j
    end.
Proof.
  revert st. induction l as [|[i cell] l IH]; intros st Hr Hidx Hnd; [done|].
  apply Forall_cons_1 in Hidx as [Hi Hidx].
  apply NoDup_cons in Hnd as [Hnotin Hnd].
  cbn [fold_left].
  destruct (map_dataframe_step n data i cell st j Hr Hi) as [Hr1 _].
  rewrite (IH _ Hr1 Hidx Hnd). clear IH.
  assert (Hstep : axes_at (match facet_data data cell with
                           | [] => st
                           | subset => plot_bar subset None None None
                                         (update_gcf (sca i) st)
                           end) j
                  = if decide (i = j)
                    then match facet_data data cell with
                         | [] => axes_at st j
                         | subset => drawn (group_bars subset) <$> axes_at st j
                         end
                    else axes_at st j).
  { destruct (facet_data data cell) as [|r rows].
    - by destruct (decide _).
    - rewrite (plot_bar_axes_at n (r :: rows) None None None _ j
                 (ready_sca n i st Hi (proj1 Hr))).
      reflexivity. }
  rewrite Hstep. clear Hstep.
  cbn [list_find]. cbn [fst]. destruct (decide (i = j)) as [->|Hne].
  - cbn.
    destruct (list_find (fun ic => ic.1 = j) l) as [[k [i' c']]|] eqn:Ef; [|done].
    apply list_find_Some in Ef as (Hk & Hj & _). cbn in Hj. subst i'.
    exfalso. apply Hnotin. apply list_elem_of_fmap. exists (j, c'). split; [done|].
    by eapply list_elem_of_lookup_2.
  - destruct (list_find (fun ic => ic.1 = j) l) as [[k [i' c']]|]; done.
Qed.

Lemma map_dataframe_axes data st j cell :
  facet_cells !! j = Some cell ->
  axes_at (map_dataframe data (FacetGrid st)) j
  = Some (match facet_data data cell with
          | [] => facet_axes
          | subset => drawn (group_bars subset) facet_axes
          end).
Proof.
  intros Hj. unfold map_dataframe.
  rewrite (map_dataframe_fold_axes 12 data _ (FacetGrid st) j (ready_FacetGrid st)).
  - assert (Hfind : list_find (fun ic : nat * (string * string) => ic.1 = j)
                      (imap (fun i cell => (i, cell)) facet_cells)
                    = Some (j, (j, cell)) /\
                    axes_at (FacetGrid st) j = Some facet_axes).
    { do 12 (destruct j as [|j]; [injection Hj as <-; split; reflexivity|]).
      discriminate Hj. }
    destruct Hfind as [-> ->]. by destruct (facet_data data cell).
  - vm_compute. repeat constructor.
  - change (NoDup (seq 0 12)). apply NoDup_seq.
Qed.

Lemma facet_axes_fields : facet_axes = mkAxes [] None None true {["top"; "right"]}.
Proof.
  unfold facet_axes, hide_spine, new_axes. cbn [ax_bars ax_legend ax_xlabel ax_yticks
    ax_hidden_spines]. by f_equal.
Qed.

(** X24.  The figure of a grid, axes by axes.  A facet that has rows shows
    six rectangles, those of [plot_bar] for the means of its rows (written out
    in the second part), carries the label of the x axis and has no y ticks;
    a facet without rows is left as [FacetGrid] made it, without rectangles,
    with its y ticks and without a label.  Only the top and the right spine of
    a facet are hidden.  The legend sits on one facet, the last one drawn. *)
Theorem grid_axes (data : DataFrame) (name : string)
    (benchmark kind : option string) (metadata : bool) (st : Plt)
    (j : nat) (cell : string * string) :
  facet_cells !! j = Some cell ->
  let rows := select_rows data benchmark None None kind in
  axes_at (grid data name benchmark kind metadata st) j
  = Some (mkAxes
            (match facet_data rows cell with [] => [] | subset => group_bars subset end)
            (if decide (j = legend_cell rows)
             then Some (mkLegend (create_bars metadata) "lower left" (1, 4 # 10)%Q)
             else None)
            (match facet_data rows cell with
             | [] => None
             | _ => Some "Percent out of whole compilation"
             end)
            (match facet_data rows cell with [] => true | _ => false end)
            {["top"; "right"]}) /\
  (forall subset : DataFrame,
     let b := mean (List.map col_backend subset) in
     let l := mean (List.map col_linker subset) in
     let bc := mean (List.map col_borrowck subset) in
     let tc := mean (List.map col_typeck subset) in
     let md := mean (List.map col_metadata subset) in
     let half := F64.div (F64.of_Z 1) (F64.of_Z 2) in
     let inner := F64.sub (F64.of_Z 1) half in
     group_bars subset
     = [ mkBar (F64.of_Z 0) (F64.of_Z 0) (F64.of_Z 100) (F64.of_Z 1) c_frontend;
         mkBar (F64.add b l) half bc inner c_borrowck;
         mkBar (F64.add (F64.add b l) bc) half tc inner c_typeck;
         mkBar (F64.add (F64.add (F64.add b l) bc) tc) half md inner c_metadata;
         mkBar l (F64.of_Z 0) b (F64.of_Z 1) c_backend;
         mkBar (F64.of_Z 0) (F64.of_Z 0) l (F64.of_Z 1) c_linker ] /\
     length (group_bars subset) = 6%nat) /\
  ax_hidden_spines facet_axes = {["top"; "right"]} /\
  ("top" ∈ ax_hidden_spines facet_axes) /\
  ("right" ∈ ax_hidden_spines facet_axes) /\
  ("bottom" ∉ ax_hidden_spines facet_axes) /\
  ("left" ∉ ax_hidden_spines facet_axes).
Proof.
  intros Hj. cbv zeta.
  split; [|split; [|split; [by rewrite facet_axes_fields|]]].
  2:{ intros subset. split; [|reflexivity]. by rewrite group_bars_columns. }
  2:{ rewrite facet_axes_fields. cbn [ax_hidden_spines].
      rewrite !elem_of_union, !elem_of_singleton.
      repeat split; try tauto; intros [H|H]; discriminate H. }
  rewrite grid_steps_rows.
  pose proof (map_dataframe_axes (select_rows data benchmark None None kind) st j
                cell Hj) as Ha.
  destruct (map_dataframe_current (select_rows data benchmark None None kind) st)
    as [Hc _].
  pose proof (map_dataframe_ready (select_rows data benchmark None None kind) st)
    as Hr.
  revert Ha Hc Hr.
  generalize (map_dataframe (select_rows data benchmark None None kind)
                            (FacetGrid st)).
  intros st1 Ha Hc Hr.
  transitivity (axes_at (plt_legend (create_bars metadata) "lower left"
                                    (1, 4 # 10)%Q st1) j); [reflexivity|].
  unfold plt_legend. rewrite (update_gca_axes_at 12 _ st1 j Hr), Hc.
  revert Ha. rewrite facet_axes_fields. intros Ha. rewrite Ha.
  destruct (decide (legend_cell _ = j)) as [Heq|Hne].
  - rewrite decide_True by done. by destruct (facet_data _ cell).
  - rewrite decide_False by done. by destruct (facet_data _ cell).
Qed.

Lemma grid_axes_witness :
  axes_at (grid [row_scenario; row_other] "ripgrep" (Some "ripgrep-14.1.0") None
                false plt_initial) 0
  = Some (mkAxes [] None None true {["top"; "right"]}).
Proof.
  apply (grid_axes [row_scenario; row_other] "ripgrep" (Some "ripgrep-14.1.0") None
                   false plt_initial 0 ("Check", "Full")).
  reflexivity.
Defined.

Lemma map_axes_axes_at g st j :
  axes_at (update_gcf (map_axes g) st) j = g <$> axes_at st j.
Proof.
  unfold axes_at. rewrite gcf_update_gcf. cbn [map_axes fig_axes].
  change (List.map g (fig_axes (gcf st))) with (g <$> fig_axes (gcf st)).
  apply list_lookup_fmap.
Qed.

Lemma single_bench_unfigured data name benchmark profile scenario metadata saved :
  plt_figure (single_bench data name benchmark profile scenario metadata
                           (mkPlt None saved))
  = Some (mkFigure
            [hide_all_spines
               (mkAxes (group_bars (select_rows data (Some benchmark) (Some profile)
                                                (Some scenario) None))
                       (Some (mkLegend (create_bars metadata) "lower left"
                                       (1, 1 # 10)%Q))
                       (Some "Percent out of whole compilation") false ∅)]
            0%nat (Some (5, 2)) (Some 300)).
Proof.
  rewrite single_bench_steps, plot_bar_group.
  change (filter_data (filter (fun r => col_benchmark r = benchmark) data)
                      (Some profile) (Some scenario) None)
    with (select_rows data (Some benchmark) (Some profile) (Some scenario) None).
  rewrite group_bars_columns.
  generalize (select_rows data (Some benchmark) (Some profile) (Some scenario) None).
  intros rows.
  generalize (mean (List.map col_backend rows)) (mean (List.map col_linker rows))
             (mean (List.map col_borrowck rows)) (mean (List.map col_typeck rows))
             (mean (List.map col_metadata rows)).
  intros b l bc tc md. reflexivity.
Qed.

(** X25.  The figure of a single view.  Drawn first, it is a figure with one
    axes holding the six rectangles of the selected rows, the legend, the
    label and no y ticks, of 5 by 2 inches at 300 dpi.  Drawn on a figure that
    exists, it adds the rectangles to the current axes and replaces the legend
    of that axes; the other axes keep their content.  In both cases the top,
    right, bottom and left spines of every axes of the figure are hidden, and
    the file holds the figure as it is left. *)
Theorem single_bench_figure (data : DataFrame)
    (name benchmark profile scenario : string) (metadata : bool) (st : Plt) :
  let rows := select_rows data (Some benchmark) (Some profile) (Some scenario) None in
  let legend := mkLegend (create_bars metadata) "lower left" (1, 1 # 10)%Q in
  let st' := single_bench data name benchmark profile scenario metadata st in
  let b := mean (List.map col_backend rows) in
  let l := mean (List.map col_linker rows) in
  let bc := mean (List.map col_borrowck rows) in
  let tc := mean (List.map col_typeck rows) in
  let md := mean (List.map col_metadata rows) in
  let half := F64.div (F64.of_Z 1) (F64.of_Z 2) in
  let inner := F64.sub (F64.of_Z 1) half in
  let six :=
    [ mkBar (F64.of_Z 0) (F64.of_Z 0) (F64.of_Z 100) (F64.of_Z 1) c_frontend;
      mkBar (F64.add b l) half bc inner c_borrowck;
      mkBar (F64.add (F64.add b l) bc) half tc inner c_typeck;
      mkBar (F64.add (F64.add (F64.add b l) bc) tc) half md inner c_metadata;
      mkBar l (F64.of_Z 0) b (F64.of_Z 1) c_backend;
      mkBar (F64.of_Z 0) (F64.of_Z 0) l (F64.of_Z 1) c_linker ] in
  (plt_figure st = None ->
   plt_figure st'
   = Some (mkFigure
             [mkAxes six (Some legend) (Some "Percent out of whole compilation")
                     false {["top"; "right"; "bottom"; "left"]}]
             0%nat (Some (5, 2)) (Some 300))) /\
  (forall n, ready n st ->
     (forall j, axes_at st' j
                = (if decide (fig_current (gcf st) = j)
                   then (fun ax =>
                           mkAxes (ax_bars ax ++ six) (Some legend)
                                  (Some "Percent out of whole compilation") false
                                  ({["top"; "right"; "bottom"; "left"]}
                                     ∪ ax_hidden_spines ax))
                          <$> axes_at st j
                   else (fun ax =>
                           mkAxes (ax_bars ax) (ax_legend ax) (ax_xlabel ax)
                                  (ax_yticks ax)
                                  ({["top"; "right"; "bottom"; "left"]}
                                     ∪ ax_hidden_spines ax))
                          <$> axes_at st j)) /\
     fig_current (gcf st') = fig_current (gcf st) /\
     fig_size_inches (gcf st') = Some (5, 2) /\
     fig_dpi (gcf st') = Some 300) /\
  (wf_plt st ->
   Forall (fun ax => ("top" ∈ ax_hidden_spines ax) /\ ("right" ∈ ax_hidden_spines ax) /\
                     ("bottom" ∈ ax_hidden_spines ax) /\ ("left" ∈ ax_hidden_spines ax))
          (fig_axes (gcf st'))) /\
  last (plt_saved st') = Some ((name ++ ".png")%string, gcf st').
Proof.
  intros rows legend st' b l bc tc md half inner six.
  assert (Hsix : six = group_bars rows).
  { rewrite group_bars_columns. reflexivity. }
  clearbody six. subst six. clear b l bc tc md half inner.
  subst rows legend st'.
  assert (Hall : forall ax, hide_all_spines ax
                 = mkAxes (ax_bars ax) (ax_legend ax) (ax_xlabel ax) (ax_yticks ax)
                          ({["top"; "right"; "bottom"; "left"]} ∪ ax_hidden_spines ax)).
  { intros ax. unfold hide_all_spines, hide_spine.
    cbn [ax_bars ax_legend ax_xlabel ax_yticks ax_hidden_spines]. f_equal.
    apply leibniz_equiv. intros x.
    rewrite !elem_of_union, !elem_of_singleton. tauto. }
  split; [|split; [|split]].
  - destruct st as [f saved]. cbn [plt_figure]. intros ->.
    rewrite single_bench_unfigured, Hall.
    cbn [ax_bars ax_legend ax_xlabel ax_yticks ax_hidden_spines].
    reflexivity.
  - intros n Hr. rewrite single_bench_steps.
    pose proof (plot_bar_ready n (filter (fun r => col_benchmark r = benchmark) data)
                  (Some profile) (Some scenario) None st Hr) as Hr1.
    pose proof (fun j => plot_bar_axes_at n
                  (filter (fun r => col_benchmark r = benchmark) data)
                  (Some profile) (Some scenario) None st j Hr) as Ha1.
    pose proof (proj2 (plot_bar_legend_at n
                  (filter (fun r => col_benchmark r = benchmark) data)
                  (Some profile) (Some scenario) None st 0 Hr)) as Hc1.
    change (filter_data (filter (fun r => col_benchmark r = benchmark) data)
                        (Some profile) (Some scenario) None)
      with (select_rows data (Some benchmark) (Some profile) (Some scenario) None)
      in Ha1.
    revert Hr1 Ha1 Hc1.
    generalize (plot_bar (filter (fun r => col_benchmark r = benchmark) data)
                         (Some profile) (Some scenario) None st).
    generalize (group_bars (select_rows data (Some benchmark) (Some profile)
                                        (Some scenario) None)).
    intros bs st1 Hr1 Ha1 Hc1.
    pose proof (fun j => update_gca_axes_at n
                  (set_legend (Some (mkLegend (create_bars metadata) "lower left"
                                              (1, 1 # 10)%Q))) st1 j Hr1) as Ha2.
    pose proof (proj2 (update_gca_legend_at n
                  (set_legend (Some (mkLegend (create_bars metadata) "lower left"
                                              (1, 1 # 10)%Q))) st1 0 Hr1)) as Hc2.
    fold (plt_legend (create_bars metadata) "lower left" (1, 1 # 10)%Q st1)
      in Ha2, Hc2.
    revert Ha2 Hc2.
    generalize (plt_legend (create_bars metadata) "lower left" (1, 1 # 10)%Q st1).
    intros st2 Ha2 Hc2.
    split; [|split; [|split; reflexivity]].
    + intros j.
      transitivity (axes_at (update_gcf (map_axes hide_all_spines) st2) j);
        [reflexivity|].
      rewrite map_axes_axes_at, Ha2, Hc1, Ha1.
      destruct (decide _).
      * destruct (axes_at st j) as [ax|]; [|reflexivity].
        cbn [fmap option_fmap option_map]. by rewrite Hall.
      * destruct (axes_at st j) as [ax|]; [|reflexivity].
        cbn [fmap option_fmap option_map]. by rewrite Hall.
    + transitivity (fig_current (gcf st2)); [reflexivity|]. by rewrite Hc2.
  - intros Hwf. rewrite single_bench_steps.
    generalize (plt_legend (create_bars metadata) "lower left" (1, 1 # 10)%Q
                  (plot_bar (filter (fun r => col_benchmark r = benchmark) data)
                            (Some profile) (Some scenario) None st)).
    intros st2.
    change (fig_axes (gcf (savefig (name ++ ".png")
              (update_gcf (set_dpi 300)
                 (update_gcf (set_size_inches 5 2)
                    (update_gcf (map_axes hide_all_spines) st2))))))
      with (List.map hide_all_spines (fig_axes (gcf st2))).
    apply Forall_forall. intros ax Hin.
    apply list_elem_of_In, in_map_iff in Hin as (ax0 & <- & _).
    rewrite Hall. cbn [ax_hidden_spines].
    rewrite !elem_of_union, !elem_of_singleton. tauto.
  - rewrite single_bench_steps. unfold savefig at 1. cbn [plt_saved].
    rewrite last_snoc. reflexivity.
Qed.

Lemma single_bench_figure_witness :
  exists ax,
    plt_figure (single_bench [row_scenario; row_other] "out" "ripgrep-14.1.0"
                             "Debug" "Full" true plt_initial)
    = Some (mkFigure [ax] 0%nat (Some (5, 2)) (Some 300)) /\
    ax_hidden_spines ax = {["top"; "right"; "bottom"; "left"]} /\
    length (ax_bars ax) = 6%nat.
Proof.
  eexists. split.
  - apply (single_bench_figure [row_scenario; row_other] "out" "ripgrep-14.1.0"
                               "Debug" "Full" true plt_initial).
    reflexivity.
  - split; reflexivity.
Defined.

(** ** The files on disk *)

Lemma single_bench_saved data name benchmark profile scenario metadata st :
  plt_saved (single_bench data name benchmark profile scenario metadata st)
  = plt_saved st ++
    [((name ++ ".png")%string,
      gcf (single_bench data name benchmark profile scenario metadata st))].
Proof.
  rewrite single_bench_steps.
  pose proof (plot_bar_saved (filter (fun r => col_benchmark r = benchmark) data)
                (Some profile) (Some scenario) None st) as Hs.
  revert Hs.
  generalize (plot_bar (filter (fun r => col_benchmark r = benchmark) data)
                       (Some profile) (Some scenario) None st).
  intros st1 Hs. rewrite <- Hs. reflexivity.
Qed.

Lemma grid_saved data name benchmark kind metadata st :
  plt_saved (grid data name benchmark kind metadata st)
  = plt_saved st ++
    [((name ++ ".png")%string, gcf (grid data name benchmark kind metadata st))].
Proof.
  destruct (grid_saved_figure data name benchmark kind metadata st)
    as (fig & Hf & Hs & _).
  unfold gcf. by rewrite Hf, Hs.
Qed.

Lemma single_benchmark_saved df benchmark metadata st :
  exists f1 f2 f3 f4,
    plt_saved (single_benchmark df benchmark metadata st)
    = plt_saved st ++
      [ (((benchmark ++ "-debug-full") ++ ".png")%string, f1);
        (((benchmark ++ "-debug-incr-patched") ++ ".png")%string, f2);
        (((benchmark ++ "-opt-incr-patched") ++ ".png")%string, f3);
        (((benchmark ++ "-check-incr-patched") ++ ".png")%string, f4) ].
Proof.
  rewrite single_benchmark_steps.
  do 4 eexists. rewrite 4!single_bench_saved, <- !app_assoc. cbn [app]. reflexivity.
Qed.

Lemma main_saved df st st' :
  main df st = Some st' ->
  exists l, plt_saved st' = plt_saved st ++ l /\ l.*1 = output_files.
Proof.
  unfold main. rewrite normalize_rows. cbn [mbind option_bind].
  generalize (List.map normalized_row df). intros d. intros [= <-].
  rewrite 3!grid_saved.
  destruct (single_benchmark_saved d "ripgrep-14.1.0" false st)
    as (a1 & a2 & a3 & a4 & H1).
  revert H1. generalize (single_benchmark d "ripgrep-14.1.0" false st).
  intros st1 H1.
  destruct (single_benchmark_saved d "regex-automata-0.4.6" true st1)
    as (b1 & b2 & b3 & b4 & H2).
  revert H2. generalize (single_benchmark d "regex-automata-0.4.6" true st1).
  intros st2 H2.
  destruct (single_benchmark_saved d "diesel-1.4.8" true st2)
    as (c1 & c2 & c3 & c4 & H3).
  revert H3. generalize (single_benchmark d "diesel-1.4.8" true st2).
  intros st3 H3.
  rewrite H3, H2, H1, <- !app_assoc. cbn [app].
  eexists. split; [reflexivity|]. reflexivity.
Qed.

Lemma files_app st st' l :
  plt_saved st' = plt_saved st ++ l ->
  files st' = fold_left (fun m (nf : string * Figure) => <[nf.1 := nf.2]> m) l (files st).
Proof. intros Hs. unfold files. by rewrite Hs, fold_left_app. Qed.

Lemma fold_insert_lookup_other (l : list (string * Figure)) (m : gmap string Figure)
    (f : string) :
  f ∉ l.*1 ->
  fold_left (fun m (nf : string * Figure) => <[nf.1 := nf.2]> m) l m !! f = m !! f.
Proof.
  revert m. induction l as [|[n fig] l IH]; intros m Hf; [reflexivity|].
  rewrite fmap_cons in Hf. apply not_elem_of_cons in Hf as [Hne Hf].
  cbn [fold_left]. rewrite (IH _ Hf). cbn [fst snd]. by apply lookup_insert_ne.
Qed.

Lemma fold_insert_lookup_written (l : list (string * Figure)) (m : gmap string Figure)
    (f : string) :
  f ∈ l.*1 ->
  exists fig, (f, fig) ∈ l /\
    fold_left (fun m (nf : string * Figure) => <[nf.1 := nf.2]> m) l m !! f = Some fig.
Proof.
  revert m. induction l as [|[n fig] l IH]; intros m Hf; [by apply elem_of_nil in Hf|].
  cbn [fold_left]. cbn [fst snd].
  destruct (decide (f ∈ l.*1)) as [Hin|Hnin].
  - destruct (IH (<[n := fig]> m) Hin) as (fig' & Hl & Hlook).
    exists fig'. split; [by right|exact Hlook].
  - rewrite fmap_cons in Hf. apply elem_of_cons in Hf as [->|Hf]; [|done].
    exists fig. split; [left|].
    rewrite (fold_insert_lookup_other _ _ _ Hnin). apply lookup_insert_eq.
Qed.

(** X19.  The files on disk.  [single_bench] and [grid] write one file,
    [<name>.png], holding the figure they leave; a file that an earlier call
    saved under the same name is replaced, and every other file is kept as it
    was.  [single_benchmark] touches its four files only, and the script as a
    whole writes its fifteen files and leaves every other file unchanged. *)
Theorem saved_files_frame (data : DataFrame) (name benchmark profile scenario : string)
    (obenchmark okind : option string) (metadata : bool) (st : Plt) :
  files (single_bench data name benchmark profile scenario metadata st)
  = <[(name ++ ".png")%string :=
        gcf (single_bench data name benchmark profile scenario metadata st)]>
      (files st) /\
  files (grid data name obenchmark okind metadata st)
  = <[(name ++ ".png")%string := gcf (grid data name obenchmark okind metadata st)]>
      (files st) /\
  (forall f,
     f ∉ [ ((benchmark ++ "-debug-full") ++ ".png")%string;
           ((benchmark ++ "-debug-incr-patched") ++ ".png")%string;
           ((benchmark ++ "-opt-incr-patched") ++ ".png")%string;
           ((benchmark ++ "-check-incr-patched") ++ ".png")%string ] ->
     files (single_benchmark data benchmark metadata st) !! f = files st !! f) /\
  (forall st', main data st = Some st' ->
     (forall f, f ∉ output_files -> files st' !! f = files st !! f) /\
     (forall f, f ∈ output_files ->
        exists fig, (f, fig) ∈ plt_saved st' /\ files st' !! f = Some fig)) /\
  (forall benchmark' profile' scenario' metadata',
     let st1 := single_bench data name benchmark' profile' scenario' metadata' st in
     let st2 := single_bench data name benchmark profile scenario metadata st1 in
     files st2 !! (name ++ ".png")%string = Some (gcf st2) /\
     files st1 !! (name ++ ".png")%string = Some (gcf st1)).
Proof.
  split; [|split; [|split; [|split]]].
  - by rewrite (files_app st _ _ (single_bench_saved _ _ _ _ _ _ _)).
  - by rewrite (files_app st _ _ (grid_saved _ _ _ _ _ _)).
  - intros f Hf.
    destruct (single_benchmark_saved data benchmark metadata st)
      as (f1 & f2 & f3 & f4 & Hs).
    rewrite (files_app st _ _ Hs). by apply fold_insert_lookup_other.
  - intros st' Hm. destruct (main_saved data st st' Hm) as (l & Hs & Hl).
    rewrite (files_app st _ _ Hs). split.
    + intros f Hf. apply fold_insert_lookup_other. by rewrite Hl.
    + intros f Hf. rewrite <- Hl in Hf.
      destruct (fold_insert_lookup_written l (files st) f Hf) as (fig & Hin & Hlook).
      exists fig. split; [|exact Hlook]. rewrite Hs. apply elem_of_app. by right.
  - intros benchmark' profile' scenario' metadata'. cbv zeta.
    rewrite !(files_app _ _ _ (single_bench_saved _ _ _ _ _ _ _)).
    cbn [fold_left fst snd]. by rewrite !lookup_insert_eq.
Qed.
